(** * BTC staking message server: a shallow embedding and its properties

    The handlers of [x/btcstaking/keeper/msg_server.go] are embedded as
    functions over an explicit keeper state.  Every collaborator the handlers
    consult (parsers, the cryptographic verifier, the BTC light client, the
    checkpoint module, the parameter store) is a field of the record [Env];
    nothing about those is assumed beyond their signatures. *)

From Stdlib Require Import ZArith Lia List Bool Ascii String.
From stdpp Require Import base gmap strings list.

Local Open Scope string_scope.
Local Open Scope list_scope.
Local Open Scope Z_scope.

(** ** Machine integers *)

Module U64.
Definition modulus : Z := 2 ^ 64.
Definition wrap (z : Z) : Z := z mod modulus.
(** [a + b] and [a - b] on Go's [uint64]. *)
Definition add (a b : Z) : Z := wrap (a + b).
Definition sub (a b : Z) : Z := wrap (a - b).
Definition in_range (z : Z) : Prop := 0 <= z < modulus.
End U64.

Module U32.
Definition modulus : Z := 2 ^ 32.
Definition wrap (z : Z) : Z := z mod modulus.
Definition in_range (z : Z) : Prop := 0 <= z < modulus.
End U32.

(** ** Data model *)

(** Byte strings ([[]byte], hex strings, serialized keys and signatures). *)
Abbreviation bytes := string (only parsing).
Abbreviation BIP340PubKey := string (only parsing).
Abbreviation BIP340Signature := string (only parsing).
Abbreviation AdaptorSignature := string (only parsing).
Abbreviation TxHashStr := string (only parsing).

(** [sdkmath.LegacyDec]: a fixed-point decimal with 18 fractional digits,
    kept as its integer mantissa. *)
Abbreviation LegacyDec := Z (only parsing).
Definition LegacyOneDec : LegacyDec := 10 ^ 18.

Inductive BTCDelegationStatus := PENDING | ACTIVE | UNBONDED.

#[global] Instance BTCDelegationStatus_eq_dec : EqDecision BTCDelegationStatus.
Proof. solve_decision. Defined.

Record FinalityProvider := mkFinalityProvider {
  fp_Addr : string;
  fp_Description : string;
  fp_Commission : LegacyDec;
  fp_BtcPk : BIP340PubKey;
  fp_Pop : bytes;
  fp_SlashedBabylonHeight : Z;
  fp_SlashedBtcHeight : Z
}.

Record CovenantAdaptorSignatures := mkCovenantAdaptorSignatures {
  cas_CovPk : BIP340PubKey;
  cas_AdaptorSigs : list AdaptorSignature
}.

Record SignatureInfo := mkSignatureInfo {
  si_Pk : BIP340PubKey;
  si_Sig : BIP340Signature
}.

Record BTCUndelegation := mkBTCUndelegation {
  ud_UnbondingTx : bytes;
  ud_SlashingTx : bytes;
  ud_DelegatorSlashingSig : BIP340Signature;
  ud_DelegatorUnbondingSig : option BIP340Signature;
  ud_CovenantSlashingSigs : list CovenantAdaptorSignatures;
  ud_CovenantUnbondingSigList : list SignatureInfo
}.

Record BTCDelegation := mkBTCDelegation {
  StakerAddr : string;
  BtcPk : BIP340PubKey;
  Pop : bytes;
  FpBtcPkList : list BIP340PubKey;
  StakingTime : Z;            (* uint32 *)
  StartHeight : Z;            (* uint64 *)
  EndHeight : Z;              (* uint64 *)
  TotalSat : Z;               (* uint64 *)
  StakingTx : bytes;
  StakingOutputIdx : Z;
  SlashingTx : bytes;
  DelegatorSig : BIP340Signature;
  UnbondingTime : Z;          (* uint32 *)
  CovenantSigs : list CovenantAdaptorSignatures;
  BtcUndelegation : BTCUndelegation;
  ParamsVersion : Z
}.

Record Params := mkParams {
  CovenantPks : list BIP340PubKey;
  CovenantQuorum : Z;
  MinCommissionRate : LegacyDec;
  DelegationCreationBaseGasFee : Z
}.

Record StoredParams := mkStoredParams {
  sp_Version : Z;
  sp_Params : Params
}.

(** A deserialized Bitcoin transaction ([*wire.MsgTx]); only its identity
    matters here, so it is carried as its serialization. *)
Record MsgTx := mkMsgTx { tx_payload : bytes }.

Record StakingInfo := mkStakingInfo {
  StakingOutput : bytes;
  info_SlashingPath : option bytes;
  info_UnbondingPath : option bytes
}.

Definition SlashingPathSpendInfo (i : StakingInfo) : option bytes := info_SlashingPath i.
Definition UnbondingPathSpendInfo (i : StakingInfo) : option bytes := info_UnbondingPath i.

(** *** Requests *)

(** The creation request is only ever handed to the parser, so it is kept
    as its wire form; the handler works on the parsed message. *)
Abbreviation MsgCreateBTCDelegation := string (only parsing).

Record ParsedCreateDelegationMessage := mkParsedCreateDelegationMessage {
  p_StakerAddress : string;               (* StakerAddress.String() *)
  p_StakerPK : BIP340PubKey;              (* StakerPK.BIP340PubKey *)
  p_ParsedPop : bytes;
  p_FinalityProviderKeys : list BIP340PubKey;  (* PublicKeysBbnFormat *)
  p_StakingTime : Z;
  p_StakingValue : Z;
  p_StakingTx_Transaction : MsgTx;
  p_StakingTx_TransactionBytes : bytes;
  p_StakingTxProofOfInclusion : option bytes;
  p_StakingSlashingTx : bytes;
  p_StakerStakingSlashingTxSig : BIP340Signature;
  p_UnbondingTime : Z;
  p_UnbondingTx : bytes;
  p_UnbondingSlashingTx : bytes;
  p_StakerUnbondingSlashingSig : BIP340Signature
}.

Record MsgEditFinalityProvider := mkMsgEditFinalityProvider {
  edit_Addr : string;
  edit_Description : string;
  edit_Commission : LegacyDec;
  edit_BtcPk : bytes
}.

Record MsgAddBTCDelegationInclusionProof := mkMsgAddBTCDelegationInclusionProof {
  incl_StakingTxHash : TxHashStr;
  incl_StakingTxInclusionProof : bytes
}.

Record MsgAddCovenantSigs := mkMsgAddCovenantSigs {
  cov_Pk : BIP340PubKey;
  cov_StakingTxHash : TxHashStr;
  cov_SlashingTxSigs : list bytes;
  cov_UnbondingTxSig : option BIP340Signature;     (* a pointer in the source *)
  cov_SlashingUnbondingTxSigs : list bytes
}.

Record MsgBTCUndelegate := mkMsgBTCUndelegate {
  und_StakingTxHash : TxHashStr;
  und_UnbondingTxSig : option BIP340Signature      (* a pointer in the source *)
}.

Record MsgSelectiveSlashingEvidence := mkMsgSelectiveSlashingEvidence {
  sse_StakingTxHash : TxHashStr;
  sse_RecoveredFpBtcSk : bytes
}.

(** *** Errors *)

(** What a wrapped [ErrInvalidCovenantSig] reports. *)
Inductive CovenantSigFault :=
| AlreadyUnbonded
| CountMismatch (nsigs nfps : nat)
| VerificationFailed (msg : string).

Inductive UndelegateFault := CannotUnbondPending | CannotUnbondUnbonded.

Inductive Error :=
| InvalidArgument (msg : string)              (* status.Errorf(codes.InvalidArgument, ..) *)
| PermissionDenied                            (* status.Errorf(codes.PermissionDenied, ..) *)
| ErrCommissionLTMinRate
| ErrCommissionGTMaxRate
| ErrInvalidProofOfPossession (msg : string)
| ErrReusedStakingTx (hash : TxHashStr)
| ErrFpNotFound
| ErrFpAlreadySlashed
| ErrBTCDelegationNotFound
| ErrInvalidCovenantPK
| ErrDuplicatedCovenantSig
| ErrInvalidCovenantSig (why : CovenantSigFault)
| ErrInvalidBTCUndelegateReq (why : UndelegateFault)
| ErrHasInclusionProof                        (* fmt.Errorf("... already has inclusion proof") *)
| ErrNoCovenantQuorum                         (* fmt.Errorf("... has not received a quorum ...") *)
| ErrAlreadyUnbonded                          (* fmt.Errorf("... is already unbonded") *)
| ErrInvalidInclusionProof (msg : string)     (* fmt.Errorf("invalid inclusion proof: %w") *)
| ErrCollaborator (msg : string).             (* an error of a collaborator, returned as it is *)

(** The errors whose identity says "not found". *)
Definition is_not_found (e : Error) : bool :=
  match e with
  | ErrFpNotFound | ErrBTCDelegationNotFound => true
  | _ => false
  end.

(** *** Events and the keeper state *)

Inductive EventPowerDistUpdate :=
| BtcDelStateUpdate (stakingTxHash : TxHashStr) (newState : BTCDelegationStatus)
| SlashedFp (pk : BIP340PubKey).

Inductive TypedEvent :=
| EventBTCDelegationStateUpdate (stakingTxHash : TxHashStr) (newState : BTCDelegationStatus)
| EventSelectiveSlashing (stakingTxHash : TxHashStr) (fpBtcPk : BIP340PubKey) (sk : bytes).

Inductive RefundableMsg :=
| RefundInclusionProof (m : MsgAddBTCDelegationInclusionProof)
| RefundCovenantSigs (m : MsgAddCovenantSigs)
| RefundUndelegate (m : MsgBTCUndelegate)
| RefundSlashingEvidence (m : MsgSelectiveSlashingEvidence).

Record KState := mkKState {
  finalityProviders : gmap string FinalityProvider;   (* keyed by BTC public key *)
  btcDelegations : gmap string BTCDelegation;         (* keyed by staking tx hash *)
  powerDistEvents : list (Z * EventPowerDistUpdate);  (* height-indexed, append-only *)
  typedEvents : list TypedEvent;
  refundableMsgs : list RefundableMsg;
  gasConsumed : Z
}.

(** Invocations of the cryptographic verifier, in the order they happen. *)
Inductive VerifierCall :=
| VerifyPop (pk : BIP340PubKey)
| VerifyInclusion (tx : MsgTx)
| VerifyStakingSlashingAdaptorSigs (covPk : BIP340PubKey) (sigs : list bytes)
| VerifyUnbondingSchnorrSig (pk : BIP340PubKey)
| VerifyUnbondingSlashingAdaptorSigs (covPk : BIP340PubKey) (sigs : list bytes).

(** ** Collaborators *)

Record Env := mkEnv {
  (* host ledger, BTC light client, checkpoint module, parameter store *)
  BlockHeight : Z;
  GetTipHeight : Z;                                   (* btclcKeeper.GetTipInfo(ctx).Height *)
  CheckpointFinalizationTimeout : Z;                  (* btccKeeper.GetParams(ctx) *)
  GetParamsWithVersion : StoredParams;                (* the latest parameters *)
  GetParamsByVersion : Z -> option Params;
  EmitTypedEvent : TypedEvent -> option string;
  (* addresses *)
  AccAddressFromBech32 : string -> bytes + string;
  AccAddressString : bytes -> string;
  (* stateless request checks and parsers *)
  ValidateBasicEdit : MsgEditFinalityProvider -> option string;
  ValidateBasicCovenantSigs : MsgAddCovenantSigs -> option string;
  ValidateBasicUndelegate : MsgBTCUndelegate -> option string;
  ParseCreateDelegationMessage : MsgCreateBTCDelegation -> ParsedCreateDelegationMessage + string;
  ValidateParsedMessageAgainstTheParams :
    ParsedCreateDelegationMessage -> Params -> Z + string;   (* StakingOutputIdx *)
  NewParsedProofOfInclusion : bytes -> bytes + string;
  NewBTCTxFromBytes : bytes -> MsgTx + string;
  TxHash : MsgTx -> TxHashStr;
  TxOut0 : MsgTx -> option bytes;                     (* TxOut[0] *)
  ToBTCPK : BIP340PubKey -> option bytes;             (* MustToBTCPK panics on None *)
  PrivKeyFromBytes : bytes -> bytes * BIP340PubKey;   (* serialized SK, BIP340 PK *)
  GetStakingInfo : BTCDelegation -> Params -> option StakingInfo;
  GetUnbondingInfo : BTCDelegation -> Params -> option StakingInfo;
  (* cryptographic verifier and inclusion-proof checker *)
  PopVerify : bytes -> string -> BIP340PubKey -> option string;
  VerifyInclusionProofAndGetHeight : MsgTx -> Z -> bytes -> Z + string;
  ParseEncVerifyAdaptorSignatures :
    bytes -> bytes -> bytes -> BIP340PubKey -> list BIP340PubKey -> list bytes ->
    list AdaptorSignature + string;
  VerifyTransactionSigWithOutput :
    MsgTx -> bytes -> bytes -> bytes -> BIP340Signature -> option string
}.

(** ** The handler monad: keeper state, errors, panics, verifier trace *)

Inductive Outcome (A : Type) :=
| Ok (a : A)
| Err (e : Error)
| Panic (msg : string).
Arguments Ok {A} a.
Arguments Err {A} e.
Arguments Panic {A} msg.

Record Run (A : Type) := mkRun {
  outcome : Outcome A;
  final : KState;
  verifierCalls : list VerifierCall
}.
Arguments mkRun {A} _ _ _.
Arguments outcome {A} _.
Arguments final {A} _.
Arguments verifierCalls {A} _.

Definition Handler (A : Type) : Type := KState -> Run A.

Definition ret {A} (a : A) : Handler A := fun s => mkRun (Ok a) s [].
Definition fail {A} (e : Error) : Handler A := fun s => mkRun (Err e) s [].
Definition panic {A} (msg : string) : Handler A := fun s => mkRun (Panic msg) s [].

Definition bind {A B} (m : Handler A) (k : A -> Handler B) : Handler B :=
  fun s =>
    match m s with
    | mkRun (Ok a) s1 t1 =>
        match k a s1 with
        | mkRun o s2 t2 => mkRun o s2 (t1 ++ t2)
        end
    | mkRun (Err e) s1 t1 => mkRun (Err e) s1 t1
    | mkRun (Panic msg) s1 t1 => mkRun (Panic msg) s1 t1
    end.

Notation "x <- m ;; k" := (bind m (fun x => k))
  (at level 100, m at next level, right associativity).
Notation "m ;;; k" := (bind m (fun _ => k))
  (at level 100, right associativity).

Definition get : Handler KState := fun s => mkRun (Ok s) s [].
Definition modify (f : KState -> KState) : Handler unit := fun s => mkRun (Ok tt) (f s) [].
Definition calls (c : VerifierCall) : Handler unit := fun s => mkRun (Ok tt) s [c].

(** [if err != nil { return nil, wrap(err) }] for an [error] result. *)
Definition check (r : option string) (wrap : string -> Error) : Handler unit :=
  match r with
  | None => ret tt
  | Some msg => fail (wrap msg)
  end.

(** [v, err := f(); if err != nil { return nil, wrap(err) }]. *)
Definition try {A} (r : A + string) (wrap : string -> Error) : Handler A :=
  match r with
  | inl a => ret a
  | inr msg => fail (wrap msg)
  end.

(** [v, err := f(); if err != nil { panic(..) }]. *)
Definition must {A} (r : option A) (msg : string) : Handler A :=
  match r with
  | Some a => ret a
  | None => panic msg
  end.

(** ** Methods of the stored types

    The [types] package that declares these methods is not among the
    sources at hand; each is written down from the specification. *)

(** Modelled from the spec: the finality provider's "slashed flag + slashing
    height" (section 3); a provider is slashed once a slashing height is
    recorded.  [FinalityProvider.IsSlashed] itself is not in the sources. *)
Definition IsSlashed (fp : FinalityProvider) : bool := 0 <? fp_SlashedBabylonHeight fp.

(** Modelled from the spec: "a covenant member whose key is in the ...
    parameter set" (section 4.4, transition 3).  [Params.HasCovenantPK] is not
    in the sources. *)
Definition HasCovenantPK (p : Params) (pk : BIP340PubKey) : bool :=
  bool_decide (pk ∈ CovenantPks p).

(** Modelled from the spec: "covenant signatures (adaptor signatures, one set
    per covenant member, keyed by covenant public key)" (section 3).
    [BTCDelegation.IsSignedByCovMember] is not in the sources. *)
Definition IsSignedByCovMember (d : BTCDelegation) (covPk : BIP340PubKey) : bool :=
  bool_decide (covPk ∈ map cas_CovPk (CovenantSigs d)).

(** Modelled from the spec: the unbonding side carries "covenant adaptor
    signatures for unbonding-slashing, covenant Schnorr signatures for the
    unbonding transaction itself" (section 3); a member has signed it when its
    key is on both.  [BTCUndelegation.IsSignedByCovMember] is not in the
    sources. *)
Definition UndelegationIsSignedByCovMember (ud : BTCUndelegation) (covPk : BIP340PubKey) : bool :=
  bool_decide (covPk ∈ map si_Pk (ud_CovenantUnbondingSigList ud))
  && bool_decide (covPk ∈ map cas_CovPk (ud_CovenantSlashingSigs ud)).

(** Modelled from the spec: heights are "unset until inclusion proof
    verified", "both zero until inclusion is proven" (section 3).
    [BTCDelegation.HasInclusionProof] is not in the sources. *)
Definition HasInclusionProof (d : BTCDelegation) : bool :=
  (0 <? StartHeight d) && (0 <? EndHeight d).

(** Modelled from the spec: the covenant quorum over the three signature
    sets (section 4.4).  [BTCDelegation.HasCovenantQuorums] is not in the
    sources. *)
Definition HasCovenantQuorums (d : BTCDelegation) (quorum : Z) : bool :=
  (quorum <=? Z.of_nat (length (CovenantSigs d)))
  && (quorum <=? Z.of_nat (length (ud_CovenantUnbondingSigList (BtcUndelegation d))))
  && (quorum <=? Z.of_nat (length (ud_CovenantSlashingSigs (BtcUndelegation d)))).

(** Modelled from the spec: "an explicit staker unbonding signature has been
    recorded" (section 4.4).  [BTCDelegation.IsUnbondedEarly] is not in the
    sources. *)
Definition IsUnbondedEarly (d : BTCDelegation) : bool :=
  match ud_DelegatorUnbondingSig (BtcUndelegation d) with
  | Some _ => true
  | None => false
  end.

(** Modelled from the spec: the derived status of section 4.4.  UNBONDED when
    an unbonding signature is recorded (it "takes precedence regardless of
    height"); PENDING when there is "no inclusion proof yet, or covenant quorum
    not yet reached"; otherwise ACTIVE while [tip < EndHeight - w] and UNBONDED
    from [tip >= EndHeight - w] on.  [BTCDelegation.GetStatus] is not in the
    sources. *)
Definition GetStatus (d : BTCDelegation) (btcHeight w quorum : Z) : BTCDelegationStatus :=
  if IsUnbondedEarly d then UNBONDED
  else if negb (HasCovenantQuorums d quorum) then PENDING
  else if negb (HasInclusionProof d) then PENDING
  else if btcHeight <? EndHeight d - w then ACTIVE
  else UNBONDED.

Fixpoint index_of (pk : BIP340PubKey) (l : list BIP340PubKey) (i : Z) : Z :=
  match l with
  | [] => -1
  | x :: l' => if String.eqb x pk then i else index_of pk l' (i + 1)
  end.

(** Modelled from the spec: the handler "confirms that key is among the
    delegation's provider list" (section 4.4, transition 5); the index of the
    key in the list, -1 when it is absent.  [BTCDelegation.GetFpIdx] is not in
    the sources. *)
Definition GetFpIdx (d : BTCDelegation) (fpBTCPK : BIP340PubKey) : Z :=
  index_of fpBTCPK (FpBtcPkList d) 0.

(** [strings.EqualFold] on ASCII strings (bech32 addresses are ASCII; folding
    of code points beyond ASCII is outside this model). *)
Definition lower_ascii (c : ascii) : ascii :=
  let n := nat_of_ascii c in
  if ((65 <=? n) && (n <=? 90))%nat then ascii_of_nat (n + 32) else c.

Fixpoint to_lower (s : string) : string :=
  match s with
  | EmptyString => EmptyString
  | String c s' => String (lower_ascii c) (to_lower s')
  end.

Definition EqualFold (a b : string) : bool := String.eqb (to_lower a) (to_lower b).

(** ** Field updates *)

Definition set_finalityProviders (f : gmap string FinalityProvider -> gmap string FinalityProvider)
    (s : KState) : KState :=
  mkKState (f (finalityProviders s)) (btcDelegations s) (powerDistEvents s)
           (typedEvents s) (refundableMsgs s) (gasConsumed s).

Definition set_btcDelegations (f : gmap string BTCDelegation -> gmap string BTCDelegation)
    (s : KState) : KState :=
  mkKState (finalityProviders s) (f (btcDelegations s)) (powerDistEvents s)
           (typedEvents s) (refundableMsgs s) (gasConsumed s).

Definition set_powerDistEvents (f : list (Z * EventPowerDistUpdate) -> list (Z * EventPowerDistUpdate))
    (s : KState) : KState :=
  mkKState (finalityProviders s) (btcDelegations s) (f (powerDistEvents s))
           (typedEvents s) (refundableMsgs s) (gasConsumed s).

Definition set_typedEvents (f : list TypedEvent -> list TypedEvent) (s : KState) : KState :=
  mkKState (finalityProviders s) (btcDelegations s) (powerDistEvents s)
           (f (typedEvents s)) (refundableMsgs s) (gasConsumed s).

Definition set_refundableMsgs (f : list RefundableMsg -> list RefundableMsg) (s : KState) : KState :=
  mkKState (finalityProviders s) (btcDelegations s) (powerDistEvents s)
           (typedEvents s) (f (refundableMsgs s)) (gasConsumed s).

Definition set_gasConsumed (f : Z -> Z) (s : KState) : KState :=
  mkKState (finalityProviders s) (btcDelegations s) (powerDistEvents s)
           (typedEvents s) (refundableMsgs s) (f (gasConsumed s)).

Definition with_heights (d : BTCDelegation) (startHeight endHeight : Z) : BTCDelegation :=
  mkBTCDelegation (StakerAddr d) (BtcPk d) (Pop d) (FpBtcPkList d) (StakingTime d)
    startHeight endHeight (TotalSat d) (StakingTx d) (StakingOutputIdx d) (SlashingTx d)
    (DelegatorSig d) (UnbondingTime d) (CovenantSigs d) (BtcUndelegation d) (ParamsVersion d).

Definition with_undelegation (d : BTCDelegation) (ud : BTCUndelegation) : BTCDelegation :=
  mkBTCDelegation (StakerAddr d) (BtcPk d) (Pop d) (FpBtcPkList d) (StakingTime d)
    (StartHeight d) (EndHeight d) (TotalSat d) (StakingTx d) (StakingOutputIdx d) (SlashingTx d)
    (DelegatorSig d) (UnbondingTime d) (CovenantSigs d) ud (ParamsVersion d).

Definition with_covenantSigs (d : BTCDelegation) (sigs : list CovenantAdaptorSignatures)
    : BTCDelegation :=
  mkBTCDelegation (StakerAddr d) (BtcPk d) (Pop d) (FpBtcPkList d) (StakingTime d)
    (StartHeight d) (EndHeight d) (TotalSat d) (StakingTx d) (StakingOutputIdx d) (SlashingTx d)
    (DelegatorSig d) (UnbondingTime d) sigs (BtcUndelegation d) (ParamsVersion d).

Definition with_description_commission (fp : FinalityProvider) (desc : string) (c : LegacyDec)
    : FinalityProvider :=
  mkFinalityProvider (fp_Addr fp) desc c (fp_BtcPk fp) (fp_Pop fp)
    (fp_SlashedBabylonHeight fp) (fp_SlashedBtcHeight fp).

(** ** The keeper and the message server *)

Section MsgServer.
Variable env : Env.

(** *** Keeper methods used by the handlers

    [keeper.go] and its siblings are not among the sources at hand; the
    store operations are written down from sections 4.3 and 4.5 of the
    specification. *)

(** Modelled from the spec: registry lookup by BTC public key, failing with
    a not-found error (section 4.5).  [Keeper.GetFinalityProvider] is not in
    the sources. *)
Definition GetFinalityProvider (fpBTCPK : bytes) (s : KState) : FinalityProvider + Error :=
  match finalityProviders s !! fpBTCPK with
  | Some fp => inl fp
  | None => inr ErrFpNotFound
  end.

(** Modelled from the spec: the registry write, keyed by the provider's BTC
    public key.  [Keeper.setFinalityProvider] is not in the sources. *)
Definition setFinalityProvider (fp : FinalityProvider) : Handler unit :=
  modify (set_finalityProviders (insert (fp_BtcPk fp) fp)).

(** Modelled from the spec: "[Slash] is one-directional and permanent"
    (section 4.5); it records the slashing heights and a slashed-provider
    event.  [Keeper.SlashFinalityProvider] is not in the sources. *)
Definition SlashFinalityProvider (fpBTCPK : bytes) (s : KState) : KState + Error :=
  match finalityProviders s !! fpBTCPK with
  | None => inr ErrFpNotFound
  | Some fp =>
      if IsSlashed fp then inr ErrFpAlreadySlashed
      else
        let fp' := mkFinalityProvider (fp_Addr fp) (fp_Description fp) (fp_Commission fp)
                     (fp_BtcPk fp) (fp_Pop fp) (BlockHeight env) (GetTipHeight env) in
        inl (set_powerDistEvents (fun l => l ++ [(GetTipHeight env, SlashedFp fpBTCPK)])
               (set_finalityProviders (insert (fp_BtcPk fp') fp') s))
  end.

(** [BTCDelegation.GetStakingTxHash]: the hash of the stored staking
    transaction; [None] when the stored bytes do not parse. *)
Definition GetStakingTxHash (d : BTCDelegation) : option TxHashStr :=
  match NewBTCTxFromBytes env (StakingTx d) with
  | inl tx => Some (TxHash env tx)
  | inr _ => None
  end.

(** Modelled from the spec: [Get(stakingTxHash)] of the delegation store
    (section 4.3), in its two forms: the internal one returns nil for an
    unknown hash, the exported one a not-found error.  Neither
    [Keeper.getBTCDelegation] nor [Keeper.GetBTCDelegation] is in the
    sources. *)
Definition getBTCDelegation (stakingTxHash : TxHashStr) (s : KState) : option BTCDelegation :=
  btcDelegations s !! stakingTxHash.

Definition GetBTCDelegation (stakingTxHash : TxHashStr) (s : KState) : BTCDelegation + Error :=
  match btcDelegations s !! stakingTxHash with
  | Some d => inl d
  | None => inr ErrBTCDelegationNotFound
  end.

(** Modelled from the spec: [Update(delegation)] "replaces in place", the
    record being keyed by its staking-transaction hash (section 4.3).
    [Keeper.setBTCDelegation] is not in the sources. *)
Definition setBTCDelegation (d : BTCDelegation) : Handler unit :=
  h <- must (GetStakingTxHash d) "failed to get staking tx hash" ;;
  modify (set_btcDelegations (insert h d)).

(** Modelled from the spec: [Insert(delegation)] "fails with
    DuplicateStakingTx if a record with the same staking-transaction hash
    already exists" (section 4.3).  [Keeper.AddBTCDelegation] is not in the
    sources. *)
Definition AddBTCDelegation (d : BTCDelegation) (s : KState) : KState + string :=
  match GetStakingTxHash d with
  | None => inr "invalid staking tx"
  | Some h =>
      match btcDelegations s !! h with
      | Some _ => inr "duplicate staking tx"
      | None => inl (set_btcDelegations (insert h d) s)
      end
  end.

(** Modelled from the spec: the power-distribution event log is
    "append-only and height-indexed", same-height events kept in insertion
    order (section 5).  [Keeper.addPowerDistUpdateEvent] is not in the
    sources. *)
Definition addPowerDistUpdateEvent (height : Z) (ev : EventPowerDistUpdate) : Handler unit :=
  modify (set_powerDistEvents (fun l => l ++ [(height, ev)])).

(** Modelled from the spec: the refund indexer "marks a transaction as
    gas-fee-refundable" (section 6).  [IndexRefundableMsg] is not in the
    sources. *)
Definition IndexRefundableMsg (m : RefundableMsg) : Handler unit :=
  modify (set_refundableMsgs (fun l => l ++ [m])).

(** [ctx.EventManager().EmitTypedEvent(event)]; the handlers panic when it
    reports an error. *)
Definition emitOrPanic (ev : TypedEvent) (msg : string) : Handler unit :=
  match EmitTypedEvent env ev with
  | None => modify (set_typedEvents (fun l => l ++ [ev]))
  | Some _ => panic msg
  end.

(** Modelled from the spec: early unbonding "records the signature"
    (section 4.4, transition 4) and writes the delegation back.
    [Keeper.btcUndelegate] is not in the sources. *)
Definition btcUndelegate (d : BTCDelegation) (sig : BIP340Signature) : Handler unit :=
  let ud := BtcUndelegation d in
  setBTCDelegation
    (with_undelegation d
       (mkBTCUndelegation (ud_UnbondingTx ud) (ud_SlashingTx ud) (ud_DelegatorSlashingSig ud)
          (Some sig) (ud_CovenantSlashingSigs ud) (ud_CovenantUnbondingSigList ud))).

(** Modelled from the spec: "on success, records all three signature sets
    keyed by this covenant member" (section 4.4, transition 3).
    [Keeper.addCovenantSigsToBTCDelegation] is not in the sources. *)
Definition addCovenantSigsToBTCDelegation (d : BTCDelegation) (covPk : BIP340PubKey)
    (slashingSigs : list AdaptorSignature) (unbondingSig : BIP340Signature)
    (unbondingSlashingSigs : list AdaptorSignature) : Handler unit :=
  let ud := BtcUndelegation d in
  let ud' :=
    mkBTCUndelegation (ud_UnbondingTx ud) (ud_SlashingTx ud) (ud_DelegatorSlashingSig ud)
      (ud_DelegatorUnbondingSig ud)
      (ud_CovenantSlashingSigs ud ++ [mkCovenantAdaptorSignatures covPk unbondingSlashingSigs])
      (ud_CovenantUnbondingSigList ud ++ [mkSignatureInfo covPk unbondingSig]) in
  setBTCDelegation
    (with_undelegation
       (with_covenantSigs d (CovenantSigs d ++ [mkCovenantAdaptorSignatures covPk slashingSigs]))
       ud').

(** [v, err := k.Get..(ctx, ..); if err != nil { return nil, err }]. *)
Definition read {A} (f : KState -> A + Error) : Handler A :=
  fun s =>
    match f s with
    | inl a => mkRun (Ok a) s []
    | inr e => mkRun (Err e) s []
    end.

(** *** EditFinalityProvider *)

Definition EditFinalityProvider (req : MsgEditFinalityProvider) : Handler unit :=
  check (ValidateBasicEdit env req) InvalidArgument ;;;
  if edit_Commission req <? MinCommissionRate (sp_Params (GetParamsWithVersion env))
  then fail ErrCommissionLTMinRate
  else if edit_Commission req >? LegacyOneDec
  then fail ErrCommissionGTMaxRate
  else
    fp <- read (GetFinalityProvider (edit_BtcPk req)) ;;
    fpAddr <- try (AccAddressFromBech32 env (edit_Addr req)) InvalidArgument ;;
    if negb (EqualFold (AccAddressString env fpAddr) (fp_Addr fp))
    then fail PermissionDenied
    else
      setFinalityProvider
        (with_description_commission fp (edit_Description req) (edit_Commission req)).

(** *** CreateBTCDelegation *)

(** Step 4: every named finality provider is known and not slashed. *)
Fixpoint checkFinalityProviders (pks : list BIP340PubKey) : Handler unit :=
  match pks with
  | [] => ret tt
  | fpBTCPK :: rest =>
      fp <- read (GetFinalityProvider fpBTCPK) ;;
      if IsSlashed fp then fail ErrFpAlreadySlashed
      else checkFinalityProviders rest
  end.

Definition newBTCDel (parsedMsg : ParsedCreateDelegationMessage)
    (startHeight endHeight stakingOutputIdx version : Z) : BTCDelegation :=
  {| StakerAddr := p_StakerAddress parsedMsg;
     BtcPk := p_StakerPK parsedMsg;
     Pop := p_ParsedPop parsedMsg;
     FpBtcPkList := p_FinalityProviderKeys parsedMsg;
     StakingTime := U32.wrap (p_StakingTime parsedMsg);
     StartHeight := startHeight;
     EndHeight := endHeight;
     TotalSat := U64.wrap (p_StakingValue parsedMsg);
     StakingTx := p_StakingTx_TransactionBytes parsedMsg;
     StakingOutputIdx := stakingOutputIdx;
     SlashingTx := p_StakingSlashingTx parsedMsg;
     DelegatorSig := p_StakerStakingSlashingTxSig parsedMsg;
     UnbondingTime := U32.wrap (p_UnbondingTime parsedMsg);
     CovenantSigs := [];
     BtcUndelegation :=
       {| ud_UnbondingTx := p_UnbondingTx parsedMsg;
          ud_SlashingTx := p_UnbondingSlashingTx parsedMsg;
          ud_DelegatorSlashingSig := p_StakerUnbondingSlashingSig parsedMsg;
          ud_DelegatorUnbondingSig := None;
          ud_CovenantSlashingSigs := [];
          ud_CovenantUnbondingSigList := [] |};
     ParamsVersion := version |}.

Definition CreateBTCDelegation (req : MsgCreateBTCDelegation) : Handler unit :=
  (* 1. parse the message *)
  parsedMsg <- try (ParseCreateDelegationMessage env req) InvalidArgument ;;
  (* 2. proof of possession *)
  calls (VerifyPop (p_StakerPK parsedMsg)) ;;;
  check (PopVerify env (p_ParsedPop parsedMsg) (p_StakerAddress parsedMsg) (p_StakerPK parsedMsg))
        ErrInvalidProofOfPossession ;;;
  (* 3. duplicated staking tx *)
  let stakingTxHash := TxHash env (p_StakingTx_Transaction parsedMsg) in
  s <- get ;;
  match getBTCDelegation stakingTxHash s with
  | Some _ => fail (ErrReusedStakingTx stakingTxHash)
  | None =>
      (* 4. finality providers *)
      checkFinalityProviders (p_FinalityProviderKeys parsedMsg) ;;;
      (* 5. parameters *)
      let vp := GetParamsWithVersion env in
      stakingOutputIdx <-
        try (ValidateParsedMessageAgainstTheParams env parsedMsg (sp_Params vp)) ErrCollaborator ;;
      (* 6. inclusion proof, start height and end height *)
      heights <-
        match p_StakingTxProofOfInclusion parsedMsg with
        | Some proof =>
            calls (VerifyInclusion (p_StakingTx_Transaction parsedMsg)) ;;;
            inclusionHeight <-
              try (VerifyInclusionProofAndGetHeight env (p_StakingTx_Transaction parsedMsg)
                     (U64.wrap (p_StakingTime parsedMsg)) proof)
                  ErrInvalidInclusionProof ;;
            let startHeight := inclusionHeight in
            let endHeight := U64.add startHeight (U64.wrap (p_StakingTime parsedMsg)) in
            ret (startHeight, endHeight)
        | None =>
            modify (set_gasConsumed
                      (fun g => g + DelegationCreationBaseGasFee (sp_Params vp))) ;;;
            ret (0, 0)
        end ;;
      (* 7. construct and insert the delegation *)
      let d := newBTCDel parsedMsg (fst heights) (snd heights) stakingOutputIdx (sp_Version vp) in
      s' <- get ;;
      match AddBTCDelegation d s' with
      | inl s'' => modify (fun _ => s'')
      | inr _ => panic "failed to add BTC delegation that has passed verification"
      end
  end.

(** *** getBTCDelWithParams *)

Definition getBTCDelWithParams (stakingTxHash : TxHashStr) : Handler (BTCDelegation * Params) :=
  btcDel <- read (GetBTCDelegation stakingTxHash) ;;
  match GetParamsByVersion env (ParamsVersion btcDel) with
  | None => panic "params version in BTC delegation is not found"
  | Some bsParams => ret (btcDel, bsParams)
  end.

(** *** AddBTCDelegationInclusionProof *)

Definition AddBTCDelegationInclusionProof (req : MsgAddBTCDelegationInclusionProof)
    : Handler unit :=
  (* 1. the delegation exists *)
  dp <- getBTCDelWithParams (incl_StakingTxHash req) ;;
  let btcDel := fst dp in
  let params := snd dp in
  (* 2. no inclusion proof yet *)
  if HasInclusionProof btcDel then fail ErrHasInclusionProof
  (* 3. a quorum of covenant signatures *)
  else if negb (HasCovenantQuorums btcDel (CovenantQuorum params)) then fail ErrNoCovenantQuorum
  else
    (* 4. not already unbonded *)
    match ud_DelegatorUnbondingSig (BtcUndelegation btcDel) with
    | Some _ => fail ErrAlreadyUnbonded
    | None =>
        (* 5. verify the inclusion proof *)
        parsedInclusionProof <-
          try (NewParsedProofOfInclusion env (incl_StakingTxInclusionProof req)) ErrCollaborator ;;
        stakingTx <- try (NewBTCTxFromBytes env (StakingTx btcDel)) ErrCollaborator ;;
        calls (VerifyInclusion stakingTx) ;;;
        inclusionHeight <-
          try (VerifyInclusionProofAndGetHeight env stakingTx (U64.wrap (StakingTime btcDel))
                 parsedInclusionProof)
              ErrInvalidInclusionProof ;;
        (* 6. set start height and end height and save *)
        let startHeight := inclusionHeight in
        let endHeight := U64.add startHeight (U64.wrap (StakingTime btcDel)) in
        let btcDel' := with_heights btcDel startHeight endHeight in
        setBTCDelegation btcDel' ;;;
        (* 7. activation and expiry events *)
        h <- must (GetStakingTxHash btcDel') "failed to get staking tx hash" ;;
        emitOrPanic (EventBTCDelegationStateUpdate h ACTIVE)
          "failed to emit EventBTCDelegationStateUpdate for the new active BTC delegation" ;;;
        addPowerDistUpdateEvent (GetTipHeight env) (BtcDelStateUpdate h ACTIVE) ;;;
        let wValue := CheckpointFinalizationTimeout env in
        addPowerDistUpdateEvent (U64.sub (EndHeight btcDel') wValue)
          (BtcDelStateUpdate (incl_StakingTxHash req) UNBONDED) ;;;
        IndexRefundableMsg (RefundInclusionProof req)
    end.

(** *** AddCovenantSigs *)

Definition AddCovenantSigs (req : MsgAddCovenantSigs) : Handler unit :=
  check (ValidateBasicCovenantSigs env req) InvalidArgument ;;;
  dp <- getBTCDelWithParams (cov_StakingTxHash req) ;;
  let btcDel := fst dp in
  let params := snd dp in
  (* the covenant PK is in the parameters *)
  if negb (HasCovenantPK params (cov_Pk req)) then fail ErrInvalidCovenantPK
  else if IsSignedByCovMember btcDel (cov_Pk req)
          && UndelegationIsSignedByCovMember (BtcUndelegation btcDel) (cov_Pk req)
  then fail ErrDuplicatedCovenantSig
  else
    (* the delegation is not unbonded *)
    let btcTipHeight := GetTipHeight env in
    let wValue := CheckpointFinalizationTimeout env in
    match GetStatus btcDel btcTipHeight wValue (CovenantQuorum params) with
    | UNBONDED => fail (ErrInvalidCovenantSig AlreadyUnbonded)
    | _ =>
        (* number of slashing signatures against number of finality providers *)
        if negb (length (cov_SlashingTxSigs req) =? length (FpBtcPkList btcDel))%nat
        then fail (ErrInvalidCovenantSig
                     (CountMismatch (length (cov_SlashingTxSigs req)) (length (FpBtcPkList btcDel))))
        else
          (* adaptor signatures over the slashing tx *)
          stakingInfo <- must (GetStakingInfo env btcDel params)
                           "failed to get staking info from a verified delegation" ;;
          slashingSpendInfo <- must (SlashingPathSpendInfo stakingInfo) "slashing path" ;;
          calls (VerifyStakingSlashingAdaptorSigs (cov_Pk req) (cov_SlashingTxSigs req)) ;;;
          parsedSlashingAdaptorSignatures <-
            try (ParseEncVerifyAdaptorSignatures env (SlashingTx btcDel)
                   (StakingOutput stakingInfo) slashingSpendInfo (cov_Pk req)
                   (FpBtcPkList btcDel) (cov_SlashingTxSigs req))
                (fun m => ErrInvalidCovenantSig (VerificationFailed m)) ;;
          (* number of unbonding-slashing signatures against number of finality providers *)
          if negb (length (cov_SlashingUnbondingTxSigs req) =? length (FpBtcPkList btcDel))%nat
          then fail (ErrInvalidCovenantSig
                       (CountMismatch (length (cov_SlashingUnbondingTxSigs req))
                          (length (FpBtcPkList btcDel))))
          else
            (* Schnorr signature over the unbonding tx *)
            unbondingMsgTx <-
              must (match NewBTCTxFromBytes env (ud_UnbondingTx (BtcUndelegation btcDel)) with
                    | inl tx => Some tx
                    | inr _ => None
                    end)
                   "failed to parse unbonding tx from existing delegation" ;;
            unbondingSpendInfo <- must (UnbondingPathSpendInfo stakingInfo) "unbonding path" ;;
            covBTCPK <- must (ToBTCPK env (cov_Pk req)) "MustToBTCPK" ;;
            unbondingTxSig <- must (cov_UnbondingTxSig req) "nil pointer dereference" ;;
            calls (VerifyUnbondingSchnorrSig (cov_Pk req)) ;;;
            check (VerifyTransactionSigWithOutput env unbondingMsgTx (StakingOutput stakingInfo)
                     unbondingSpendInfo covBTCPK unbondingTxSig)
                  (fun m => ErrInvalidCovenantSig (VerificationFailed m)) ;;;
            (* adaptor signatures over the slashing unbonding tx *)
            unbondingOutput <- must (TxOut0 env unbondingMsgTx) "index out of range" ;;
            unbondingInfo <- must (GetUnbondingInfo env btcDel params) "unbonding info" ;;
            unbondingSlashingSpendInfo <-
              must (SlashingPathSpendInfo unbondingInfo) "slashing path" ;;
            calls (VerifyUnbondingSlashingAdaptorSigs (cov_Pk req)
                     (cov_SlashingUnbondingTxSigs req)) ;;;
            parsedUnbondingSlashingAdaptorSignatures <-
              try (ParseEncVerifyAdaptorSignatures env
                     (ud_SlashingTx (BtcUndelegation btcDel)) unbondingOutput
                     unbondingSlashingSpendInfo (cov_Pk req) (FpBtcPkList btcDel)
                     (cov_SlashingUnbondingTxSigs req))
                  (fun m => ErrInvalidCovenantSig (VerificationFailed m)) ;;
            (* record the signatures *)
            addCovenantSigsToBTCDelegation btcDel (cov_Pk req) parsedSlashingAdaptorSignatures
              unbondingTxSig parsedUnbondingSlashingAdaptorSignatures ;;;
            IndexRefundableMsg (RefundCovenantSigs req)
    end.

(** *** BTCUndelegate *)

Definition BTCUndelegate (req : MsgBTCUndelegate) : Handler unit :=
  check (ValidateBasicUndelegate env req) InvalidArgument ;;;
  dp <- getBTCDelWithParams (und_StakingTxHash req) ;;
  let btcDel := fst dp in
  let bsParams := snd dp in
  let btcTipHeight := GetTipHeight env in
  let wValue := CheckpointFinalizationTimeout env in
  match GetStatus btcDel btcTipHeight wValue (CovenantQuorum bsParams) with
  | PENDING => fail (ErrInvalidBTCUndelegateReq CannotUnbondPending)
  | UNBONDED => fail (ErrInvalidBTCUndelegateReq CannotUnbondUnbonded)
  | _ =>
      unbondingMsgTx <-
        must (match NewBTCTxFromBytes env (ud_UnbondingTx (BtcUndelegation btcDel)) with
              | inl tx => Some tx
              | inr _ => None
              end)
             "failed to parse unbonding tx from existing delegation" ;;
      stakingInfo <- must (GetStakingInfo env btcDel bsParams)
                       "failed to get staking info from a verified delegation" ;;
      unbondingSpendInfo <- must (UnbondingPathSpendInfo stakingInfo) "unbonding path" ;;
      stakerBTCPK <- must (ToBTCPK env (BtcPk btcDel)) "MustToBTCPK" ;;
      unbondingTxSig <- must (und_UnbondingTxSig req) "nil pointer dereference" ;;
      calls (VerifyUnbondingSchnorrSig (BtcPk btcDel)) ;;;
      check (VerifyTransactionSigWithOutput env unbondingMsgTx (StakingOutput stakingInfo)
               unbondingSpendInfo stakerBTCPK unbondingTxSig)
            (fun m => ErrInvalidCovenantSig (VerificationFailed m)) ;;;
      btcUndelegate btcDel unbondingTxSig ;;;
      IndexRefundableMsg (RefundUndelegate req)
  end.

(** *** SelectiveSlashingEvidence *)

Definition SelectiveSlashingEvidence (req : MsgSelectiveSlashingEvidence) : Handler unit :=
  dp <- getBTCDelWithParams (sse_StakingTxHash req) ;;
  let btcDel := fst dp in
  let bsParams := snd dp in
  (* the delegation is active, or unbonded early *)
  let btcTipHeight := GetTipHeight env in
  let wValue := CheckpointFinalizationTimeout env in
  let covQuorum := CovenantQuorum bsParams in
  if negb (bool_decide (GetStatus btcDel btcTipHeight wValue covQuorum = ACTIVE))
     && negb (IsUnbondedEarly btcDel)
  then fail ErrBTCDelegationNotFound
  else
    (* decode the finality provider's BTC SK/PK *)
    let fpSK := fst (PrivKeyFromBytes env (sse_RecoveredFpBtcSk req)) in
    let fpBTCPK := snd (PrivKeyFromBytes env (sse_RecoveredFpBtcSk req)) in
    (* the delegation is staked to that finality provider *)
    let fpIdx := GetFpIdx btcDel fpBTCPK in
    if fpIdx =? -1 then fail ErrFpNotFound
    else
      (* the finality provider exists *)
      s <- get ;;
      match GetFinalityProvider fpBTCPK s with
      | inr _ => panic "failing to find the finality provider with BTC delegations"
      | inl fp =>
          (* the finality provider is not slashed *)
          if IsSlashed fp then fail ErrFpAlreadySlashed
          else
            (* slash the finality provider *)
            match SlashFinalityProvider fpBTCPK s with
            | inr _ => panic "failed to slash the finality provider"
            | inl s' =>
                modify (fun _ => s') ;;;
                emitOrPanic (EventSelectiveSlashing (sse_StakingTxHash req) fpBTCPK fpSK)
                  "failed to emit EventSelectiveSlashing event" ;;;
                IndexRefundableMsg (RefundSlashingEvidence req)
            end
      end.

End MsgServer.

(** ** The properties as predicates *)

(** The height relation of one delegation: with a start height recorded, the
    end height is the start height plus the staking time, on [uint64]. *)
Definition del_heights_ok (d : BTCDelegation) : Prop :=
  StartHeight d <> 0 -> EndHeight d = U64.add (StartHeight d) (StakingTime d).

Definition store_heights_ok (s : KState) : Prop :=
  forall h d, btcDelegations s !! h = Some d -> del_heights_ok d.

(** The two transitions that write heights. *)
Inductive HeightTransition :=
| TCreate (req : MsgCreateBTCDelegation)
| TAddInclusionProof (req : MsgAddBTCDelegationInclusionProof).

Definition run_transition (env : Env) (t : HeightTransition) : Handler unit :=
  match t with
  | TCreate req => CreateBTCDelegation env req
  | TAddInclusionProof req => AddBTCDelegationInclusionProof env req
  end.

(** The parsed staking time is a 16-bit quantity in the message type; all the
    handler needs is that it survives the conversion to [uint32]. *)
Definition staking_time_fits (env : Env) : Prop :=
  forall req p, ParseCreateDelegationMessage env req = inl p -> U32.in_range (p_StakingTime p).

(** What the heights of the delegation written by a transition look like. *)
Definition written_heights (env : Env) (t : HeightTransition) (d : BTCDelegation) : Prop :=
  match t with
  | TCreate req =>
      exists p, ParseCreateDelegationMessage env req = inl p /\
        match p_StakingTxProofOfInclusion p with
        | None => StartHeight d = 0 /\ EndHeight d = 0
        | Some _ => EndHeight d = U64.add (StartHeight d) (StakingTime d)
        end
  | TAddInclusionProof _ => EndHeight d = U64.add (StartHeight d) (StakingTime d)
  end.

(** A request has passed every gate of [AddCovenantSigs] that precedes the
    signature-count checks. *)
Definition reaches_count_checks (env : Env) (req : MsgAddCovenantSigs) (s : KState)
    (d : BTCDelegation) (p : Params) : Prop :=
  ValidateBasicCovenantSigs env req = None /\
  btcDelegations s !! cov_StakingTxHash req = Some d /\
  GetParamsByVersion env (ParamsVersion d) = Some p /\
  HasCovenantPK p (cov_Pk req) = true /\
  IsSignedByCovMember d (cov_Pk req)
    && UndelegationIsSignedByCovMember (BtcUndelegation d) (cov_Pk req) = false /\
  GetStatus d (GetTipHeight env) (CheckpointFinalizationTimeout env) (CovenantQuorum p)
    <> UNBONDED.

(** The eligibility gate of [SelectiveSlashingEvidence]: the delegation is active, or its
    undelegation carries the staker's unbonding signature. *)
Definition slashable (env : Env) (d : BTCDelegation) (p : Params) : Prop :=
  GetStatus d (GetTipHeight env) (CheckpointFinalizationTimeout env) (CovenantQuorum p) = ACTIVE
  \/ IsUnbondedEarly d = true.

(** ** A concrete deployment, for evaluating the handlers *)

Module Demo.

Definition params_v0 : Params :=
  {| CovenantPks := ["covA"]; CovenantQuorum := 1;
     MinCommissionRate := 5 * 10 ^ 16; DelegationCreationBaseGasFee := 1000 |}.

Definition params_v1 : Params :=
  {| CovenantPks := ["covB"]; CovenantQuorum := 1;
     MinCommissionRate := 5 * 10 ^ 16; DelegationCreationBaseGasFee := 1000 |}.

Definition parsed (tx pop : string) (proof : option string) : ParsedCreateDelegationMessage :=
  {| p_StakerAddress := "bbn1staker";
     p_StakerPK := "stakerpk";
     p_ParsedPop := pop;
     p_FinalityProviderKeys := ["pk(k1)"];
     p_StakingTime := 100;
     p_StakingValue := 50000;
     p_StakingTx_Transaction := mkMsgTx tx;
     p_StakingTx_TransactionBytes := tx;
     p_StakingTxProofOfInclusion := proof;
     p_StakingSlashingTx := "slashing-tx";
     p_StakerStakingSlashingTxSig := "sig";
     p_UnbondingTime := 20;
     p_UnbondingTx := "unbonding-tx";
     p_UnbondingSlashingTx := "unbonding-slashing-tx";
     p_StakerUnbondingSlashingSig := "sig" |}.

Definition parse (req : string) : ParsedCreateDelegationMessage + string :=
  if String.eqb req "create:tx2" then inl (parsed "tx2" "pop" None)
  else if String.eqb req "create:tx3:proof" then inl (parsed "tx3" "pop" (Some "proof"))
  else if String.eqb req "create:tx1:badpop" then inl (parsed "tx1" "bad-pop" None)
  else inr "malformed".

Definition info : StakingInfo :=
  {| StakingOutput := "out"; info_SlashingPath := Some "slash-path";
     info_UnbondingPath := Some "unbond-path" |}.

Definition env : Env :=
  {| BlockHeight := 50;
     GetTipHeight := 1010;
     CheckpointFinalizationTimeout := 10;
     GetParamsWithVersion := {| sp_Version := 1; sp_Params := params_v1 |};
     GetParamsByVersion :=
       fun v => if v =? 0 then Some params_v0 else if v =? 1 then Some params_v1 else None;
     EmitTypedEvent := fun _ => None;
     AccAddressFromBech32 := fun a => if String.eqb a "" then inr "empty address" else inl a;
     AccAddressString := to_lower;
     ValidateBasicEdit := fun _ => None;
     ValidateBasicCovenantSigs := fun _ => None;
     ValidateBasicUndelegate := fun _ => None;
     ParseCreateDelegationMessage := parse;
     ValidateParsedMessageAgainstTheParams := fun _ _ => inl 0;
     NewParsedProofOfInclusion := fun b => inl b;
     NewBTCTxFromBytes := fun b => if String.eqb b "" then inr "empty tx" else inl (mkMsgTx b);
     TxHash := fun tx => String.append "hash:" (tx_payload tx);
     TxOut0 := fun _ => Some "out0";
     ToBTCPK := fun pk => Some pk;
     PrivKeyFromBytes := fun sk => (sk, String.append "pk(" (String.append sk ")"));
     GetStakingInfo := fun _ _ => Some info;
     GetUnbondingInfo := fun _ _ => Some info;
     PopVerify := fun pop _ _ => if String.eqb pop "bad-pop" then Some "invalid pop" else None;
     VerifyInclusionProofAndGetHeight :=
       fun _ _ proof => if String.eqb proof "bad-proof" then inr "not included" else inl 1000;
     ParseEncVerifyAdaptorSignatures :=
       fun _ _ _ _ _ sigs =>
         if bool_decide ("bad" ∈ sigs) then inr "invalid adaptor signature" else inl sigs;
     VerifyTransactionSigWithOutput :=
       fun _ _ _ _ sig => if String.eqb sig "bad" then Some "invalid signature" else None |}.

Definition fp1 : FinalityProvider :=
  {| fp_Addr := "bbn1fp"; fp_Description := "old"; fp_Commission := 10 ^ 17;
     fp_BtcPk := "pk(k1)"; fp_Pop := "pop";
     fp_SlashedBabylonHeight := 0; fp_SlashedBtcHeight := 0 |}.

Definition undelegation (sig : option string) (signers : list string) : BTCUndelegation :=
  {| ud_UnbondingTx := "unbonding-tx";
     ud_SlashingTx := "unbonding-slashing-tx";
     ud_DelegatorSlashingSig := "sig";
     ud_DelegatorUnbondingSig := sig;
     ud_CovenantSlashingSigs := map (fun pk => mkCovenantAdaptorSignatures pk ["a"]) signers;
     ud_CovenantUnbondingSigList := map (fun pk => mkSignatureInfo pk "u") signers |}.

(** A delegation on staking transaction [tx1], bound to parameter version 0. *)
Definition delegation (startHeight endHeight : Z) (signers : list string)
    (sig : option string) : BTCDelegation :=
  {| StakerAddr := "bbn1staker"; BtcPk := "stakerpk"; Pop := "pop";
     FpBtcPkList := ["pk(k1)"]; StakingTime := 100;
     StartHeight := startHeight; EndHeight := endHeight; TotalSat := 50000;
     StakingTx := "tx1"; StakingOutputIdx := 0; SlashingTx := "slashing-tx";
     DelegatorSig := "sig"; UnbondingTime := 20;
     CovenantSigs := map (fun pk => mkCovenantAdaptorSignatures pk ["a"]) signers;
     BtcUndelegation := undelegation sig signers;
     ParamsVersion := 0 |}.

Definition d_unsigned : BTCDelegation := delegation 0 0 [] None.
Definition d_quorum : BTCDelegation := delegation 0 0 ["covA"] None.
Definition d_active : BTCDelegation := delegation 1000 1100 ["covA"] None.

Definition state (fps : list FinalityProvider) (d : BTCDelegation) : KState :=
  {| finalityProviders := list_to_map (map (fun fp => (fp_BtcPk fp, fp)) fps);
     btcDelegations := {[ "hash:tx1" := d ]};
     powerDistEvents := [];
     typedEvents := [];
     refundableMsgs := [];
     gasConsumed := 0 |}.

Definition edit_req : MsgEditFinalityProvider :=
  {| edit_Addr := "BBN1FP"; edit_Description := "new";
     edit_Commission := 2 * 10 ^ 17; edit_BtcPk := "pk(k1)" |}.

Definition incl_req : MsgAddBTCDelegationInclusionProof :=
  {| incl_StakingTxHash := "hash:tx1"; incl_StakingTxInclusionProof := "proof" |}.

Definition cov_req (pk : string) (sigs usigs : list string) : MsgAddCovenantSigs :=
  {| cov_Pk := pk; cov_StakingTxHash := "hash:tx1"; cov_SlashingTxSigs := sigs;
     cov_UnbondingTxSig := Some "u"; cov_SlashingUnbondingTxSigs := usigs |}.

Definition und_req : MsgBTCUndelegate :=
  {| und_StakingTxHash := "hash:tx1"; und_UnbondingTxSig := Some "staker-sig" |}.

Definition sse_req (sk : string) : MsgSelectiveSlashingEvidence :=
  {| sse_StakingTxHash := "hash:tx1"; sse_RecoveredFpBtcSk := sk |}.

End Demo.

(** ** The message server as one dispatcher

    The six messages whose handlers are embedded above, and the routing of a
    message to its handler; it lets a property of all handlers be stated
    once. *)

Inductive Msg :=
| MsgEdit (req : MsgEditFinalityProvider)
| MsgCreate (req : MsgCreateBTCDelegation)
| MsgInclusionProof (req : MsgAddBTCDelegationInclusionProof)
| MsgCovenantSigs (req : MsgAddCovenantSigs)
| MsgUndelegate (req : MsgBTCUndelegate)
| MsgSlashingEvidence (req : MsgSelectiveSlashingEvidence).

Definition handle (env : Env) (m : Msg) : Handler unit :=
  match m with
  | MsgEdit req => EditFinalityProvider env req
  | MsgCreate req => CreateBTCDelegation env req
  | MsgInclusionProof req => AddBTCDelegationInclusionProof env req
  | MsgCovenantSigs req => AddCovenantSigs env req
  | MsgUndelegate req => BTCUndelegate env req
  | MsgSlashingEvidence req => SelectiveSlashingEvidence env req
  end.

(** The entry a handler hands to [IndexRefundableMsg], for the four message
    kinds that are refundable. *)
Definition refund_of (m : Msg) : list RefundableMsg :=
  match m with
  | MsgInclusionProof req => [RefundInclusionProof req]
  | MsgCovenantSigs req => [RefundCovenantSigs req]
  | MsgUndelegate req => [RefundUndelegate req]
  | MsgSlashingEvidence req => [RefundSlashingEvidence req]
  | MsgEdit _ | MsgCreate _ => []
  end.

(** The staking transaction hash a message addresses, for the four handlers
    that start with [getBTCDelWithParams]. *)
Definition addressed_delegation (m : Msg) : option TxHashStr :=
  match m with
  | MsgInclusionProof req => Some (incl_StakingTxHash req)
  | MsgCovenantSigs req => Some (cov_StakingTxHash req)
  | MsgUndelegate req => Some (und_StakingTxHash req)
  | MsgSlashingEvidence req => Some (sse_StakingTxHash req)
  | MsgEdit _ | MsgCreate _ => None
  end.

(** The stateless check that precedes [getBTCDelWithParams], where the
    handler has one. *)
Definition stateless_check (env : Env) (m : Msg) : option string :=
  match m with
  | MsgCovenantSigs req => ValidateBasicCovenantSigs env req
  | MsgUndelegate req => ValidateBasicUndelegate env req
  | _ => None
  end.

(** The outcome of the provider loop of [CreateBTCDelegation] on a list of
    keys, read against the registry: the first key that is unknown or slashed
    decides. *)
Fixpoint first_provider_fault (fps : gmap string FinalityProvider) (pks : list BIP340PubKey)
    : option Error :=
  match pks with
  | [] => None
  | pk :: rest =>
      match fps !! pk with
      | None => Some ErrFpNotFound
      | Some fp => if IsSlashed fp then Some ErrFpAlreadySlashed else first_provider_fault fps rest
      end
  end.

Module DemoOrphan.

(** A stored delegation bound to a parameter version that does not exist. *)
Definition d_orphan : BTCDelegation :=
  {| StakerAddr := "bbn1staker"; BtcPk := "stakerpk"; Pop := "pop";
     FpBtcPkList := ["pk(k1)"]; StakingTime := 100;
     StartHeight := 0; EndHeight := 0; TotalSat := 50000;
     StakingTx := "tx1"; StakingOutputIdx := 0; SlashingTx := "slashing-tx";
     DelegatorSig := "sig"; UnbondingTime := 20;
     CovenantSigs := [];
     BtcUndelegation := Demo.undelegation None [];
     ParamsVersion := 7 |}.

End DemoOrphan.

(** ** The wire format of the monitor queries

    The marshalling code generated for [babylon/monitor/v1/query.proto]:
    buffers are byte lists written by index, Go's [int] is a 64-bit signed
    integer, and an index outside a buffer is a panic. *)

Module Query.

(** The three ways a run of Go code ends here: with a value, with a run-time
    panic (index out of range), or, for the model only, with its loop budget
    used up. *)
Inductive Go (A : Type) :=
| Val (a : A)
| GoPanic
| NoFuel.
Arguments Val {A} a.
Arguments GoPanic {A}.
Arguments NoFuel {A}.

Definition go_bind {A B} (x : Go A) (k : A -> Go B) : Go B :=
  match x with
  | Val a => k a
  | GoPanic => GoPanic
  | NoFuel => NoFuel
  end.

Notation "x <-- m ;; k" := (go_bind m (fun x => k))
  (at level 100, m at next level, right associativity).

(** Bytes and their numeric value. *)
Definition byte_val (b : Byte.byte) : Z := Z.of_N (Byte.to_N b).

(** The conversion [uint8(z)]. *)
Definition uint8 (z : Z) : Byte.byte :=
  match Byte.of_N (Z.to_N (z mod 256)) with
  | Some b => b
  | None => Byte.x00
  end.

(** Go's [int] and [int32]: two's complement, wrapping. *)
Definition int64 (z : Z) : Z := (z + 2 ^ 63) mod 2 ^ 64 - 2 ^ 63.
Definition int32 (z : Z) : Z := (z + 2 ^ 31) mod 2 ^ 32 - 2 ^ 31.

(** [dAtA[i]] and [dAtA[i] = b]. *)
Definition index (dAtA : list Byte.byte) (i : Z) : Go Byte.byte :=
  if i <? 0 then GoPanic
  else match dAtA !! Z.to_nat i with
       | Some b => Val b
       | None => GoPanic
       end.

Definition store (dAtA : list Byte.byte) (i : Z) (b : Byte.byte) : Go (list Byte.byte) :=
  if (i <? 0) || (Z.of_nat (length dAtA) <=? i) then GoPanic
  else Val (<[Z.to_nat i := b]> dAtA).

(** [copy(dAtA[i:], src)], with the panic of the slice expression. *)
Definition copy_at (dAtA : list Byte.byte) (i : Z) (src : list Byte.byte) : Go (list Byte.byte) :=
  if (i <? 0) || (Z.of_nat (length dAtA) <? i) then GoPanic
  else
    let n := Nat.min (length src) (length dAtA - Z.to_nat i) in
    Val (take (Z.to_nat i) dAtA ++ take n src ++ drop (Z.to_nat i + n) dAtA).

(** [math/bits.Len64]: the number of bits needed to represent [x], 0 for 0. *)
Definition Len64 (x : Z) : Z := if x =? 0 then 0 else Z.log2 x + 1.

Definition sovQuery (x : Z) : Z := (Len64 (Z.lor x 1) + 6) / 7.

Definition sozQuery (x : Z) : Z :=
  sovQuery (Z.lxor (U64.wrap (Z.shiftl x 1)) (U64.wrap (Z.shiftr (int64 x) 63))).

(** The loop of [encodeVarintQuery]. *)
Fixpoint encodeVarint_loop (fuel : nat) (dAtA : list Byte.byte) (offset v : Z)
    : Go (list Byte.byte) :=
  match fuel with
  | O => NoFuel
  | S fuel' =>
      if v >=? 128 then
        dAtA' <-- store dAtA offset (uint8 (Z.lor (Z.land v 127) 128)) ;;
        encodeVarint_loop fuel' dAtA' (offset + 1) (Z.shiftr v 7)
      else store dAtA offset (uint8 v)
  end.

Definition encodeVarintQuery (dAtA : list Byte.byte) (offset v : Z) : Go (list Byte.byte * Z) :=
  let offset := offset - sovQuery v in
  let base := offset in
  dAtA' <-- encodeVarint_loop 10 dAtA offset v ;;
  Val (dAtA', base).

(** *** Messages *)

Record QueryEndedEpochBtcHeightRequest := mkEndedEpochReq { EpochNum : Z }.

Record QueryReportedCheckpointBtcHeightRequest := mkReportedReq { CkptHash : list Byte.byte }.

Definition SizeEnded (m : QueryEndedEpochBtcHeightRequest) : Z :=
  if negb (EpochNum m =? 0) then 0 + (1 + sovQuery (EpochNum m)) else 0.

Definition MarshalToSizedBufferEnded (m : QueryEndedEpochBtcHeightRequest)
    (dAtA : list Byte.byte) : Go (list Byte.byte * Z) :=
  let i := Z.of_nat (length dAtA) in
  if negb (EpochNum m =? 0) then
    r <-- encodeVarintQuery dAtA i (EpochNum m) ;;
    let i := snd r - 1 in
    dAtA' <-- store (fst r) i Byte.x08 ;;
    Val (dAtA', Z.of_nat (length dAtA') - i)
  else Val (dAtA, Z.of_nat (length dAtA) - i).

(** [make([]byte, size)] and the slice expressions [dAtA[:n]]. *)
Definition make (size : Z) : Go (list Byte.byte) :=
  if size <? 0 then GoPanic else Val (replicate (Z.to_nat size) Byte.x00).

Definition slice_to (dAtA : list Byte.byte) (n : Z) : Go (list Byte.byte) :=
  if (n <? 0) || (Z.of_nat (length dAtA) <? n) then GoPanic
  else Val (take (Z.to_nat n) dAtA).

Definition slice_from (dAtA : list Byte.byte) (i : Z) : Go (list Byte.byte) :=
  if (i <? 0) || (Z.of_nat (length dAtA) <? i) then GoPanic
  else Val (drop (Z.to_nat i) dAtA).

(** [dAtA[lo:hi]]. *)
Definition slice (dAtA : list Byte.byte) (lo hi : Z) : Go (list Byte.byte) :=
  if (lo <? 0) || (hi <? lo) || (Z.of_nat (length dAtA) <? hi) then GoPanic
  else Val (take (Z.to_nat (hi - lo)) (drop (Z.to_nat lo) dAtA)).

Definition MarshalEnded (m : QueryEndedEpochBtcHeightRequest) : Go (list Byte.byte) :=
  let size := SizeEnded m in
  dAtA <-- make size ;;
  buf <-- slice_to dAtA size ;;
  r <-- MarshalToSizedBufferEnded m buf ;;
  slice_to (fst r) (snd r).

Definition SizeReported (m : QueryReportedCheckpointBtcHeightRequest) : Z :=
  let l := Z.of_nat (length (CkptHash m)) in
  if l >? 0 then 0 + (1 + l + sovQuery l) else 0.

Definition MarshalToSizedBufferReported (m : QueryReportedCheckpointBtcHeightRequest)
    (dAtA : list Byte.byte) : Go (list Byte.byte * Z) :=
  let i := Z.of_nat (length dAtA) in
  if Z.of_nat (length (CkptHash m)) >? 0 then
    let i := i - Z.of_nat (length (CkptHash m)) in
    dAtA1 <-- copy_at dAtA i (CkptHash m) ;;
    r <-- encodeVarintQuery dAtA1 i (Z.of_nat (length (CkptHash m))) ;;
    let i := snd r - 1 in
    dAtA2 <-- store (fst r) i Byte.x0a ;;
    Val (dAtA2, Z.of_nat (length dAtA2) - i)
  else Val (dAtA, Z.of_nat (length dAtA) - i).

Definition MarshalReported (m : QueryReportedCheckpointBtcHeightRequest) : Go (list Byte.byte) :=
  let size := SizeReported m in
  dAtA <-- make size ;;
  buf <-- slice_to dAtA size ;;
  r <-- MarshalToSizedBufferReported m buf ;;
  slice_to (fst r) (snd r).

(** *** Decoding *)

Inductive DecodeError :=
| ErrInvalidLengthQuery
| ErrIntOverflowQuery
| ErrUnexpectedEndOfGroupQuery
| ErrUnexpectedEOF                              (* io.ErrUnexpectedEOF *)
| ErrEndGroupForNonGroup                        (* "wiretype end group for non-group" *)
| ErrIllegalTag (fieldNum wire : Z)             (* "illegal tag %d (wire type %d)" *)
| ErrWrongWireType (wireType : Z)               (* "wrong wireType = %d for field ..." *)
| ErrIllegalWireType (wireType : Z).            (* "illegal wireType %d" *)

(** The loop [for shift := uint(0); ; shift += 7] that reads a varint into a
    [uint64] accumulator.  It yields the accumulator and the index it stopped
    at, with the error it stopped on, if any. *)
Fixpoint readVarint (fuel : nat) (dAtA : list Byte.byte) (l iNdEx shift acc : Z)
    : Go (Z * Z * option DecodeError) :=
  match fuel with
  | O => NoFuel
  | S fuel' =>
      if shift >=? 64 then Val (acc, iNdEx, Some ErrIntOverflowQuery)
      else if iNdEx >=? l then Val (acc, iNdEx, Some ErrUnexpectedEOF)
      else
        b <-- index dAtA iNdEx ;;
        let iNdEx := iNdEx + 1 in
        let acc := Z.lor acc (U64.wrap (Z.shiftl (Z.land (byte_val b) 127) shift)) in
        if byte_val b <? 128 then Val (acc, iNdEx, None)
        else readVarint fuel' dAtA l iNdEx (shift + 7) acc
  end.

(** The same loop over a signed [int] accumulator ([skipQuery], wire type 2). *)
Fixpoint readVarintInt (fuel : nat) (dAtA : list Byte.byte) (l iNdEx shift acc : Z)
    : Go (Z * Z * option DecodeError) :=
  match fuel with
  | O => NoFuel
  | S fuel' =>
      if shift >=? 64 then Val (acc, iNdEx, Some ErrIntOverflowQuery)
      else if iNdEx >=? l then Val (acc, iNdEx, Some ErrUnexpectedEOF)
      else
        b <-- index dAtA iNdEx ;;
        let iNdEx := iNdEx + 1 in
        let acc := Z.lor acc (int64 (Z.shiftl (Z.land (byte_val b) 127) shift)) in
        if byte_val b <? 128 then Val (acc, iNdEx, None)
        else readVarintInt fuel' dAtA l iNdEx (shift + 7) acc
  end.

(** The loop that steps over a varint without decoding it ([skipQuery], wire
    type 0). *)
Fixpoint skipVarint (fuel : nat) (dAtA : list Byte.byte) (l iNdEx shift : Z)
    : Go (Z * option DecodeError) :=
  match fuel with
  | O => NoFuel
  | S fuel' =>
      if shift >=? 64 then Val (iNdEx, Some ErrIntOverflowQuery)
      else if iNdEx >=? l then Val (iNdEx, Some ErrUnexpectedEOF)
      else
        let iNdEx := iNdEx + 1 in
        b <-- index dAtA (iNdEx - 1) ;;
        if byte_val b <? 128 then Val (iNdEx, None)
        else skipVarint fuel' dAtA l iNdEx (shift + 7)
  end.

(** Iterations a varint loop can make before [shift >= 64] ends it. *)
Definition varint_fuel : nat := 11.

(** [skipQuery]: the number of bytes of the first field of [dAtA], groups
    included. *)
Fixpoint skipQuery_loop (fuel : nat) (dAtA : list Byte.byte) (l iNdEx depth : Z)
    : Go (Z + DecodeError) :=
  match fuel with
  | O => NoFuel
  | S fuel' =>
      if iNdEx <? l then
        w <-- readVarint varint_fuel dAtA l iNdEx 0 0 ;;
        match w with
        | (_, _, Some e) => Val (inr e)
        | (wire, iNdEx, None) =>
            let wireType := Z.land wire 7 in
            let after (iNdEx depth : Z) : Go (Z + DecodeError) :=
              if iNdEx <? 0 then Val (inr ErrInvalidLengthQuery)
              else if depth =? 0 then Val (inl iNdEx)
              else skipQuery_loop fuel' dAtA l iNdEx depth in
            if wireType =? 0 then
              r <-- skipVarint varint_fuel dAtA l iNdEx 0 ;;
              match r with
              | (_, Some e) => Val (inr e)
              | (iNdEx, None) => after iNdEx depth
              end
            else if wireType =? 1 then after (int64 (iNdEx + 8)) depth
            else if wireType =? 2 then
              r <-- readVarintInt varint_fuel dAtA l iNdEx 0 0 ;;
              match r with
              | (_, _, Some e) => Val (inr e)
              | (length, iNdEx, None) =>
                  if length <? 0 then Val (inr ErrInvalidLengthQuery)
                  else after (int64 (iNdEx + length)) depth
              end
            else if wireType =? 3 then after iNdEx (int64 (depth + 1))
            else if wireType =? 4 then
              if depth =? 0 then Val (inr ErrUnexpectedEndOfGroupQuery)
              else after iNdEx (int64 (depth - 1))
            else if wireType =? 5 then after (int64 (iNdEx + 4)) depth
            else Val (inr (ErrIllegalWireType wireType))
        end
      else Val (inr ErrUnexpectedEOF)
  end.

Definition skipQuery (dAtA : list Byte.byte) : Go (Z + DecodeError) :=
  skipQuery_loop (S (length dAtA)) dAtA (Z.of_nat (length dAtA)) 0 0.

(** The [default] branch of the field switch of every [Unmarshal]: step over
    an unknown field.  It yields the next index or the error. *)
Definition skipUnknown (dAtA : list Byte.byte) (l preIndex : Z) : Go (Z + DecodeError) :=
  let iNdEx := preIndex in
  rest <-- slice_from dAtA iNdEx ;;
  r <-- skipQuery rest ;;
  match r with
  | inr e => Val (inr e)
  | inl skippy =>
      if (skippy <? 0) || (int64 (iNdEx + skippy) <? 0) then Val (inr ErrInvalidLengthQuery)
      else if int64 (iNdEx + skippy) >? l then Val (inr ErrUnexpectedEOF)
      else Val (inl (int64 (iNdEx + skippy)))
  end.

(** [QueryEndedEpochBtcHeightRequest.Unmarshal]: the message as the call
    leaves it, and the error it returns, if any. *)
Fixpoint UnmarshalEnded_loop (fuel : nat) (dAtA : list Byte.byte) (l iNdEx : Z)
    (m : QueryEndedEpochBtcHeightRequest)
    : Go (QueryEndedEpochBtcHeightRequest * option DecodeError) :=
  match fuel with
  | O => NoFuel
  | S fuel' =>
      if iNdEx <? l then
        let preIndex := iNdEx in
        w <-- readVarint varint_fuel dAtA l iNdEx 0 0 ;;
        match w with
        | (_, _, Some e) => Val (m, Some e)
        | (wire, iNdEx, None) =>
            let fieldNum := int32 (Z.shiftr wire 3) in
            let wireType := int64 (Z.land wire 7) in
            if wireType =? 4 then Val (m, Some ErrEndGroupForNonGroup)
            else if fieldNum <=? 0 then Val (m, Some (ErrIllegalTag fieldNum wire))
            else if fieldNum =? 1 then
              if negb (wireType =? 0) then Val (m, Some (ErrWrongWireType wireType))
              else
                v <-- readVarint varint_fuel dAtA l iNdEx 0 0 ;;
                match v with
                | (epochNum, iNdEx, Some e) => Val (mkEndedEpochReq epochNum, Some e)
                | (epochNum, iNdEx, None) =>
                    UnmarshalEnded_loop fuel' dAtA l iNdEx (mkEndedEpochReq epochNum)
                end
            else
              r <-- skipUnknown dAtA l preIndex ;;
              match r with
              | inr e => Val (m, Some e)
              | inl iNdEx => UnmarshalEnded_loop fuel' dAtA l iNdEx m
              end
        end
      else if iNdEx >? l then Val (m, Some ErrUnexpectedEOF)
      else Val (m, None)
  end.

Definition UnmarshalEnded (m : QueryEndedEpochBtcHeightRequest) (dAtA : list Byte.byte)
    : Go (QueryEndedEpochBtcHeightRequest * option DecodeError) :=
  UnmarshalEnded_loop (S (length dAtA)) dAtA (Z.of_nat (length dAtA)) 0 m.

(** [QueryReportedCheckpointBtcHeightRequest.Unmarshal]. *)
Fixpoint UnmarshalReported_loop (fuel : nat) (dAtA : list Byte.byte) (l iNdEx : Z)
    (m : QueryReportedCheckpointBtcHeightRequest)
    : Go (QueryReportedCheckpointBtcHeightRequest * option DecodeError) :=
  match fuel with
  | O => NoFuel
  | S fuel' =>
      if iNdEx <? l then
        let preIndex := iNdEx in
        w <-- readVarint varint_fuel dAtA l iNdEx 0 0 ;;
        match w with
        | (_, _, Some e) => Val (m, Some e)
        | (wire, iNdEx, None) =>
            let fieldNum := int32 (Z.shiftr wire 3) in
            let wireType := int64 (Z.land wire 7) in
            if wireType =? 4 then Val (m, Some ErrEndGroupForNonGroup)
            else if fieldNum <=? 0 then Val (m, Some (ErrIllegalTag fieldNum wire))
            else if fieldNum =? 1 then
              if negb (wireType =? 2) then Val (m, Some (ErrWrongWireType wireType))
              else
                v <-- readVarint varint_fuel dAtA l iNdEx 0 0 ;;
                match v with
                | (_, _, Some e) => Val (m, Some e)
                | (stringLen, iNdEx, None) =>
                    let intStringLen := int64 stringLen in
                    if intStringLen <? 0 then Val (m, Some ErrInvalidLengthQuery)
                    else
                      let postIndex := int64 (iNdEx + intStringLen) in
                      if postIndex <? 0 then Val (m, Some ErrInvalidLengthQuery)
                      else if postIndex >? l then Val (m, Some ErrUnexpectedEOF)
                      else
                        s <-- slice dAtA iNdEx postIndex ;;
                        UnmarshalReported_loop fuel' dAtA l postIndex (mkReportedReq s)
                end
            else
              r <-- skipUnknown dAtA l preIndex ;;
              match r with
              | inr e => Val (m, Some e)
              | inl iNdEx => UnmarshalReported_loop fuel' dAtA l iNdEx m
              end
        end
      else if iNdEx >? l then Val (m, Some ErrUnexpectedEOF)
      else Val (m, None)
  end.

Definition UnmarshalReported (m : QueryReportedCheckpointBtcHeightRequest)
    (dAtA : list Byte.byte)
    : Go (QueryReportedCheckpointBtcHeightRequest * option DecodeError) :=
  UnmarshalReported_loop (S (length dAtA)) dAtA (Z.of_nat (length dAtA)) 0 m.

(** The varint of a number as a byte list: seven bits per byte, least
    significant group first, the top bit set on every byte but the last; it is
    what [encodeVarintQuery] is compared with. *)
Fixpoint varint (fuel : nat) (v : Z) : list Byte.byte :=
  match fuel with
  | O => []
  | S fuel' =>
      if v >=? 128 then uint8 (Z.lor (Z.land v 127) 128) :: varint fuel' (Z.shiftr v 7)
      else [uint8 v]
  end.

(** *** Ranges and expected encodings used in the statements *)

(** The values a [uint64] holds. *)
Definition uint64_range (v : Z) : Prop := 0 <= v < 2 ^ 64.

(** The bytes [Marshal] produces: nothing for the zero value, otherwise the
    tag of field 1 followed by the varint of the field. *)
Definition wire_of (v : Z) : list Byte.byte :=
  if v =? 0 then [] else Byte.x08 :: varint 10 v.

(** The message after a field has been read: the value replaces the field,
    whatever it was; a later value replaces an earlier one. *)
Definition merge (m : QueryEndedEpochBtcHeightRequest) (v : Z) : QueryEndedEpochBtcHeightRequest :=
  if v =? 0 then m else mkEndedEpochReq v.

(** The values an [int] holds. *)
Definition int_range (z : Z) : Prop := - 2 ^ 63 <= z < 2 ^ 63.

(** The bytes [Marshal] produces for the string field: nothing for the
    empty string, otherwise the tag of field 1, the varint of the length and
    the bytes of the string. *)
Definition wire_of_hash (h : list Byte.byte) : list Byte.byte :=
  match h with
  | [] => []
  | _ => Byte.x0a :: varint 10 (Z.of_nat (length h)) ++ h
  end.

End Query.

(** ** Auxiliary facts *)

Lemma U64_add_wrap_r (a b : Z) : U64.add a (U64.wrap b) = U64.add a b.
Proof. unfold U64.add, U64.wrap. apply Zplus_mod_idemp_r. Qed.

Lemma U64_add_exact (a b : Z) : U64.in_range (a + b) -> U64.add a b = a + b.
Proof. unfold U64.in_range, U64.add, U64.wrap. intros H. apply Z.mod_small, H. Qed.

Lemma U64_sub_exact (a b : Z) : U64.in_range (a - b) -> U64.sub a b = a - b.
Proof. unfold U64.in_range, U64.sub, U64.wrap. intros H. apply Z.mod_small, H. Qed.

Lemma U32_wrap_fits (t : Z) : U32.in_range t -> U32.wrap t = t.
Proof. unfold U32.in_range, U32.wrap. intros H. apply Z.mod_small, H. Qed.

Lemma U64_wrap_of_U32 (t : Z) : U32.in_range t -> U64.wrap t = t.
Proof.
  unfold U32.in_range, U32.modulus, U64.wrap, U64.modulus. intros H.
  apply Z.mod_small. lia.
Qed.

Lemma index_of_lower_bound (pk : string) (l : list string) (i : Z) :
  index_of pk l i = -1 \/ i <= index_of pk l i.
Proof.
  revert i. induction l as [|x l IH]; intros i; simpl.
  - now left.
  - destruct (String.eqb x pk).
    + right. lia.
    + destruct (IH (i + 1)) as [H|H]; [now left | right; lia].
Qed.

Lemma index_of_absent (pk : string) (l : list string) (i : Z) :
  0 <= i -> (index_of pk l i = -1 <-> pk ∉ l).
Proof.
  revert i. induction l as [|x l IH]; intros i Hi; simpl.
  - split; [intros _; apply not_elem_of_nil | reflexivity].
  - destruct (String.eqb x pk) eqn:E.
    + apply String.eqb_eq in E. subst x. split.
      * lia.
      * intros H. exfalso. apply H. left.
    + apply String.eqb_neq in E. rewrite (IH (i + 1)) by lia. split.
      * intros H Hin. apply elem_of_cons in Hin as [->|Hin]; [congruence | auto].
      * intros H Hin. apply H. now right.
Qed.

Lemma GetFpIdx_absent (d : BTCDelegation) (pk : string) :
  GetFpIdx d pk = -1 <-> pk ∉ FpBtcPkList d.
Proof. unfold GetFpIdx. now apply index_of_absent. Qed.

Lemma EqualFold_to_lower (a b : string) : EqualFold a b = true <-> to_lower a = to_lower b.
Proof. unfold EqualFold. apply String.eqb_eq. Qed.

(** Unfolding of the monad's operations, and case analysis on the next test
    that a run depends on. *)
Ltac run_simpl :=
  cbn [outcome final verifierCalls bind ret fail panic check try must read get modify calls
       fst snd app negb andb] in *.

Ltac run_unfold :=
  cbv [bind ret fail panic check try must read get modify calls] in *; run_simpl.

Ltac next_case H :=
  match type of H with
  | context [match ?x with _ => _ end] =>
      lazymatch x with
      | context [match _ with _ => _ end] => fail
      | _ => destruct x eqn:?
      end
  end;
  cbn [outcome final verifierCalls fst snd app negb andb] in *;
  try discriminate H.

Ltac use H := rewrite H; run_simpl.

(** ** EditFinalityProvider *)

(** C9.  A successful [EditFinalityProvider] rewrites only the description and
    the commission of the provider record: the record found under the
    request's BTC public key is written back with the same BTC public key,
    chain address, proof of possession and slashing heights (hence the same
    slashed flag), and nothing else in the keeper state changes.  It succeeds
    only if the signer's address, rendered by [AccAddress.String], matches the
    registered address (the source compares with [strings.EqualFold], that is,
    up to letter case) and the new commission lies between the minimum
    commission rate of the parameters and one. *)
Theorem EditFinalityProvider_rewrites_description_commission
    (env : Env) (req : MsgEditFinalityProvider) (s : KState) :
  outcome (EditFinalityProvider env req s) = Ok tt ->
  exists fp fpAddr,
    finalityProviders s !! edit_BtcPk req = Some fp /\
    AccAddressFromBech32 env (edit_Addr req) = inl fpAddr /\
    to_lower (AccAddressString env fpAddr) = to_lower (fp_Addr fp) /\
    MinCommissionRate (sp_Params (GetParamsWithVersion env)) <= edit_Commission req
      <= LegacyOneDec /\
    let fp' := with_description_commission fp (edit_Description req) (edit_Commission req) in
    final (EditFinalityProvider env req s)
      = set_finalityProviders (insert (fp_BtcPk fp) fp') s /\
    fp_Description fp' = edit_Description req /\
    fp_Commission fp' = edit_Commission req /\
    fp_BtcPk fp' = fp_BtcPk fp /\
    fp_Addr fp' = fp_Addr fp /\
    fp_Pop fp' = fp_Pop fp /\
    IsSlashed fp' = IsSlashed fp /\
    fp_SlashedBabylonHeight fp' = fp_SlashedBabylonHeight fp /\
    fp_SlashedBtcHeight fp' = fp_SlashedBtcHeight fp /\
    (fp_BtcPk fp = edit_BtcPk req ->
     forall pk, finalityProviders (final (EditFinalityProvider env req s)) !! pk
                = if decide (pk = edit_BtcPk req) then Some fp' else finalityProviders s !! pk).
Proof.
  unfold EditFinalityProvider, setFinalityProvider, GetFinalityProvider.
  intros H. run_unfold.
  repeat next_case H.
  match goal with
  | Hfp : finalityProviders s !! _ = Some ?fp,
    Ha : AccAddressFromBech32 env _ = inl ?a |- _ => exists fp, a
  end.
  repeat match goal with
         | Hn : negb _ = false |- _ => apply negb_false_iff in Hn
         | He : EqualFold _ _ = true |- _ => apply EqualFold_to_lower in He
         | Hc : (_ <? _) = false |- _ => apply Z.ltb_ge in Hc
         | Hc : (_ >? _) = false |- _ => rewrite Z.gtb_ltb in Hc; apply Z.ltb_ge in Hc
         end.
  repeat split; try assumption; try reflexivity.
  intros Hk pk. cbn. rewrite Hk.
  destruct (decide (pk = edit_BtcPk req)) as [->|Hne].
  - apply lookup_insert_eq.
  - apply lookup_insert_ne. congruence.
Qed.

Lemma EditFinalityProvider_rewrites_description_commission_witness :
  outcome (EditFinalityProvider Demo.env Demo.edit_req (Demo.state [Demo.fp1] Demo.d_unsigned))
    = Ok tt /\
  exists fp,
    finalityProviders (Demo.state [Demo.fp1] Demo.d_unsigned) !! "pk(k1)" = Some fp /\
    final (EditFinalityProvider Demo.env Demo.edit_req (Demo.state [Demo.fp1] Demo.d_unsigned))
      = set_finalityProviders
          (insert (fp_BtcPk fp) (with_description_commission fp "new" (2 * 10 ^ 17)))
          (Demo.state [Demo.fp1] Demo.d_unsigned).
Proof.
  assert (Hok : outcome (EditFinalityProvider Demo.env Demo.edit_req
                           (Demo.state [Demo.fp1] Demo.d_unsigned)) = Ok tt)
    by (vm_compute; reflexivity).
  split; [exact Hok|].
  destruct (EditFinalityProvider_rewrites_description_commission
              Demo.env Demo.edit_req (Demo.state [Demo.fp1] Demo.d_unsigned) Hok)
    as (fp & fpAddr & Hfp & _ & _ & _ & Hfinal & _).
  exists fp. split; [exact Hfp | exact Hfinal].
Defined.

(** ** BTCUndelegate *)

(** C7.  On an existing delegation (whose parameter version is known, and for
    a request that passes the stateless checks), [BTCUndelegate] is rejected
    with [ErrInvalidBTCUndelegateReq] when the derived status is PENDING and
    also when it is UNBONDED, leaving the state as it was; whenever it
    succeeds, or merely changes the delegation store, the status was neither
    PENDING nor UNBONDED, and on success the staker's unbonding signature is
    what is recorded in the delegation. *)
Theorem BTCUndelegate_only_when_neither_pending_nor_unbonded
    (env : Env) (req : MsgBTCUndelegate) (s : KState) (d : BTCDelegation) (p : Params) :
  ValidateBasicUndelegate env req = None ->
  btcDelegations s !! und_StakingTxHash req = Some d ->
  GetParamsByVersion env (ParamsVersion d) = Some p ->
  let st := GetStatus d (GetTipHeight env) (CheckpointFinalizationTimeout env)
              (CovenantQuorum p) in
  let r := BTCUndelegate env req s in
  (st = PENDING ->
   r = mkRun (Err (ErrInvalidBTCUndelegateReq CannotUnbondPending)) s []) /\
  (st = UNBONDED ->
   r = mkRun (Err (ErrInvalidBTCUndelegateReq CannotUnbondUnbonded)) s []) /\
  (btcDelegations (final r) <> btcDelegations s -> st <> PENDING /\ st <> UNBONDED) /\
  (outcome r = Ok tt ->
   st <> PENDING /\ st <> UNBONDED /\
   exists sig h,
     und_UnbondingTxSig req = Some sig /\
     GetStakingTxHash env d = Some h /\
     exists d',
       btcDelegations (final r) = <[h := d']> (btcDelegations s) /\
       ud_DelegatorUnbondingSig (BtcUndelegation d') = Some sig /\
       with_undelegation d' (BtcUndelegation d) = d).
Proof.
  intros Hv Hd Hp st r.
  assert (Hpend : st = PENDING ->
                  r = mkRun (Err (ErrInvalidBTCUndelegateReq CannotUnbondPending)) s []).
  { subst st r. intros Hst. unfold BTCUndelegate, getBTCDelWithParams, GetBTCDelegation.
    run_unfold. use Hv. use Hd. use Hp. use Hst. reflexivity. }
  assert (Hunb : st = UNBONDED ->
                 r = mkRun (Err (ErrInvalidBTCUndelegateReq CannotUnbondUnbonded)) s []).
  { subst st r. intros Hst. unfold BTCUndelegate, getBTCDelWithParams, GetBTCDelegation.
    run_unfold. use Hv. use Hd. use Hp. use Hst. reflexivity. }
  split; [exact Hpend|]. split; [exact Hunb|]. split.
  - intros Hne. split; intros Hst.
    + apply Hne. rewrite (Hpend Hst). reflexivity.
    + apply Hne. rewrite (Hunb Hst). reflexivity.
  - intros Hok.
    assert (Hn1 : st <> PENDING).
    { intros Hst. rewrite (Hpend Hst) in Hok. discriminate Hok. }
    assert (Hn2 : st <> UNBONDED).
    { intros Hst. rewrite (Hunb Hst) in Hok. discriminate Hok. }
    split; [exact Hn1|]. split; [exact Hn2|].
    subst r. revert Hok.
    unfold BTCUndelegate, getBTCDelWithParams, GetBTCDelegation, btcUndelegate,
      setBTCDelegation, IndexRefundableMsg.
    run_unfold. use Hv. use Hd. use Hp. fold st.
    destruct st; try congruence. run_simpl.
    intros Hok. repeat next_case Hok.
    match goal with
    | Hs : und_UnbondingTxSig req = Some ?sig, Hh : GetStakingTxHash env _ = Some ?h |- _ =>
        exists sig, h; split; [reflexivity|]
    end.
    unfold GetStakingTxHash in *. cbn [StakingTx with_undelegation] in *.
    split; [assumption|].
    eexists. split; [reflexivity|]. split; [reflexivity|].
    destruct d; reflexivity.
Qed.

Lemma BTCUndelegate_only_when_neither_pending_nor_unbonded_witness :
  BTCUndelegate Demo.env Demo.und_req (Demo.state [Demo.fp1] Demo.d_quorum)
    = mkRun (Err (ErrInvalidBTCUndelegateReq CannotUnbondPending))
        (Demo.state [Demo.fp1] Demo.d_quorum) [] /\
  GetStatus Demo.d_active 1010 10 1 <> PENDING.
Proof.
  pose proof (BTCUndelegate_only_when_neither_pending_nor_unbonded
                Demo.env Demo.und_req (Demo.state [Demo.fp1] Demo.d_quorum)
                Demo.d_quorum Demo.params_v0 eq_refl eq_refl eq_refl) as [Hpend _].
  pose proof (BTCUndelegate_only_when_neither_pending_nor_unbonded
                Demo.env Demo.und_req (Demo.state [Demo.fp1] Demo.d_active)
                Demo.d_active Demo.params_v0 eq_refl eq_refl eq_refl) as (_ & _ & _ & Hok).
  split.
  - apply Hpend. vm_compute. reflexivity.
  - apply Hok. vm_compute. reflexivity.
Defined.

(** ** SelectiveSlashingEvidence *)

Lemma slashable_gate (env : Env) (d : BTCDelegation) (p : Params) :
  negb (bool_decide (GetStatus d (GetTipHeight env) (CheckpointFinalizationTimeout env)
                       (CovenantQuorum p) = ACTIVE))
  && negb (IsUnbondedEarly d) = false <-> slashable env d p.
Proof.
  unfold slashable. rewrite andb_false_iff, !negb_false_iff, bool_decide_eq_true. reflexivity.
Qed.

Lemma not_slashable_gate (env : Env) (d : BTCDelegation) (p : Params) :
  negb (bool_decide (GetStatus d (GetTipHeight env) (CheckpointFinalizationTimeout env)
                       (CovenantQuorum p) = ACTIVE))
  && negb (IsUnbondedEarly d) = true <-> ~ slashable env d p.
Proof.
  rewrite <- slashable_gate. destruct (_ && _); split; congruence.
Qed.

(** C8.  When the finality-provider key recovered from the evidence is not in
    the provider list of the (existing) delegation, [SelectiveSlashingEvidence]
    is rejected with a not-found error: [ErrFpNotFound] when the delegation
    passed the eligibility gate, [ErrBTCDelegationNotFound] when it did not.
    The whole keeper state, and so the finality-provider registry, is left as
    it was: no provider is marked slashed. *)
Theorem SelectiveSlashingEvidence_provider_not_in_list
    (env : Env) (req : MsgSelectiveSlashingEvidence) (s : KState)
    (d : BTCDelegation) (p : Params) :
  btcDelegations s !! sse_StakingTxHash req = Some d ->
  GetParamsByVersion env (ParamsVersion d) = Some p ->
  snd (PrivKeyFromBytes env (sse_RecoveredFpBtcSk req)) ∉ FpBtcPkList d ->
  exists e,
    SelectiveSlashingEvidence env req s = mkRun (Err e) s [] /\
    is_not_found e = true /\
    (slashable env d p -> e = ErrFpNotFound) /\
    finalityProviders (final (SelectiveSlashingEvidence env req s)) = finalityProviders s.
Proof.
  intros Hd Hp Hnot.
  apply GetFpIdx_absent in Hnot.
  unfold SelectiveSlashingEvidence, getBTCDelWithParams, GetBTCDelegation.
  run_unfold. use Hd. use Hp.
  destruct (negb _ && negb _) eqn:Hgate; run_simpl.
  - exists ErrBTCDelegationNotFound. repeat split.
    intros Hs. apply not_slashable_gate in Hgate. contradiction.
  - use Hnot. exists ErrFpNotFound. repeat split.
Qed.

Lemma SelectiveSlashingEvidence_provider_not_in_list_witness :
  SelectiveSlashingEvidence Demo.env (Demo.sse_req "zz") (Demo.state [Demo.fp1] Demo.d_active)
    = mkRun (Err ErrFpNotFound) (Demo.state [Demo.fp1] Demo.d_active) [].
Proof.
  assert (Hnot : snd (PrivKeyFromBytes Demo.env (sse_RecoveredFpBtcSk (Demo.sse_req "zz")))
                 ∉ FpBtcPkList Demo.d_active).
  { apply GetFpIdx_absent. vm_compute. reflexivity. }
  destruct (SelectiveSlashingEvidence_provider_not_in_list
              Demo.env (Demo.sse_req "zz") (Demo.state [Demo.fp1] Demo.d_active)
              Demo.d_active Demo.params_v0 eq_refl eq_refl Hnot)
    as (e & Hrun & _ & He & _).
  rewrite Hrun. rewrite He; [reflexivity|].
  left. vm_compute. reflexivity.
Defined.

(** C10, as the code has it.  For a delegation that is found and passes the
    eligibility gate, a recovered key that is in the provider list but missing
    from the registry makes the handler panic; it is not reported as a user
    error.  Over the whole handler a user-facing error comes from exactly three
    places: the delegation is not eligible ([ErrBTCDelegationNotFound]), the
    key is absent from the provider list ([ErrFpNotFound]), or the provider is
    already slashed ([ErrFpAlreadySlashed]). *)
Theorem SelectiveSlashingEvidence_registry_fault_panics
    (env : Env) (req : MsgSelectiveSlashingEvidence) (s : KState)
    (d : BTCDelegation) (p : Params) :
  btcDelegations s !! sse_StakingTxHash req = Some d ->
  GetParamsByVersion env (ParamsVersion d) = Some p ->
  let pk := snd (PrivKeyFromBytes env (sse_RecoveredFpBtcSk req)) in
  let r := SelectiveSlashingEvidence env req s in
  (slashable env d p -> pk ∈ FpBtcPkList d -> finalityProviders s !! pk = None ->
   r = mkRun (Panic "failing to find the finality provider with BTC delegations") s []) /\
  (~ slashable env d p -> r = mkRun (Err ErrBTCDelegationNotFound) s []) /\
  (forall e, outcome r = Err e ->
     (~ slashable env d p /\ e = ErrBTCDelegationNotFound) \/
     (slashable env d p /\ (pk ∉ FpBtcPkList d) /\ e = ErrFpNotFound) \/
     (slashable env d p /\ (pk ∈ FpBtcPkList d) /\ e = ErrFpAlreadySlashed /\
      exists fp, finalityProviders s !! pk = Some fp /\ IsSlashed fp = true)).
Proof.
  intros Hd Hp pk r. subst r.
  unfold SelectiveSlashingEvidence, getBTCDelWithParams, GetBTCDelegation, GetFinalityProvider,
    emitOrPanic, IndexRefundableMsg.
  run_unfold. use Hd. use Hp. fold pk.
  split; [|split].
  - intros Hs Hin Hnone. apply slashable_gate in Hs. use Hs.
    destruct (GetFpIdx d pk =? -1) eqn:Hidx; run_simpl.
    + apply Z.eqb_eq, GetFpIdx_absent in Hidx. contradiction.
    + use Hnone. reflexivity.
  - intros Hs. apply not_slashable_gate in Hs. use Hs. reflexivity.
  - intros e.
    destruct (negb _ && negb _) eqn:Hgate; run_simpl.
    + intros [= <-]. left. split; [|reflexivity]. now apply not_slashable_gate.
    + apply slashable_gate in Hgate.
      destruct (GetFpIdx d pk =? -1) eqn:Hidx; run_simpl.
      * apply Z.eqb_eq, GetFpIdx_absent in Hidx.
        intros [= <-]. right; left. auto.
      * apply Z.eqb_neq in Hidx.
        assert (Hin : pk ∈ FpBtcPkList d).
        { destruct (decide (pk ∈ FpBtcPkList d)) as [Hin|Hout]; [exact Hin|].
          apply GetFpIdx_absent in Hout. contradiction. }
        intros He. repeat next_case He.
        injection He as <-. right; right. eauto 10.
Qed.

Lemma SelectiveSlashingEvidence_registry_fault_panics_witness :
  SelectiveSlashingEvidence Demo.env (Demo.sse_req "k1") (Demo.state [] Demo.d_active)
    = mkRun (Panic "failing to find the finality provider with BTC delegations")
        (Demo.state [] Demo.d_active) [].
Proof.
  destruct (SelectiveSlashingEvidence_registry_fault_panics
              Demo.env (Demo.sse_req "k1") (Demo.state [] Demo.d_active)
              Demo.d_active Demo.params_v0 eq_refl eq_refl) as [Hpanic _].
  apply Hpanic.
  - left. vm_compute. reflexivity.
  - vm_compute. left.
  - vm_compute. reflexivity.
Defined.

(** C10 as stated fails on a delegation that does not pass the eligibility
    gate: the recovered key is in the provider list and the registry has no
    such provider, yet the handler returns the user error
    [ErrBTCDelegationNotFound] instead of panicking; so a user-facing error is
    returned although the key is not absent and no provider is slashed. *)
Lemma SelectiveSlashingEvidence_claim_counterexample :
  let s := Demo.state [] Demo.d_unsigned in
  let req := Demo.sse_req "k1" in
  let pk := snd (PrivKeyFromBytes Demo.env (sse_RecoveredFpBtcSk req)) in
  btcDelegations s !! sse_StakingTxHash req = Some Demo.d_unsigned /\
  pk ∈ FpBtcPkList Demo.d_unsigned /\
  finalityProviders s !! pk = None /\
  SelectiveSlashingEvidence Demo.env req s = mkRun (Err ErrBTCDelegationNotFound) s [] /\
  ~ (exists msg, outcome (SelectiveSlashingEvidence Demo.env req s) = Panic msg) /\
  ~ (pk ∉ FpBtcPkList Demo.d_unsigned \/
     exists fp, finalityProviders s !! pk = Some fp /\ IsSlashed fp = true).
Proof.
  cbv zeta.
  assert (Hin : snd (PrivKeyFromBytes Demo.env (sse_RecoveredFpBtcSk (Demo.sse_req "k1")))
                ∈ FpBtcPkList Demo.d_unsigned) by (vm_compute; left).
  assert (Hnone : finalityProviders (Demo.state [] Demo.d_unsigned)
                    !! snd (PrivKeyFromBytes Demo.env (sse_RecoveredFpBtcSk (Demo.sse_req "k1")))
                  = None) by (vm_compute; reflexivity).
  assert (Hrun : SelectiveSlashingEvidence Demo.env (Demo.sse_req "k1")
                   (Demo.state [] Demo.d_unsigned)
                 = mkRun (Err ErrBTCDelegationNotFound) (Demo.state [] Demo.d_unsigned) [])
    by (vm_compute; reflexivity).
  split; [vm_compute; reflexivity|]. split; [exact Hin|]. split; [exact Hnone|].
  split; [exact Hrun|]. split.
  - rewrite Hrun. intros [msg Hmsg]. discriminate Hmsg.
  - intros [Hout | (fp & Hfp & _)]; [contradiction | congruence].
Qed.

(** ** AddCovenantSigs *)

(** C5.  A request (passing the stateless checks) from a covenant member of
    the delegation's parameter set that has already signed both the delegation
    and its undelegation is rejected with [ErrDuplicatedCovenantSig]; the
    verifier is not invoked at all and the keeper state, the delegation record
    included, is what it was. *)
Theorem AddCovenantSigs_duplicate_rejected_unverified
    (env : Env) (req : MsgAddCovenantSigs) (s : KState) (d : BTCDelegation) (p : Params) :
  ValidateBasicCovenantSigs env req = None ->
  btcDelegations s !! cov_StakingTxHash req = Some d ->
  GetParamsByVersion env (ParamsVersion d) = Some p ->
  HasCovenantPK p (cov_Pk req) = true ->
  IsSignedByCovMember d (cov_Pk req) = true ->
  UndelegationIsSignedByCovMember (BtcUndelegation d) (cov_Pk req) = true ->
  AddCovenantSigs env req s = mkRun (Err ErrDuplicatedCovenantSig) s [] /\
  verifierCalls (AddCovenantSigs env req s) = [] /\
  btcDelegations (final (AddCovenantSigs env req s)) !! cov_StakingTxHash req = Some d.
Proof.
  intros Hv Hd Hp Hpk Hs1 Hs2.
  assert (Hrun : AddCovenantSigs env req s = mkRun (Err ErrDuplicatedCovenantSig) s []).
  { unfold AddCovenantSigs, getBTCDelWithParams, GetBTCDelegation.
    run_unfold. use Hv. use Hd. use Hp. use Hpk. use Hs1. use Hs2. reflexivity. }
  rewrite Hrun. cbn. auto.
Qed.

Lemma AddCovenantSigs_duplicate_rejected_unverified_witness :
  AddCovenantSigs Demo.env (Demo.cov_req "covA" ["s1"] ["u1"]) (Demo.state [Demo.fp1] Demo.d_quorum)
    = mkRun (Err ErrDuplicatedCovenantSig) (Demo.state [Demo.fp1] Demo.d_quorum) [].
Proof.
  apply (AddCovenantSigs_duplicate_rejected_unverified
           Demo.env (Demo.cov_req "covA" ["s1"] ["u1"]) (Demo.state [Demo.fp1] Demo.d_quorum)
           Demo.d_quorum Demo.params_v0);
    vm_compute; reflexivity.
Defined.

(** C6, as the code has it.  The covenant key of a request is checked against
    the parameter set of the version recorded in the delegation, which need
    not be the current (latest) one.  A request whose key is not in that set is
    rejected with [ErrInvalidCovenantPK] before the verifier is invoked and
    without touching the state; a request that succeeds carries a key of that
    set. *)
Theorem AddCovenantSigs_key_of_delegation_params
    (env : Env) (req : MsgAddCovenantSigs) (s : KState) (d : BTCDelegation) (p : Params) :
  ValidateBasicCovenantSigs env req = None ->
  btcDelegations s !! cov_StakingTxHash req = Some d ->
  GetParamsByVersion env (ParamsVersion d) = Some p ->
  (cov_Pk req ∉ CovenantPks p ->
   AddCovenantSigs env req s = mkRun (Err ErrInvalidCovenantPK) s []) /\
  (outcome (AddCovenantSigs env req s) = Ok tt -> cov_Pk req ∈ CovenantPks p) /\
  (verifierCalls (AddCovenantSigs env req s) <> [] -> cov_Pk req ∈ CovenantPks p).
Proof.
  intros Hv Hd Hp.
  assert (Hrej : cov_Pk req ∉ CovenantPks p ->
                 AddCovenantSigs env req s = mkRun (Err ErrInvalidCovenantPK) s []).
  { intros Hnot.
    assert (Hpk : HasCovenantPK p (cov_Pk req) = false)
      by (unfold HasCovenantPK; now apply bool_decide_eq_false).
    unfold AddCovenantSigs, getBTCDelWithParams, GetBTCDelegation.
    run_unfold. use Hv. use Hd. use Hp. use Hpk. reflexivity. }
  split; [exact Hrej|].
  split; intros H; destruct (decide (cov_Pk req ∈ CovenantPks p)) as [Hin|Hout];
    try exact Hin; rewrite (Hrej Hout) in H; cbn in H; congruence.
Qed.

Lemma AddCovenantSigs_key_of_delegation_params_witness :
  AddCovenantSigs Demo.env (Demo.cov_req "covB" ["s1"] ["u1"])
    (Demo.state [Demo.fp1] Demo.d_unsigned)
  = mkRun (Err ErrInvalidCovenantPK) (Demo.state [Demo.fp1] Demo.d_unsigned) [].
Proof.
  destruct (AddCovenantSigs_key_of_delegation_params
              Demo.env (Demo.cov_req "covB" ["s1"] ["u1"])
              (Demo.state [Demo.fp1] Demo.d_unsigned) Demo.d_unsigned Demo.params_v0
              eq_refl eq_refl eq_refl) as [Hrej _].
  apply Hrej. vm_compute. intros H.
  apply list_elem_of_singleton in H. discriminate H.
Defined.

(** C6 as stated fails when the current parameter set differs from the one
    the delegation is bound to: the key [covA] is not in the current set, yet
    the request is not rejected; all three signature verifications run and the
    request succeeds. *)
Lemma AddCovenantSigs_current_params_counterexample :
  let req := Demo.cov_req "covA" ["s1"] ["u1"] in
  let s := Demo.state [Demo.fp1] Demo.d_unsigned in
  (cov_Pk req ∉ CovenantPks (sp_Params (GetParamsWithVersion Demo.env))) /\
  outcome (AddCovenantSigs Demo.env req s) = Ok tt /\
  verifierCalls (AddCovenantSigs Demo.env req s)
    = [VerifyStakingSlashingAdaptorSigs "covA" ["s1"];
       VerifyUnbondingSchnorrSig "covA";
       VerifyUnbondingSlashingAdaptorSigs "covA" ["u1"]].
Proof.
  cbv zeta. split; [|split].
  - vm_compute. intros H. apply list_elem_of_singleton in H. discriminate H.
  - vm_compute. reflexivity.
  - vm_compute. reflexivity.
Qed.

(** C3, as the code has it.  Among the requests that pass the earlier gates
    of [AddCovenantSigs]: a wrong number of staking-slashing adaptor signatures
    is rejected with the count-mismatch error before the verifier is invoked at
    all.  A wrong number of unbonding-slashing adaptor signatures (the first
    count being right) is rejected too, with the state untouched, before the
    Schnorr verification and before the verification of the unbonding-slashing
    signatures, but only after the staking-slashing adaptor signatures have
    been verified: the request is rejected with the count-mismatch error when
    that verification passes, and with its verification error otherwise. *)
Theorem AddCovenantSigs_count_mismatch
    (env : Env) (req : MsgAddCovenantSigs) (s : KState) (d : BTCDelegation) (p : Params) :
  reaches_count_checks env req s d p ->
  let r := AddCovenantSigs env req s in
  let nfps := length (FpBtcPkList d) in
  let first := VerifyStakingSlashingAdaptorSigs (cov_Pk req) (cov_SlashingTxSigs req) in
  (length (cov_SlashingTxSigs req) <> nfps ->
   r = mkRun (Err (ErrInvalidCovenantSig (CountMismatch (length (cov_SlashingTxSigs req)) nfps)))
         s []) /\
  (length (cov_SlashingTxSigs req) = nfps ->
   length (cov_SlashingUnbondingTxSigs req) <> nfps ->
   final r = s /\
   outcome r <> Ok tt /\
   (forall c, c ∈ verifierCalls r -> c = first) /\
   (forall info path,
      GetStakingInfo env d p = Some info ->
      SlashingPathSpendInfo info = Some path ->
      verifierCalls r = [first] /\
      match ParseEncVerifyAdaptorSignatures env (SlashingTx d) (StakingOutput info) path
              (cov_Pk req) (FpBtcPkList d) (cov_SlashingTxSigs req) with
      | inl _ =>
          outcome r = Err (ErrInvalidCovenantSig
                             (CountMismatch (length (cov_SlashingUnbondingTxSigs req)) nfps))
      | inr m => outcome r = Err (ErrInvalidCovenantSig (VerificationFailed m))
      end)).
Proof.
  intros (Hv & Hd & Hp & Hpk & Hdup & Hst) r nfps first. subst r nfps first.
  unfold AddCovenantSigs, getBTCDelWithParams, GetBTCDelegation.
  run_unfold. use Hv. use Hd. use Hp. use Hpk. use Hdup.
  assert (Hgate : forall (A : Type) (k u : A),
            match GetStatus d (GetTipHeight env) (CheckpointFinalizationTimeout env)
                    (CovenantQuorum p) with
            | UNBONDED => u
            | _ => k
            end = k).
  { intros A k u. destruct (GetStatus _ _ _ _); congruence. }
  rewrite Hgate. clear Hgate.
  split.
  - intros Hne. apply Nat.eqb_neq in Hne. use Hne. reflexivity.
  - intros Heq Hne. apply Nat.eqb_eq in Heq. apply Nat.eqb_neq in Hne. use Heq.
    destruct (GetStakingInfo env d p) as [info|] eqn:Hinfo; run_simpl.
    2:{ split; [reflexivity|]. split; [discriminate|]. split.
        - intros c Hc. apply elem_of_nil in Hc. contradiction.
        - intros info' path' [=]. }
    destruct (SlashingPathSpendInfo info) as [path|] eqn:Hpath; run_simpl.
    2:{ split; [reflexivity|]. split; [discriminate|]. split.
        - intros c Hc. apply elem_of_nil in Hc. contradiction.
        - intros info' path' [= <-] Hpath'. congruence. }
    destruct (ParseEncVerifyAdaptorSignatures env (SlashingTx d) (StakingOutput info) path
                (cov_Pk req) (FpBtcPkList d) (cov_SlashingTxSigs req)) as [sigs'|m] eqn:Hver;
      run_simpl; try use Hne.
    all: split; [reflexivity|]; split; [discriminate|]; split;
      [ intros c Hc; now apply list_elem_of_singleton in Hc
      | intros info' path' [= <-] Hpath'; rewrite Hpath in Hpath'; injection Hpath' as <-;
        rewrite Hver; split; reflexivity ].
Qed.

Lemma AddCovenantSigs_count_mismatch_witness :
  AddCovenantSigs Demo.env (Demo.cov_req "covA" ["s1"; "s2"] ["u1"])
    (Demo.state [Demo.fp1] Demo.d_unsigned)
  = mkRun (Err (ErrInvalidCovenantSig (CountMismatch 2 1)))
      (Demo.state [Demo.fp1] Demo.d_unsigned) [].
Proof.
  assert (Hreach : reaches_count_checks Demo.env (Demo.cov_req "covA" ["s1"; "s2"] ["u1"])
                     (Demo.state [Demo.fp1] Demo.d_unsigned) Demo.d_unsigned Demo.params_v0).
  { unfold reaches_count_checks. repeat split; try (vm_compute; reflexivity).
    vm_compute. discriminate. }
  destruct (AddCovenantSigs_count_mismatch
              Demo.env (Demo.cov_req "covA" ["s1"; "s2"] ["u1"])
              (Demo.state [Demo.fp1] Demo.d_unsigned) Demo.d_unsigned Demo.params_v0
              Hreach) as [Hfirst _].
  apply Hfirst. vm_compute. discriminate.
Defined.

(** C3 as stated fails for the unbonding-slashing list: with one finality
    provider, one staking-slashing signature and two unbonding-slashing
    signatures, the request is rejected with the count-mismatch error only
    after the adaptor signatures over the slashing transaction have been
    verified. *)
Lemma AddCovenantSigs_count_mismatch_counterexample :
  let req := Demo.cov_req "covA" ["s1"] ["u1"; "u2"] in
  let s := Demo.state [Demo.fp1] Demo.d_unsigned in
  btcDelegations s !! cov_StakingTxHash req = Some Demo.d_unsigned /\
  length (cov_SlashingUnbondingTxSigs req) <> length (FpBtcPkList Demo.d_unsigned) /\
  AddCovenantSigs Demo.env req s
    = mkRun (Err (ErrInvalidCovenantSig (CountMismatch 2 1))) s
        [VerifyStakingSlashingAdaptorSigs "covA" ["s1"]] /\
  verifierCalls (AddCovenantSigs Demo.env req s) <> [].
Proof.
  cbv zeta. repeat split; try (vm_compute; reflexivity); vm_compute; discriminate.
Qed.

(** ** CreateBTCDelegation *)

(** C4, as the code has it.  A creation request that parses and whose staking
    transaction hash is that of a stored delegation is always rejected,
    whatever its other fields, and the keeper state is left as it was.  The
    error is [ErrReusedStakingTx] when the proof of possession of the request
    verifies; a request whose proof of possession does not verify is rejected
    with [ErrInvalidProofOfPossession] before the duplicate check is reached. *)
Theorem CreateBTCDelegation_duplicate_rejected
    (env : Env) (req : MsgCreateBTCDelegation) (s : KState)
    (parsedMsg : ParsedCreateDelegationMessage) (stored : BTCDelegation) :
  ParseCreateDelegationMessage env req = inl parsedMsg ->
  btcDelegations s !! TxHash env (p_StakingTx_Transaction parsedMsg) = Some stored ->
  let r := CreateBTCDelegation env req s in
  final r = s /\
  match PopVerify env (p_ParsedPop parsedMsg) (p_StakerAddress parsedMsg) (p_StakerPK parsedMsg) with
  | None => outcome r = Err (ErrReusedStakingTx (TxHash env (p_StakingTx_Transaction parsedMsg)))
  | Some msg => outcome r = Err (ErrInvalidProofOfPossession msg)
  end.
Proof.
  intros Hparse Hdup r. subst r.
  unfold CreateBTCDelegation, getBTCDelegation.
  run_unfold. use Hparse.
  destruct (PopVerify env _ _ _); run_simpl.
  - split; reflexivity.
  - use Hdup. split; reflexivity.
Qed.

Lemma CreateBTCDelegation_duplicate_rejected_witness :
  final (CreateBTCDelegation Demo.env "create:tx1:badpop" (Demo.state [Demo.fp1] Demo.d_unsigned))
    = Demo.state [Demo.fp1] Demo.d_unsigned.
Proof.
  apply (CreateBTCDelegation_duplicate_rejected
           Demo.env "create:tx1:badpop" (Demo.state [Demo.fp1] Demo.d_unsigned)
           (Demo.parsed "tx1" "bad-pop" None) Demo.d_unsigned eq_refl eq_refl).
Defined.

(** C4 as stated fails on a request that reuses a stored staking transaction
    and carries an invalid proof of possession: it is rejected, but with
    [ErrInvalidProofOfPossession], not with the duplicate error. *)
Lemma CreateBTCDelegation_duplicate_error_counterexample :
  let s := Demo.state [Demo.fp1] Demo.d_unsigned in
  let req := "create:tx1:badpop" in
  exists parsedMsg,
    ParseCreateDelegationMessage Demo.env req = inl parsedMsg /\
    btcDelegations s !! TxHash Demo.env (p_StakingTx_Transaction parsedMsg)
      = Some Demo.d_unsigned /\
    outcome (CreateBTCDelegation Demo.env req s) = Err (ErrInvalidProofOfPossession "invalid pop") /\
    forall h, outcome (CreateBTCDelegation Demo.env req s) <> Err (ErrReusedStakingTx h).
Proof.
  cbv zeta. exists (Demo.parsed "tx1" "bad-pop" None).
  repeat split; try (vm_compute; reflexivity).
  intros h. vm_compute. discriminate.
Qed.

(** ** The height invariant *)

Lemma checkFinalityProviders_run (pks : list string) (s : KState) :
  final (checkFinalityProviders pks s) = s /\
  verifierCalls (checkFinalityProviders pks s) = [].
Proof.
  induction pks as [|pk pks IH]; cbn [checkFinalityProviders].
  - split; reflexivity.
  - unfold GetFinalityProvider. run_unfold.
    destruct (finalityProviders s !! pk) as [fp|]; run_simpl; [|split; reflexivity].
    destruct (IsSlashed fp); run_simpl; [split; reflexivity|].
    destruct IH as [IH1 IH2].
    destruct (checkFinalityProviders pks s) as [o f v]. cbn in *. subst.
    destruct o; split; reflexivity.
Qed.

Lemma store_heights_ok_insert (s s' : KState) (h : string) (d : BTCDelegation) :
  store_heights_ok s -> del_heights_ok d ->
  btcDelegations s' = <[h := d]> (btcDelegations s) ->
  store_heights_ok s'.
Proof.
  intros Hs Hd Heq h' d' Hlook. rewrite Heq in Hlook.
  destruct (decide (h = h')) as [->|Hne].
  - rewrite lookup_insert_eq in Hlook. injection Hlook as <-. exact Hd.
  - rewrite lookup_insert_ne in Hlook by exact Hne. eapply Hs, Hlook.
Qed.

(** C1.  Both transitions that write heights keep the invariant of the
    delegation store: whenever a stored delegation has a non-zero start height,
    its end height is its start height plus its staking time (Go's [uint64]
    addition; see [del_heights_exact] for when that is the plain sum).  The
    record written by [CreateBTCDelegation] without an inline proof has both
    heights zero; with an inline proof, and after
    [AddBTCDelegationInclusionProof], the end height is the start height plus
    the staking time. *)
Theorem heights_invariant_preserved (env : Env) (t : HeightTransition) (s : KState) :
  staking_time_fits env ->
  store_heights_ok s ->
  outcome (run_transition env t s) = Ok tt ->
  store_heights_ok (final (run_transition env t s)) /\
  exists h d,
    btcDelegations (final (run_transition env t s)) = <[h := d]> (btcDelegations s) /\
    del_heights_ok d /\
    written_heights env t d.
Proof.
  intros Hfits Hs Hok.
  cut (exists h d,
         btcDelegations (final (run_transition env t s)) = <[h := d]> (btcDelegations s) /\
         del_heights_ok d /\ written_heights env t d).
  { intros (h & d & Heq & Hd & Hw). split; [|eauto].
    eapply store_heights_ok_insert; eauto. }
  destruct t as [req|req]; cbn [run_transition written_heights] in *.
  - unfold CreateBTCDelegation, getBTCDelegation, AddBTCDelegation in *.
    run_unfold.
    destruct (ParseCreateDelegationMessage env req) as [p|] eqn:Hparse; run_simpl; [|discriminate].
    destruct (PopVerify env _ _ _); run_simpl; [discriminate|].
    destruct (btcDelegations s !! _); run_simpl; [discriminate|].
    destruct (checkFinalityProviders_run (p_FinalityProviderKeys p) s) as [Hf Hc].
    destruct (checkFinalityProviders (p_FinalityProviderKeys p) s) as [o f v].
    cbn in Hf, Hc. subst f v. destruct o; run_simpl; try discriminate.
    repeat next_case Hok.
    + eexists _, _. split; [reflexivity|].
      assert (Hend : U64.add z0 (U64.wrap (p_StakingTime p))
                     = U64.add z0 (U32.wrap (p_StakingTime p))).
      { rewrite U64_add_wrap_r, U32_wrap_fits by (eapply Hfits; eassumption). reflexivity. }
      split.
      * intros _. cbn. exact Hend.
      * exists p. split; [reflexivity|].
        match goal with Hp : p_StakingTxProofOfInclusion p = _ |- _ => rewrite Hp end.
        cbn. exact Hend.
    + eexists _, _. split; [reflexivity|]. split.
      * intros Hne. cbn in Hne. congruence.
      * exists p. split; [reflexivity|].
        match goal with Hp : p_StakingTxProofOfInclusion p = _ |- _ => rewrite Hp end.
        cbn. split; reflexivity.
  - unfold AddBTCDelegationInclusionProof, getBTCDelWithParams, GetBTCDelegation,
      setBTCDelegation, emitOrPanic, addPowerDistUpdateEvent, IndexRefundableMsg in *.
    run_unfold.
    repeat next_case Hok.
    eexists _, _. split; [reflexivity|]. cbn. rewrite U64_add_wrap_r.
    split; [intros _; reflexivity | reflexivity].
Qed.

(** The [uint64] sum is the plain sum as long as it does not overflow. *)
Lemma del_heights_exact (d : BTCDelegation) :
  del_heights_ok d -> StartHeight d <> 0 ->
  U64.in_range (StartHeight d + StakingTime d) ->
  EndHeight d = StartHeight d + StakingTime d.
Proof. intros Hd Hne Hr. rewrite (Hd Hne). now apply U64_add_exact. Qed.

Lemma heights_invariant_preserved_witness :
  store_heights_ok
    (final (run_transition Demo.env (TCreate "create:tx3:proof")
              (Demo.state [Demo.fp1] Demo.d_unsigned))) /\
  store_heights_ok
    (final (run_transition Demo.env (TCreate "create:tx2")
              (Demo.state [Demo.fp1] Demo.d_unsigned))) /\
  store_heights_ok
    (final (run_transition Demo.env (TAddInclusionProof Demo.incl_req)
              (Demo.state [Demo.fp1] Demo.d_quorum))).
Proof.
  assert (Hfits : staking_time_fits Demo.env).
  { intros req p. cbn. unfold Demo.parse.
    repeat match goal with |- context [String.eqb ?a ?b] => destruct (String.eqb a b) end;
      intros [= <-]; unfold U32.in_range, U32.modulus; cbn; lia. }
  assert (Hstore : forall d, StartHeight d = 0 -> store_heights_ok (Demo.state [Demo.fp1] d)).
  { intros d Hz h d' Hlook. cbn in Hlook.
    apply lookup_singleton_Some in Hlook as [_ <-]. intros Hne. congruence. }
  split; [|split].
  - apply (heights_invariant_preserved Demo.env (TCreate "create:tx3:proof")
             (Demo.state [Demo.fp1] Demo.d_unsigned) Hfits (Hstore Demo.d_unsigned eq_refl)).
    vm_compute. reflexivity.
  - apply (heights_invariant_preserved Demo.env (TCreate "create:tx2")
             (Demo.state [Demo.fp1] Demo.d_unsigned) Hfits (Hstore Demo.d_unsigned eq_refl)).
    vm_compute. reflexivity.
  - apply (heights_invariant_preserved Demo.env (TAddInclusionProof Demo.incl_req)
             (Demo.state [Demo.fp1] Demo.d_quorum) Hfits (Hstore Demo.d_quorum eq_refl)).
    vm_compute. reflexivity.
Defined.

(** ** AddBTCDelegationInclusionProof *)

(** C2, as the code has it.  A successful [AddBTCDelegationInclusionProof]
    appends exactly two events to the power-distribution log, in this order:
    an ACTIVE event indexed by the current BTC tip height (not by the verified
    inclusion height, which becomes the start height of the delegation), and an
    UNBONDED event indexed by the new end height minus the checkpoint
    finalization timeout, on [uint64]. *)
Theorem AddBTCDelegationInclusionProof_events
    (env : Env) (req : MsgAddBTCDelegationInclusionProof) (s : KState) :
  outcome (AddBTCDelegationInclusionProof env req s) = Ok tt ->
  exists d tx proof inclusionHeight,
    btcDelegations s !! incl_StakingTxHash req = Some d /\
    NewBTCTxFromBytes env (StakingTx d) = inl tx /\
    NewParsedProofOfInclusion env (incl_StakingTxInclusionProof req) = inl proof /\
    VerifyInclusionProofAndGetHeight env tx (U64.wrap (StakingTime d)) proof
      = inl inclusionHeight /\
    let d' := with_heights d inclusionHeight (U64.add inclusionHeight (StakingTime d)) in
    btcDelegations (final (AddBTCDelegationInclusionProof env req s))
      = <[TxHash env tx := d']> (btcDelegations s) /\
    powerDistEvents (final (AddBTCDelegationInclusionProof env req s))
      = powerDistEvents s ++
        [(GetTipHeight env, BtcDelStateUpdate (TxHash env tx) ACTIVE);
         (U64.sub (EndHeight d') (CheckpointFinalizationTimeout env),
          BtcDelStateUpdate (incl_StakingTxHash req) UNBONDED)].
Proof.
  intros Hok.
  unfold AddBTCDelegationInclusionProof, getBTCDelWithParams, GetBTCDelegation,
    setBTCDelegation, emitOrPanic, addPowerDistUpdateEvent, IndexRefundableMsg,
    GetStakingTxHash in *.
  run_unfold.
  repeat next_case Hok.
  cbn [with_heights StakingTx] in *.
  repeat match goal with
         | H1 : NewBTCTxFromBytes env ?b = inl ?m, H2 : context [NewBTCTxFromBytes env ?b] |- _ =>
             rewrite H1 in H2
         end.
  repeat match goal with
         | H : Some _ = Some _ |- _ => injection H as <-
         | H : inl _ = inl _ |- _ => injection H as <-
         end.
  do 4 eexists. repeat (split; [eassumption || reflexivity|]).
  cbn. rewrite U64_add_wrap_r, <- app_assoc. split; reflexivity.
Qed.

Lemma AddBTCDelegationInclusionProof_events_witness :
  powerDistEvents
    (final (AddBTCDelegationInclusionProof Demo.env Demo.incl_req
              (Demo.state [Demo.fp1] Demo.d_quorum)))
  = [(1010, BtcDelStateUpdate "hash:tx1" ACTIVE); (1090, BtcDelStateUpdate "hash:tx1" UNBONDED)].
Proof.
  destruct (AddBTCDelegationInclusionProof_events Demo.env Demo.incl_req
              (Demo.state [Demo.fp1] Demo.d_quorum))
    as (d & tx & proof & h & Hd & Htx & Hproof & Hh & _ & Hev).
  - vm_compute. reflexivity.
  - vm_compute. reflexivity.
Defined.

(** C2 as stated fails when the chain tip is above the block that includes
    the staking transaction: the proof verifies at height 1000 while the tip is
    at 1010, and the ACTIVE event is logged at 1010; no ACTIVE event is logged
    at the verified inclusion height. *)
Lemma AddBTCDelegationInclusionProof_active_height_counterexample :
  let r := AddBTCDelegationInclusionProof Demo.env Demo.incl_req
             (Demo.state [Demo.fp1] Demo.d_quorum) in
  outcome r = Ok tt /\
  VerifyInclusionProofAndGetHeight Demo.env (mkMsgTx "tx1") (U64.wrap 100) "proof" = inl 1000 /\
  StartHeight <$> (btcDelegations (final r) !! "hash:tx1") = Some 1000 /\
  powerDistEvents (final r)
    = [(1010, BtcDelStateUpdate "hash:tx1" ACTIVE);
       (1090, BtcDelStateUpdate "hash:tx1" UNBONDED)] /\
  forall h, (1000, BtcDelStateUpdate h ACTIVE) ∉ powerDistEvents (final r).
Proof.
  cbv zeta.
  assert (Hev : powerDistEvents
                  (final (AddBTCDelegationInclusionProof Demo.env Demo.incl_req
                            (Demo.state [Demo.fp1] Demo.d_quorum)))
                = [(1010, BtcDelStateUpdate "hash:tx1" ACTIVE);
                   (1090, BtcDelStateUpdate "hash:tx1" UNBONDED)])
    by (vm_compute; reflexivity).
  repeat split; try (vm_compute; reflexivity); try exact Hev.
  intros h. rewrite Hev. intros Hin.
  apply elem_of_cons in Hin as [Hin|Hin]; [discriminate Hin|].
  apply list_elem_of_singleton in Hin. discriminate Hin.
Qed.

(** ** Properties of the message server as a whole *)

Ltac unfold_handlers :=
  unfold handle, EditFinalityProvider, CreateBTCDelegation, AddBTCDelegationInclusionProof,
    AddCovenantSigs, BTCUndelegate, SelectiveSlashingEvidence, getBTCDelWithParams,
    GetBTCDelegation, getBTCDelegation, GetFinalityProvider, setFinalityProvider,
    AddBTCDelegation, btcUndelegate, addCovenantSigsToBTCDelegation, setBTCDelegation,
    emitOrPanic, addPowerDistUpdateEvent, IndexRefundableMsg in *.

(** Past the proof-of-possession check and the duplicate check,
    [checkFinalityProviders] is the only step of [CreateBTCDelegation] that is
    a loop; this exposes its run as an opaque outcome on the same state. *)
Ltac expose_provider_check :=
  match goal with
  | |- context [checkFinalityProviders ?pks ?s] =>
      let Hf := fresh "Hf" in
      let Hc := fresh "Hc" in
      destruct (checkFinalityProviders_run pks s) as [Hf Hc];
      let o := fresh "o" in
      let f := fresh "f" in
      let v := fresh "v" in
      destruct (checkFinalityProviders pks s) as [o f v];
      cbn [final verifierCalls] in Hf, Hc; subst f v
  end.

(** X1.  No handler returns a user error after it has written: whenever one
    of the six handlers returns an error, the keeper state is the one it was
    called with. *)
Theorem user_error_leaves_state (env : Env) (m : Msg) (s : KState) (e : Error) :
  outcome (handle env m s) = Err e -> final (handle env m s) = s.
Proof.
  intros H.
  destruct m as [req|req|req|req|req|req]; unfold_handlers; run_unfold.
  - repeat next_case H; reflexivity.
  - destruct (ParseCreateDelegationMessage env req) as [p|]; run_simpl; [|reflexivity].
    destruct (PopVerify env _ _ _); run_simpl; [reflexivity|].
    destruct (btcDelegations s !! _); run_simpl; [reflexivity|].
    expose_provider_check.
    repeat next_case H; reflexivity.
  - repeat next_case H; reflexivity.
  - repeat next_case H; reflexivity.
  - repeat next_case H; reflexivity.
  - repeat next_case H; reflexivity.
Qed.

Lemma user_error_leaves_state_witness :
  final (handle Demo.env (MsgCovenantSigs (Demo.cov_req "covB" ["s1"] ["u1"]))
           (Demo.state [Demo.fp1] Demo.d_unsigned))
  = Demo.state [Demo.fp1] Demo.d_unsigned.
Proof.
  apply (user_error_leaves_state Demo.env (MsgCovenantSigs (Demo.cov_req "covB" ["s1"] ["u1"]))
           (Demo.state [Demo.fp1] Demo.d_unsigned) ErrInvalidCovenantPK).
  vm_compute. reflexivity.
Defined.

(** X2.  The four refundable handlers index their message as refundable
    exactly once when they succeed, after everything else; the two other
    handlers never index anything. *)
Theorem refund_indexed_on_success (env : Env) (m : Msg) (s : KState) :
  outcome (handle env m s) = Ok tt ->
  refundableMsgs (final (handle env m s)) = refundableMsgs s ++ refund_of m.
Proof.
  intros H.
  destruct m as [req|req|req|req|req|req]; unfold_handlers; unfold SlashFinalityProvider in *;
    run_unfold; cbn [refund_of].
  - repeat next_case H. cbn. now rewrite app_nil_r.
  - destruct (ParseCreateDelegationMessage env req) as [p|]; run_simpl; [|discriminate].
    destruct (PopVerify env _ _ _); run_simpl; [discriminate|].
    destruct (btcDelegations s !! _); run_simpl; [discriminate|].
    expose_provider_check.
    repeat next_case H; cbn; now rewrite app_nil_r.
  - repeat next_case H; reflexivity.
  - repeat next_case H; reflexivity.
  - repeat next_case H; reflexivity.
  - repeat next_case H; reflexivity.
Qed.

Lemma refund_indexed_on_success_witness :
  refundableMsgs
    (final (handle Demo.env (MsgUndelegate Demo.und_req) (Demo.state [Demo.fp1] Demo.d_active)))
  = [RefundUndelegate Demo.und_req].
Proof.
  apply (refund_indexed_on_success Demo.env (MsgUndelegate Demo.und_req)
           (Demo.state [Demo.fp1] Demo.d_active)).
  vm_compute. reflexivity.
Defined.

(** X3.  A stored delegation whose parameter version is unknown is an
    internal fault for every handler that starts with [getBTCDelWithParams]:
    the handler panics, before any verification and without touching the
    state; it does not return an error. *)
Theorem unknown_params_version_panics
    (env : Env) (m : Msg) (s : KState) (h : TxHashStr) (d : BTCDelegation) :
  addressed_delegation m = Some h ->
  stateless_check env m = None ->
  btcDelegations s !! h = Some d ->
  GetParamsByVersion env (ParamsVersion d) = None ->
  handle env m s = mkRun (Panic "params version in BTC delegation is not found") s [].
Proof.
  intros Hm Hv Hd Hp.
  destruct m as [req|req|req|req|req|req]; cbn in Hm, Hv; try discriminate Hm;
    injection Hm as <-; unfold_handlers; run_unfold;
    try use Hv; use Hd; use Hp; reflexivity.
Qed.

Lemma unknown_params_version_panics_witness :
  handle Demo.env (MsgUndelegate Demo.und_req) (Demo.state [] DemoOrphan.d_orphan)
  = mkRun (Panic "params version in BTC delegation is not found")
      (Demo.state [] DemoOrphan.d_orphan) [].
Proof.
  eapply (unknown_params_version_panics Demo.env (MsgUndelegate Demo.und_req));
    vm_compute; reflexivity.
Defined.

(** ** More on the single handlers *)

(** X4.  [EditFinalityProvider] checks the commission before it looks at the
    registry or at the signer: for a request that passes the stateless checks,
    a commission below the minimum rate is rejected with
    [ErrCommissionLTMinRate] and one above 1 with [ErrCommissionGTMaxRate],
    whether or not the provider exists and whoever signs; within the bounds, a
    signer whose address does not match the registered one is rejected with
    [PermissionDenied].  None of these rejections changes the state. *)
Theorem EditFinalityProvider_rejections
    (env : Env) (req : MsgEditFinalityProvider) (s : KState) :
  ValidateBasicEdit env req = None ->
  let minRate := MinCommissionRate (sp_Params (GetParamsWithVersion env)) in
  let r := EditFinalityProvider env req s in
  (edit_Commission req < minRate -> r = mkRun (Err ErrCommissionLTMinRate) s []) /\
  (minRate <= edit_Commission req -> LegacyOneDec < edit_Commission req ->
   r = mkRun (Err ErrCommissionGTMaxRate) s []) /\
  (minRate <= edit_Commission req <= LegacyOneDec ->
   forall fp fpAddr,
     finalityProviders s !! edit_BtcPk req = Some fp ->
     AccAddressFromBech32 env (edit_Addr req) = inl fpAddr ->
     to_lower (AccAddressString env fpAddr) <> to_lower (fp_Addr fp) ->
     r = mkRun (Err PermissionDenied) s []).
Proof.
  intros Hv minRate r. subst minRate r.
  unfold EditFinalityProvider, GetFinalityProvider. run_unfold. use Hv.
  split; [|split].
  - intros Hlt. apply Z.ltb_lt in Hlt. use Hlt. reflexivity.
  - intros Hge Hgt. apply Z.ltb_ge in Hge. use Hge.
    apply Z.gtb_lt in Hgt. use Hgt. reflexivity.
  - intros [Hge Hle] fp fpAddr Hfp Haddr Hne.
    apply Z.ltb_ge in Hge. use Hge.
    assert (Hgt : (edit_Commission req >? LegacyOneDec) = false)
      by (rewrite Z.gtb_ltb; now apply Z.ltb_ge).
    use Hgt. use Hfp. use Haddr.
    assert (Hfold : EqualFold (AccAddressString env fpAddr) (fp_Addr fp) = false).
    { destruct (EqualFold _ _) eqn:E; [|reflexivity].
      apply EqualFold_to_lower in E. contradiction. }
    use Hfold. reflexivity.
Qed.

Lemma EditFinalityProvider_rejections_witness :
  EditFinalityProvider Demo.env
    (mkMsgEditFinalityProvider "bbn1fp" "new" (10 ^ 16) "no such provider")
    (Demo.state [Demo.fp1] Demo.d_unsigned)
  = mkRun (Err ErrCommissionLTMinRate) (Demo.state [Demo.fp1] Demo.d_unsigned) [].
Proof.
  destruct (EditFinalityProvider_rejections Demo.env
              (mkMsgEditFinalityProvider "bbn1fp" "new" (10 ^ 16) "no such provider")
              (Demo.state [Demo.fp1] Demo.d_unsigned) eq_refl) as [Hlt _].
  apply Hlt. vm_compute. reflexivity.
Defined.

(** The provider loop of [CreateBTCDelegation] reads the registry and nothing
    else: it reports the first key of the list that is unknown or slashed. *)
Lemma checkFinalityProviders_outcome (pks : list string) (s : KState) :
  outcome (checkFinalityProviders pks s)
  = match first_provider_fault (finalityProviders s) pks with
    | None => Ok tt
    | Some e => Err e
    end.
Proof.
  induction pks as [|pk pks IH]; cbn [checkFinalityProviders first_provider_fault].
  - reflexivity.
  - unfold GetFinalityProvider. run_unfold.
    destruct (finalityProviders s !! pk) as [fp|]; run_simpl; [|reflexivity].
    destruct (IsSlashed fp); run_simpl; [reflexivity|].
    destruct (checkFinalityProviders_run pks s) as [Hf Hc].
    destruct (checkFinalityProviders pks s) as [o f v]. cbn in *. subst.
    destruct (first_provider_fault (finalityProviders s) pks); reflexivity.
Qed.

Lemma first_provider_fault_none (fps : gmap string FinalityProvider) (pks : list string) :
  first_provider_fault fps pks = None <->
  forall pk, pk ∈ pks -> exists fp, fps !! pk = Some fp /\ IsSlashed fp = false.
Proof.
  induction pks as [|pk pks IH]; cbn [first_provider_fault].
  - split; [|reflexivity]. intros _ pk Hin. apply elem_of_nil in Hin. contradiction.
  - destruct (fps !! pk) as [fp|] eqn:Hfp.
    + destruct (IsSlashed fp) eqn:Hsl.
      * split; [discriminate|]. intros H.
        destruct (H pk) as (fp' & Hfp' & Hsl'); [left|]. congruence.
      * rewrite IH. split.
        -- intros H pk' Hin. apply elem_of_cons in Hin as [->|Hin]; eauto.
        -- intros H pk' Hin. apply H. now right.
    + split; [discriminate|]. intros H.
      destruct (H pk) as (fp' & Hfp' & _); [left|]. congruence.
Qed.

(** X5.  [CreateBTCDelegation] stores a delegation only if every finality
    provider it names is registered and not slashed.  Conversely, for a
    request that parses, passes the proof-of-possession check and is not a
    duplicate, the first named provider that is unknown or slashed decides the
    error, and nothing is stored. *)
Theorem CreateBTCDelegation_checks_providers
    (env : Env) (req : MsgCreateBTCDelegation) (s : KState) :
  (outcome (CreateBTCDelegation env req s) = Ok tt ->
   exists p,
     ParseCreateDelegationMessage env req = inl p /\
     forall pk, pk ∈ p_FinalityProviderKeys p ->
       exists fp, finalityProviders s !! pk = Some fp /\ IsSlashed fp = false) /\
  (forall p e,
     ParseCreateDelegationMessage env req = inl p ->
     PopVerify env (p_ParsedPop p) (p_StakerAddress p) (p_StakerPK p) = None ->
     btcDelegations s !! TxHash env (p_StakingTx_Transaction p) = None ->
     first_provider_fault (finalityProviders s) (p_FinalityProviderKeys p) = Some e ->
     CreateBTCDelegation env req s = mkRun (Err e) s [VerifyPop (p_StakerPK p)]).
Proof.
  split.
  - intros H. unfold CreateBTCDelegation, getBTCDelegation in *. run_unfold.
    destruct (ParseCreateDelegationMessage env req) as [p|]; run_simpl; [|discriminate].
    destruct (PopVerify env _ _ _); run_simpl; [discriminate|].
    destruct (btcDelegations s !! _); run_simpl; [discriminate|].
    exists p. split; [reflexivity|].
    apply first_provider_fault_none.
    pose proof (checkFinalityProviders_outcome (p_FinalityProviderKeys p) s) as Ho.
    destruct (first_provider_fault _ _); [|reflexivity].
    destruct (checkFinalityProviders (p_FinalityProviderKeys p) s) as [o f v].
    cbn in Ho. subst o. run_simpl. discriminate.
  - intros p e Hparse Hpop Hdup Hfault.
    unfold CreateBTCDelegation, getBTCDelegation. run_unfold.
    use Hparse. use Hpop. use Hdup.
    pose proof (checkFinalityProviders_outcome (p_FinalityProviderKeys p) s) as Ho.
    rewrite Hfault in Ho.
    destruct (checkFinalityProviders_run (p_FinalityProviderKeys p) s) as [Hf Hc].
    destruct (checkFinalityProviders (p_FinalityProviderKeys p) s) as [o f v].
    cbn in Ho, Hf, Hc. subst. reflexivity.
Qed.

Lemma CreateBTCDelegation_checks_providers_witness :
  CreateBTCDelegation Demo.env "create:tx2" (Demo.state [] Demo.d_unsigned)
  = mkRun (Err ErrFpNotFound) (Demo.state [] Demo.d_unsigned) [VerifyPop "stakerpk"].
Proof.
  destruct (CreateBTCDelegation_checks_providers Demo.env "create:tx2"
              (Demo.state [] Demo.d_unsigned)) as [_ Hfault].
  apply (Hfault (Demo.parsed "tx2" "pop" None)); vm_compute; reflexivity.
Defined.

(** X6.  A successful [CreateBTCDelegation] charges the delegation-creation
    fee of the current parameters exactly when the request carries no inline
    inclusion proof, and runs the inclusion-proof verification exactly when it
    carries one; the proof of possession is verified first in both cases. *)
Theorem CreateBTCDelegation_fee_or_proof
    (env : Env) (req : MsgCreateBTCDelegation) (s : KState) :
  outcome (CreateBTCDelegation env req s) = Ok tt ->
  exists p,
    ParseCreateDelegationMessage env req = inl p /\
    match p_StakingTxProofOfInclusion p with
    | None =>
        gasConsumed (final (CreateBTCDelegation env req s))
          = gasConsumed s + DelegationCreationBaseGasFee (sp_Params (GetParamsWithVersion env)) /\
        verifierCalls (CreateBTCDelegation env req s) = [VerifyPop (p_StakerPK p)]
    | Some proof =>
        gasConsumed (final (CreateBTCDelegation env req s)) = gasConsumed s /\
        verifierCalls (CreateBTCDelegation env req s)
          = [VerifyPop (p_StakerPK p); VerifyInclusion (p_StakingTx_Transaction p)] /\
        exists h, VerifyInclusionProofAndGetHeight env (p_StakingTx_Transaction p)
                    (U64.wrap (p_StakingTime p)) proof = inl h
    end.
Proof.
  intros H. unfold CreateBTCDelegation, getBTCDelegation, AddBTCDelegation in *. run_unfold.
  destruct (ParseCreateDelegationMessage env req) as [p|]; run_simpl; [|discriminate].
  destruct (PopVerify env _ _ _); run_simpl; [discriminate|].
  destruct (btcDelegations s !! _); run_simpl; [discriminate|].
  expose_provider_check.
  exists p. split; [reflexivity|].
  repeat next_case H; cbn; eauto.
Qed.

Lemma CreateBTCDelegation_fee_or_proof_witness :
  gasConsumed (final (CreateBTCDelegation Demo.env "create:tx2"
                        (Demo.state [Demo.fp1] Demo.d_unsigned))) = 1000 /\
  gasConsumed (final (CreateBTCDelegation Demo.env "create:tx3:proof"
                        (Demo.state [Demo.fp1] Demo.d_unsigned))) = 0.
Proof.
  split.
  - destruct (CreateBTCDelegation_fee_or_proof Demo.env "create:tx2"
                (Demo.state [Demo.fp1] Demo.d_unsigned)) as (p & Hp & Hm).
    + vm_compute. reflexivity.
    + vm_compute in Hp. injection Hp as <-. cbn [p_StakingTxProofOfInclusion] in Hm.
      destruct Hm as [Hg _]. rewrite Hg. vm_compute. reflexivity.
  - destruct (CreateBTCDelegation_fee_or_proof Demo.env "create:tx3:proof"
                (Demo.state [Demo.fp1] Demo.d_unsigned)) as (p & Hp & Hm).
    + vm_compute. reflexivity.
    + vm_compute in Hp. injection Hp as <-. cbn [p_StakingTxProofOfInclusion] in Hm.
      destruct Hm as [Hg _]. rewrite Hg. vm_compute. reflexivity.
Defined.

(** X7.  [AddBTCDelegationInclusionProof] tests three conditions on the
    stored delegation, in this order, before it looks at the proof: an
    inclusion proof already recorded, a missing covenant quorum, a recorded
    unbonding signature.  Each is rejected with its own error, with the state
    untouched and the proof unverified; a request that succeeds met none of
    them. *)
Theorem AddBTCDelegationInclusionProof_gates
    (env : Env) (req : MsgAddBTCDelegationInclusionProof) (s : KState)
    (d : BTCDelegation) (p : Params) :
  btcDelegations s !! incl_StakingTxHash req = Some d ->
  GetParamsByVersion env (ParamsVersion d) = Some p ->
  let r := AddBTCDelegationInclusionProof env req s in
  (HasInclusionProof d = true -> r = mkRun (Err ErrHasInclusionProof) s []) /\
  (HasInclusionProof d = false -> HasCovenantQuorums d (CovenantQuorum p) = false ->
   r = mkRun (Err ErrNoCovenantQuorum) s []) /\
  (HasInclusionProof d = false -> HasCovenantQuorums d (CovenantQuorum p) = true ->
   ud_DelegatorUnbondingSig (BtcUndelegation d) <> None ->
   r = mkRun (Err ErrAlreadyUnbonded) s []) /\
  (outcome r = Ok tt ->
   HasInclusionProof d = false /\
   HasCovenantQuorums d (CovenantQuorum p) = true /\
   ud_DelegatorUnbondingSig (BtcUndelegation d) = None).
Proof.
  intros Hd Hp r. subst r.
  unfold AddBTCDelegationInclusionProof, getBTCDelWithParams, GetBTCDelegation.
  run_unfold. use Hd. use Hp.
  split; [|split; [|split]].
  - intros H1. use H1. reflexivity.
  - intros H1 H2. use H1. use H2. reflexivity.
  - intros H1 H2 H3. use H1. use H2.
    destruct (ud_DelegatorUnbondingSig (BtcUndelegation d)); [reflexivity | contradiction].
  - destruct (HasInclusionProof d); run_simpl; [discriminate|].
    destruct (HasCovenantQuorums d (CovenantQuorum p)); run_simpl; [|discriminate].
    destruct (ud_DelegatorUnbondingSig (BtcUndelegation d)); run_simpl; [discriminate|].
    auto.
Qed.

Lemma AddBTCDelegationInclusionProof_gates_witness :
  AddBTCDelegationInclusionProof Demo.env Demo.incl_req (Demo.state [Demo.fp1] Demo.d_active)
    = mkRun (Err ErrHasInclusionProof) (Demo.state [Demo.fp1] Demo.d_active) [] /\
  AddBTCDelegationInclusionProof Demo.env Demo.incl_req (Demo.state [Demo.fp1] Demo.d_unsigned)
    = mkRun (Err ErrNoCovenantQuorum) (Demo.state [Demo.fp1] Demo.d_unsigned) [].
Proof.
  split.
  - destruct (AddBTCDelegationInclusionProof_gates Demo.env Demo.incl_req
                (Demo.state [Demo.fp1] Demo.d_active) Demo.d_active Demo.params_v0
                eq_refl eq_refl) as [H _].
    apply H. vm_compute. reflexivity.
  - destruct (AddBTCDelegationInclusionProof_gates Demo.env Demo.incl_req
                (Demo.state [Demo.fp1] Demo.d_unsigned) Demo.d_unsigned Demo.params_v0
                eq_refl eq_refl) as (_ & H & _).
    apply H; vm_compute; reflexivity.
Defined.

(** X8.  Whenever [AddCovenantSigs] succeeds, the covenant key is in the
    parameter set of the delegation, the member had not already signed both
    sides, the delegation was not UNBONDED, both signature lists have one entry
    per finality provider, and the verifier has been invoked exactly three
    times, in this order: adaptor signatures over the slashing transaction,
    Schnorr signature over the unbonding transaction, adaptor signatures over
    the unbonding slashing transaction. *)
Theorem AddCovenantSigs_success
    (env : Env) (req : MsgAddCovenantSigs) (s : KState) :
  outcome (AddCovenantSigs env req s) = Ok tt ->
  exists d p,
    btcDelegations s !! cov_StakingTxHash req = Some d /\
    GetParamsByVersion env (ParamsVersion d) = Some p /\
    HasCovenantPK p (cov_Pk req) = true /\
    IsSignedByCovMember d (cov_Pk req)
      && UndelegationIsSignedByCovMember (BtcUndelegation d) (cov_Pk req) = false /\
    GetStatus d (GetTipHeight env) (CheckpointFinalizationTimeout env) (CovenantQuorum p)
      <> UNBONDED /\
    length (cov_SlashingTxSigs req) = length (FpBtcPkList d) /\
    length (cov_SlashingUnbondingTxSigs req) = length (FpBtcPkList d) /\
    verifierCalls (AddCovenantSigs env req s)
      = [VerifyStakingSlashingAdaptorSigs (cov_Pk req) (cov_SlashingTxSigs req);
         VerifyUnbondingSchnorrSig (cov_Pk req);
         VerifyUnbondingSlashingAdaptorSigs (cov_Pk req) (cov_SlashingUnbondingTxSigs req)].
Proof.
  intros H.
  unfold AddCovenantSigs, getBTCDelWithParams, GetBTCDelegation,
    addCovenantSigsToBTCDelegation, setBTCDelegation, IndexRefundableMsg in *.
  run_unfold.
  repeat next_case H.
  all: repeat match goal with
         | Hn : negb _ = false |- _ => apply negb_false_iff in Hn
         | Hn : (_ =? _)%nat = true |- _ => apply Nat.eqb_eq in Hn
         end.
  all: do 2 eexists; repeat (split; [eassumption || reflexivity || congruence|]);
    reflexivity.
Qed.

Lemma AddCovenantSigs_success_witness :
  verifierCalls (AddCovenantSigs Demo.env (Demo.cov_req "covA" ["s1"] ["u1"])
                   (Demo.state [Demo.fp1] Demo.d_unsigned))
  = [VerifyStakingSlashingAdaptorSigs "covA" ["s1"];
     VerifyUnbondingSchnorrSig "covA";
     VerifyUnbondingSlashingAdaptorSigs "covA" ["u1"]].
Proof.
  destruct (AddCovenantSigs_success Demo.env (Demo.cov_req "covA" ["s1"] ["u1"])
              (Demo.state [Demo.fp1] Demo.d_unsigned))
    as (d & p & _ & _ & _ & _ & _ & _ & _ & Hcalls).
  - vm_compute. reflexivity.
  - exact Hcalls.
Defined.

(** X9.  Covenant signatures for a delegation whose derived status is
    UNBONDED are rejected with [ErrInvalidCovenantSig], before the signature
    counts are compared and before any verification, for a member of the
    delegation's parameter set that has not yet signed both sides. *)
Theorem AddCovenantSigs_unbonded_rejected
    (env : Env) (req : MsgAddCovenantSigs) (s : KState) (d : BTCDelegation) (p : Params) :
  ValidateBasicCovenantSigs env req = None ->
  btcDelegations s !! cov_StakingTxHash req = Some d ->
  GetParamsByVersion env (ParamsVersion d) = Some p ->
  HasCovenantPK p (cov_Pk req) = true ->
  IsSignedByCovMember d (cov_Pk req)
    && UndelegationIsSignedByCovMember (BtcUndelegation d) (cov_Pk req) = false ->
  GetStatus d (GetTipHeight env) (CheckpointFinalizationTimeout env) (CovenantQuorum p)
    = UNBONDED ->
  AddCovenantSigs env req s = mkRun (Err (ErrInvalidCovenantSig AlreadyUnbonded)) s [].
Proof.
  intros Hv Hd Hp Hpk Hdup Hst.
  unfold AddCovenantSigs, getBTCDelWithParams, GetBTCDelegation.
  run_unfold. use Hv. use Hd. use Hp. use Hpk. use Hdup. use Hst. reflexivity.
Qed.

Lemma AddCovenantSigs_unbonded_rejected_witness :
  AddCovenantSigs Demo.env (Demo.cov_req "covA" ["s1"] ["u1"])
    (Demo.state [Demo.fp1] (Demo.delegation 1000 1100 [] (Some "staker-sig")))
  = mkRun (Err (ErrInvalidCovenantSig AlreadyUnbonded))
      (Demo.state [Demo.fp1] (Demo.delegation 1000 1100 [] (Some "staker-sig"))) [].
Proof.
  apply (AddCovenantSigs_unbonded_rejected Demo.env (Demo.cov_req "covA" ["s1"] ["u1"])
           (Demo.state [Demo.fp1] (Demo.delegation 1000 1100 [] (Some "staker-sig")))
           (Demo.delegation 1000 1100 [] (Some "staker-sig")) Demo.params_v0);
    vm_compute; reflexivity.
Defined.

(** X10.  [BTCUndelegate] verifies the signature of the request over the
    stored unbonding transaction against the staker key recorded in the
    delegation, once.  When that verification fails the request is rejected,
    with [ErrInvalidCovenantSig] (the handler reuses the error of the covenant
    signatures), and the state is untouched; when it passes, no error can
    follow, and a handler that succeeds has passed it. *)
Theorem BTCUndelegate_verifies_staker_signature
    (env : Env) (req : MsgBTCUndelegate) (s : KState) (d : BTCDelegation) (p : Params)
    (tx : MsgTx) (info : StakingInfo) (path stakerPK sig : string) :
  ValidateBasicUndelegate env req = None ->
  btcDelegations s !! und_StakingTxHash req = Some d ->
  GetParamsByVersion env (ParamsVersion d) = Some p ->
  GetStatus d (GetTipHeight env) (CheckpointFinalizationTimeout env) (CovenantQuorum p)
    = ACTIVE ->
  NewBTCTxFromBytes env (ud_UnbondingTx (BtcUndelegation d)) = inl tx ->
  GetStakingInfo env d p = Some info ->
  UnbondingPathSpendInfo info = Some path ->
  ToBTCPK env (BtcPk d) = Some stakerPK ->
  und_UnbondingTxSig req = Some sig ->
  let r := BTCUndelegate env req s in
  verifierCalls r = [VerifyUnbondingSchnorrSig (BtcPk d)] /\
  match VerifyTransactionSigWithOutput env tx (StakingOutput info) path stakerPK sig with
  | Some msg => r = mkRun (Err (ErrInvalidCovenantSig (VerificationFailed msg))) s
                      [VerifyUnbondingSchnorrSig (BtcPk d)]
  | None => forall e, outcome r <> Err e
  end /\
  (outcome r = Ok tt ->
   VerifyTransactionSigWithOutput env tx (StakingOutput info) path stakerPK sig = None).
Proof.
  intros Hv Hd Hp Hst Htx Hinfo Hpath Hpk Hsig r. subst r.
  unfold BTCUndelegate, getBTCDelWithParams, GetBTCDelegation, btcUndelegate,
    setBTCDelegation, IndexRefundableMsg.
  run_unfold. use Hv. use Hd. use Hp. use Hst. use Htx. use Hinfo. use Hpath. use Hpk. use Hsig.
  destruct (VerifyTransactionSigWithOutput env tx (StakingOutput info) path stakerPK sig);
    run_simpl.
  - repeat split; discriminate.
  - destruct (GetStakingTxHash env _); run_simpl; repeat split; try discriminate;
      intros e; discriminate.
Qed.

Lemma BTCUndelegate_verifies_staker_signature_witness :
  BTCUndelegate Demo.env (mkMsgBTCUndelegate "hash:tx1" (Some "bad"))
    (Demo.state [Demo.fp1] Demo.d_active)
  = mkRun (Err (ErrInvalidCovenantSig (VerificationFailed "invalid signature")))
      (Demo.state [Demo.fp1] Demo.d_active) [VerifyUnbondingSchnorrSig "stakerpk"].
Proof.
  destruct (BTCUndelegate_verifies_staker_signature Demo.env
              (mkMsgBTCUndelegate "hash:tx1" (Some "bad"))
              (Demo.state [Demo.fp1] Demo.d_active) Demo.d_active Demo.params_v0
              (mkMsgTx "unbonding-tx") Demo.info "unbond-path" "stakerpk" "bad"
              eq_refl eq_refl eq_refl eq_refl eq_refl eq_refl eq_refl eq_refl eq_refl)
    as (_ & Hfail & _).
  exact Hfail.
Defined.

(** X11.  Whenever [SelectiveSlashingEvidence] succeeds, the delegation was
    active or unbonded early, the key derived from the recovered secret key is
    one of the delegation's finality providers, that provider was registered
    and not yet slashed, [SlashFinalityProvider] has been applied to it, and the
    evidence has been emitted as a typed event and indexed as refundable; the
    verifier is not involved. *)
Theorem SelectiveSlashingEvidence_success
    (env : Env) (req : MsgSelectiveSlashingEvidence) (s : KState) :
  outcome (SelectiveSlashingEvidence env req s) = Ok tt ->
  let sk := fst (PrivKeyFromBytes env (sse_RecoveredFpBtcSk req)) in
  let pk := snd (PrivKeyFromBytes env (sse_RecoveredFpBtcSk req)) in
  exists d p fp slashed,
    btcDelegations s !! sse_StakingTxHash req = Some d /\
    GetParamsByVersion env (ParamsVersion d) = Some p /\
    slashable env d p /\
    pk ∈ FpBtcPkList d /\
    finalityProviders s !! pk = Some fp /\
    IsSlashed fp = false /\
    SlashFinalityProvider env pk s = inl slashed /\
    final (SelectiveSlashingEvidence env req s)
      = set_refundableMsgs (fun l => l ++ [RefundSlashingEvidence req])
          (set_typedEvents
             (fun l => l ++ [EventSelectiveSlashing (sse_StakingTxHash req) pk sk])
             slashed) /\
    verifierCalls (SelectiveSlashingEvidence env req s) = [].
Proof.
  intros H sk pk. subst sk pk.
  unfold SelectiveSlashingEvidence, getBTCDelWithParams, GetBTCDelegation, GetFinalityProvider,
    emitOrPanic, IndexRefundableMsg in *.
  run_unfold.
  repeat next_case H.
  match goal with
  | Hg : negb _ && negb _ = false |- _ => apply slashable_gate in Hg
  end.
  match goal with
  | Hi : (GetFpIdx ?d ?pk =? -1) = false |- _ =>
      apply Z.eqb_neq in Hi;
      assert (Hin : pk ∈ FpBtcPkList d)
        by (destruct (decide (pk ∈ FpBtcPkList d)) as [Hin|Hout];
            [exact Hin | apply GetFpIdx_absent in Hout; contradiction])
  end.
  do 4 eexists. repeat (split; [eassumption || reflexivity|]). reflexivity.
Qed.

Lemma SelectiveSlashingEvidence_success_witness :
  exists fp,
    finalityProviders (final (SelectiveSlashingEvidence Demo.env (Demo.sse_req "k1")
                                (Demo.state [Demo.fp1] Demo.d_active))) !! "pk(k1)" = Some fp /\
    IsSlashed fp = true.
Proof.
  destruct (SelectiveSlashingEvidence_success Demo.env (Demo.sse_req "k1")
              (Demo.state [Demo.fp1] Demo.d_active))
    as (d & p & fp & slashed & _ & _ & _ & _ & _ & _ & Hslash & Hfinal & _).
  - vm_compute. reflexivity.
  - rewrite Hfinal. vm_compute in Hslash. injection Hslash as <-.
    eexists. split; vm_compute; reflexivity.
Defined.

(** ** The wire format of the monitor queries: facts *)

Module QueryFacts.
Import Query.

Lemma byte_val_range (b : Byte.byte) : 0 <= byte_val b < 256.
Proof.
  unfold byte_val. pose proof (Byte.to_N_bounded b) as H. lia.
Qed.

Lemma byte_val_uint8 (z : Z) : byte_val (uint8 z) = z mod 256.
Proof.
  unfold byte_val, uint8.
  assert (Hr : 0 <= z mod 256 < 256) by (apply Z.mod_pos_bound; lia).
  destruct (Byte.of_N (Z.to_N (z mod 256))) as [b|] eqn:E.
  - apply Byte.to_of_N in E. rewrite E. apply Z2N.id. lia.
  - apply Byte.of_N_None_iff in E. lia.
Qed.

Lemma lor_shiftl_add (a b n : Z) :
  0 <= n -> 0 <= a < 2 ^ n -> Z.lor a (Z.shiftl b n) = a + b * 2 ^ n.
Proof.
  intros Hn Ha. rewrite <- Z.shiftl_mul_pow2 by exact Hn.
  symmetry. apply Z.add_nocarry_lor.
  apply Z.bits_inj'. intros m Hm. rewrite Z.land_spec, Z.bits_0.
  destruct (Z.lt_ge_cases m n) as [Hlt|Hge].
  - rewrite (Z.shiftl_spec_low b n m Hlt). apply andb_false_r.
  - assert (Hbit : Z.testbit a m = false).
    { destruct (Z.eq_dec a 0) as [->|Hne]; [apply Z.bits_0|].
      apply Z.bits_above_log2; [lia|].
      apply Z.lt_le_trans with n; [|exact Hge].
      apply Z.log2_lt_pow2; lia. }
    rewrite Hbit. reflexivity.
Qed.

Lemma land_127 (v : Z) : Z.land v 127 = v mod 128.
Proof. change 127 with (Z.ones 7). rewrite Z.land_ones by lia. reflexivity. Qed.

Lemma lor_128 (x : Z) : 0 <= x < 128 -> Z.lor x 128 = x + 128.
Proof.
  intros Hx. change 128 with (Z.shiftl 1 7) at 1.
  rewrite lor_shiftl_add by (cbn; lia). cbn. lia.
Qed.

(** The two kinds of bytes a varint is made of. *)
Lemma continuation_byte (v : Z) :
  byte_val (uint8 (Z.lor (Z.land v 127) 128)) = v mod 128 + 128.
Proof.
  assert (Hr : 0 <= v mod 128 < 128) by (apply Z.mod_pos_bound; lia).
  rewrite byte_val_uint8, land_127, lor_128 by exact Hr.
  apply Z.mod_small. lia.
Qed.

Lemma final_byte (v : Z) : 0 <= v < 128 -> byte_val (uint8 v) = v.
Proof. intros Hv. rewrite byte_val_uint8. apply Z.mod_small. lia. Qed.

(** *** The size of a varint *)

Lemma sovQuery_small (v : Z) : 0 <= v < 128 -> sovQuery v = 1.
Proof.
  intros Hv. unfold sovQuery, Len64.
  assert (H1 : 0 < Z.lor v 1).
  { assert (0 <= Z.lor v 1) by (apply Z.lor_nonneg; lia).
    assert (Z.lor v 1 <> 0) by (intros E; apply Z.lor_eq_0_iff in E; lia). lia. }
  destruct (Z.lor v 1 =? 0) eqn:E; [apply Z.eqb_eq in E; lia|].
  assert (Hlog : 0 <= Z.log2 (Z.lor v 1) < 7).
  { split; [apply Z.log2_nonneg|].
    rewrite Z.log2_lor by lia. apply Z.max_lub_lt; [|cbn; lia].
    destruct (Z.eq_dec v 0) as [->|Hne]; [cbn; lia|].
    apply Z.log2_lt_pow2; lia. }
  assert (Hq : (Z.log2 (Z.lor v 1) + 1 + 6) = 1 * 7 + Z.log2 (Z.lor v 1)) by lia.
  rewrite Hq, Z.div_add_l by lia. rewrite Z.div_small by lia. lia.
Qed.

Lemma log2_ge_7 (v : Z) : 128 <= v -> 7 <= Z.log2 v.
Proof. intros Hv. change 7 with (Z.log2 128). apply Z.log2_le_mono. exact Hv. Qed.

Lemma Len64_lor_1 (v : Z) : 1 <= v -> Len64 (Z.lor v 1) = Z.log2 v + 1.
Proof.
  intros Hv. unfold Len64.
  destruct (Z.lor v 1 =? 0) eqn:E.
  - apply Z.eqb_eq, Z.lor_eq_0_iff in E. lia.
  - rewrite Z.log2_lor by lia. change (Z.log2 1) with 0.
    rewrite Z.max_l by apply Z.log2_nonneg. reflexivity.
Qed.

Lemma sovQuery_step (v : Z) : 128 <= v -> sovQuery v = 1 + sovQuery (Z.shiftr v 7).
Proof.
  intros Hv. pose proof (log2_ge_7 v Hv) as Hlog.
  assert (Hs : 1 <= Z.shiftr v 7).
  { rewrite Z.shiftr_div_pow2 by lia. change (2 ^ 7) with 128.
    apply Z.div_le_lower_bound; lia. }
  unfold sovQuery. rewrite !Len64_lor_1 by lia.
  rewrite Z.log2_shiftr by lia. rewrite Z.max_r by lia.
  replace (Z.log2 v + 1 + 6) with (1 * 7 + (Z.log2 v - 7 + 1 + 6)) by lia.
  rewrite Z.div_add_l by lia. reflexivity.
Qed.

Lemma shiftr_7_bound (v : Z) (n : nat) :
  0 <= v < 2 ^ (7 * Z.of_nat (S n)) -> 0 <= Z.shiftr v 7 < 2 ^ (7 * Z.of_nat n).
Proof.
  intros Hv. rewrite Z.shiftr_div_pow2 by lia. split.
  - apply Z.div_pos; lia.
  - apply Z.div_lt_upper_bound; [lia|].
    rewrite <- Z.pow_add_r by lia.
    replace (7 + 7 * Z.of_nat n) with (7 * Z.of_nat (S n)) by lia. lia.
Qed.

Lemma varint_length (n : nat) (v : Z) :
  0 <= v < 2 ^ (7 * Z.of_nat n) -> (0 < n)%nat ->
  Z.of_nat (length (varint n v)) = sovQuery v.
Proof.
  revert v. induction n as [|n IH]; intros v Hv Hn; [lia|].
  cbn [varint]. destruct (v >=? 128) eqn:E.
  - apply Z.geb_le in E. rewrite sovQuery_step by exact E.
    cbn [length]. rewrite Nat2Z.inj_succ.
    pose proof (shiftr_7_bound v n Hv) as Hs.
    destruct n as [|n'].
    + cbn in Hs. assert (Z.shiftr v 7 = 0) by lia.
      rewrite Z.shiftr_div_pow2 in H by lia. change (2 ^ 7) with 128 in H.
      assert (128 * (v / 128) <= v) by (apply Z.mul_div_le; lia).
      cbn in Hv. lia.
    + rewrite IH by (exact Hs || lia). lia.
  - rewrite Z.geb_leb in E. apply Z.leb_gt in E.
    cbn [length]. rewrite sovQuery_small by lia. reflexivity.
Qed.

Lemma varint_nonempty (n : nat) (v : Z) : (0 < n)%nat -> varint n v <> [].
Proof. destruct n; [lia|]. intros _. cbn. destruct (v >=? 128); discriminate. Qed.

(** *** Writing a varint *)

Lemma store_middle (pre post : list Byte.byte) (x b : Byte.byte) :
  store (pre ++ x :: post) (Z.of_nat (length pre)) b = Val (pre ++ b :: post).
Proof.
  unfold store. rewrite length_app. cbn [length].
  destruct (Z.of_nat (length pre) <? 0) eqn:E1; [apply Z.ltb_lt in E1; lia|].
  destruct (Z.of_nat (length pre + S (length post)) <=? Z.of_nat (length pre)) eqn:E2;
    [apply Z.leb_le in E2; lia|].
  cbn [orb]. rewrite Nat2Z.id.
  replace (length pre) with (length pre + 0)%nat at 1 by lia.
  rewrite insert_app_r. reflexivity.
Qed.

Lemma encodeVarint_loop_writes (n : nat) (pre mid post : list Byte.byte) (v : Z) :
  0 <= v < 2 ^ (7 * Z.of_nat n) -> (0 < n)%nat ->
  length mid = length (varint n v) ->
  encodeVarint_loop n (pre ++ mid ++ post) (Z.of_nat (length pre)) v
  = Val (pre ++ varint n v ++ post).
Proof.
  revert pre mid v. induction n as [|n IH]; intros pre mid v Hv Hn Hlen.
  - lia.
  - cbn [encodeVarint_loop varint] in *. destruct (v >=? 128) eqn:E.
    + destruct mid as [|x mid]; [discriminate Hlen|].
      cbn [length] in Hlen. injection Hlen as Hlen.
      cbn [app]. rewrite store_middle. cbn [go_bind].
      replace (Z.of_nat (length pre) + 1) with (Z.of_nat (length (pre ++ [uint8 (Z.lor (Z.land v 127) 128)])))
        by (rewrite length_app; cbn; lia).
      replace (pre ++ uint8 (Z.lor (Z.land v 127) 128) :: mid ++ post)
        with ((pre ++ [uint8 (Z.lor (Z.land v 127) 128)]) ++ mid ++ post)
        by (rewrite <- app_assoc; reflexivity).
      pose proof (shiftr_7_bound v n Hv) as Hs.
      assert (Hn' : (0 < n)%nat).
      { destruct n; [|lia]. cbn in Hs. apply Z.geb_le in E.
        rewrite Z.shiftr_div_pow2 in Hs by lia. change (2 ^ 7) with 128 in Hs.
        assert (1 <= v / 128) by (apply Z.div_le_lower_bound; lia). lia. }
      rewrite (IH _ mid) by assumption.
      rewrite <- app_assoc. reflexivity.
    + destruct mid as [|x [|y mid]]; try discriminate Hlen.
      cbn [app]. apply store_middle.
Qed.

(** *** Reading a varint back *)

Lemma index_middle (pre post : list Byte.byte) (b : Byte.byte) :
  index (pre ++ b :: post) (Z.of_nat (length pre)) = Val b.
Proof.
  unfold index. destruct (Z.of_nat (length pre) <? 0) eqn:E; [apply Z.ltb_lt in E; lia|].
  rewrite Nat2Z.id, lookup_app_r by lia. rewrite Nat.sub_diag. reflexivity.
Qed.

Lemma readVarint_varint (n : nat) :
  forall (fuel : nat) (pre post : list Byte.byte) (v shift acc : Z),
    0 <= v < 2 ^ (7 * Z.of_nat n) -> (0 < n)%nat ->
    (n <= fuel)%nat ->
    0 <= shift < 64 ->
    0 <= acc < 2 ^ shift ->
    acc + v * 2 ^ shift < 2 ^ 64 ->
    readVarint fuel (pre ++ varint n v ++ post)
      (Z.of_nat (length (pre ++ varint n v ++ post))) (Z.of_nat (length pre)) shift acc
    = Val (acc + v * 2 ^ shift, Z.of_nat (length pre) + Z.of_nat (length (varint n v)), None).
Proof.
  induction n as [|n IH]; intros fuel pre post v shift acc Hv Hn Hfuel Hshift Hacc Htotal.
  - lia.
  - destruct fuel as [|fuel]; [lia|].
    cbn [readVarint varint].
    destruct (shift >=? 64) eqn:E1; [apply Z.geb_le in E1; lia|].
    assert (Hpow : 0 < 2 ^ shift) by (apply Z.pow_pos_nonneg; lia).
    destruct (v >=? 128) eqn:E.
    + apply Z.geb_le in E.
      set (c := uint8 (Z.lor (Z.land v 127) 128)).
      destruct (Z.of_nat (length pre) >=? Z.of_nat (length (pre ++ (c :: varint n (Z.shiftr v 7)) ++ post))) eqn:E2.
      { apply Z.geb_le in E2. rewrite length_app in E2. cbn in E2. lia. }
      cbn [app]. rewrite index_middle. cbn [go_bind].
      subst c. rewrite continuation_byte.
      assert (Hm : 0 <= v mod 128 < 128) by (apply Z.mod_pos_bound; lia).
      destruct (v mod 128 + 128 <? 128) eqn:E3; [apply Z.ltb_lt in E3; lia|].
      rewrite (land_127 (v mod 128 + 128)).
      replace ((v mod 128 + 128) mod 128) with (v mod 128)
        by (rewrite <- Z.add_mod_idemp_r, Z.mod_same, Z.add_0_r, Z.mod_mod by lia; reflexivity).
      assert (Hdiv : v = 128 * (v / 128) + v mod 128) by (apply Z.div_mod; lia).
      assert (Hq : 1 <= v / 128) by (apply Z.div_le_lower_bound; lia).
      assert (Hs7 : shift + 7 < 64).
      { destruct (Z.lt_ge_cases (shift + 7) 64) as [Hlt|Hge]; [exact Hlt|exfalso].
        assert (2 ^ 64 <= 2 ^ (shift + 7)) by (apply Z.pow_le_mono_r; lia).
        rewrite Z.pow_add_r in H by lia. change (2 ^ 7) with 128 in H. nia. }
      assert (Hgroup : U64.wrap (Z.shiftl (v mod 128) shift) = v mod 128 * 2 ^ shift).
      { rewrite Z.shiftl_mul_pow2 by lia. apply Z.mod_small.
        unfold U64.modulus. split; [nia|]. nia. }
      rewrite Hgroup.
      assert (Hlor : Z.lor acc (v mod 128 * 2 ^ shift) = acc + v mod 128 * 2 ^ shift).
      { rewrite <- (lor_shiftl_add acc (v mod 128) shift) by lia.
        rewrite Z.shiftl_mul_pow2 by lia. reflexivity. }
      rewrite Hlor.
      replace (Z.of_nat (length pre) + 1)
        with (Z.of_nat (length (pre ++ [uint8 (Z.lor (Z.land v 127) 128)])))
        by (rewrite length_app; cbn; lia).
      replace (pre ++ uint8 (Z.lor (Z.land v 127) 128) :: varint n (Z.shiftr v 7) ++ post)
        with ((pre ++ [uint8 (Z.lor (Z.land v 127) 128)]) ++ varint n (Z.shiftr v 7) ++ post)
        by (rewrite <- app_assoc; reflexivity).
      assert (Hsh : Z.shiftr v 7 = v / 128) by (rewrite Z.shiftr_div_pow2 by lia; reflexivity).
      assert (Hp7 : 2 ^ (shift + 7) = 2 ^ shift * 128) by (rewrite Z.pow_add_r by lia; reflexivity).
      rewrite IH.
      * assert (Ha : acc + v mod 128 * 2 ^ shift + Z.shiftr v 7 * 2 ^ (shift + 7)
                     = acc + v * 2 ^ shift) by (rewrite Hsh, Hp7; nia).
        rewrite Ha.
        replace (Z.of_nat (length (pre ++ [uint8 (Z.lor (Z.land v 127) 128)]))
                 + Z.of_nat (length (varint n (Z.shiftr v 7))))
          with (Z.of_nat (length pre)
                + Z.of_nat (length (uint8 (Z.lor (Z.land v 127) 128) :: varint n (Z.shiftr v 7))))
          by (rewrite length_app; cbn [length]; lia).
        reflexivity.
      * apply shiftr_7_bound, Hv.
      * destruct n; [|lia]. pose proof (shiftr_7_bound v 0 Hv) as Hs0. cbn in Hs0. lia.
      * lia.
      * lia.
      * rewrite Hp7. nia.
      * rewrite Hsh, Hp7. nia.
    + rewrite Z.geb_leb in E. apply Z.leb_gt in E.
      destruct (Z.of_nat (length pre) >=? Z.of_nat (length (pre ++ [uint8 v] ++ post))) eqn:E2.
      { apply Z.geb_le in E2. rewrite length_app in E2. cbn in E2. lia. }
      cbn [app]. rewrite index_middle. cbn [go_bind].
      rewrite final_byte by lia.
      destruct (v <? 128) eqn:E3; [|apply Z.ltb_ge in E3; lia].
      rewrite (land_127 v), Z.mod_small by lia.
      assert (Hgroup : U64.wrap (Z.shiftl v shift) = v * 2 ^ shift).
      { rewrite Z.shiftl_mul_pow2 by lia. apply Z.mod_small. unfold U64.modulus. nia. }
      rewrite Hgroup.
      rewrite <- (lor_shiftl_add acc v shift) by lia.
      rewrite Z.shiftl_mul_pow2 by lia. reflexivity.
Qed.

(** *** Marshal *)

Lemma uint64_fits_10 (v : Z) : uint64_range v -> 0 <= v < 2 ^ (7 * Z.of_nat 10).
Proof. unfold uint64_range. intros H. change (2 ^ (7 * Z.of_nat 10)) with (2 ^ 70). lia. Qed.

Lemma slice_to_all (l : list Byte.byte) : slice_to l (Z.of_nat (length l)) = Val l.
Proof.
  unfold slice_to.
  destruct (Z.of_nat (length l) <? 0) eqn:E1; [apply Z.ltb_lt in E1; lia|].
  rewrite Z.ltb_irrefl. cbn [orb]. rewrite Nat2Z.id, firstn_all. reflexivity.
Qed.

Lemma slice_to_len (l : list Byte.byte) (n : Z) :
  n = Z.of_nat (length l) -> slice_to l n = Val l.
Proof. intros ->. apply slice_to_all. Qed.

Lemma MarshalEnded_bytes (m : QueryEndedEpochBtcHeightRequest) :
  uint64_range (EpochNum m) -> MarshalEnded m = Val (wire_of (EpochNum m)).
Proof.
  intros Hr. destruct m as [v]. cbn [EpochNum] in *.
  unfold MarshalEnded, SizeEnded, MarshalToSizedBufferEnded, wire_of. cbn [EpochNum].
  destruct (v =? 0) eqn:E; cbn [negb].
  - reflexivity.
  - apply Z.eqb_neq in E.
    pose proof (varint_length 10 v (uint64_fits_10 v Hr) ltac:(lia)) as Hlen.
    set (k := length (varint 10 v)) in *.
    rewrite <- Hlen. replace (0 + (1 + Z.of_nat k)) with (Z.of_nat (S k)) by lia.
    unfold make. destruct (Z.of_nat (S k) <? 0) eqn:E1; [apply Z.ltb_lt in E1; lia|].
    rewrite Nat2Z.id. cbn [go_bind].
    assert (Hbuf : length (replicate (S k) Byte.x00) = S k) by apply length_replicate.
    rewrite (slice_to_len (replicate (S k) Byte.x00) (Z.of_nat (S k))) by (now rewrite Hbuf).
    cbn [go_bind].
    unfold encodeVarintQuery. rewrite Hbuf, <- Hlen.
    replace (Z.of_nat (S k) - Z.of_nat k) with (Z.of_nat (length [Byte.x00])) by (cbn; lia).
    assert (Hrep : replicate (S k) Byte.x00 = [Byte.x00] ++ replicate k Byte.x00 ++ [])
      by (cbn; now rewrite app_nil_r).
    rewrite Hrep. rewrite encodeVarint_loop_writes.
    + cbn [go_bind fst snd length]. rewrite app_nil_r.
      change (Z.of_nat 1 - 1) with (Z.of_nat (length (@nil Byte.byte))).
      change ([Byte.x00] ++ varint 10 v) with ([] ++ Byte.x00 :: varint 10 v).
      rewrite store_middle. cbn [go_bind app fst snd length].
      rewrite Z.sub_0_r.
      apply slice_to_len. cbn [length]. lia.
    + apply uint64_fits_10, Hr.
    + lia.
    + rewrite length_replicate. reflexivity.
Qed.

(** *** Unmarshal on what Marshal writes *)

(** One round of the loop of [Unmarshal] on a chunk written by [Marshal]. *)
Lemma UnmarshalEnded_loop_field (fuel : nat) (pre post : list Byte.byte) (v : Z)
    (m : QueryEndedEpochBtcHeightRequest) :
  uint64_range v ->
  let d := pre ++ (Byte.x08 :: varint 10 v) ++ post in
  UnmarshalEnded_loop (S fuel) d (Z.of_nat (length d)) (Z.of_nat (length pre)) m
  = UnmarshalEnded_loop fuel d (Z.of_nat (length d))
      (Z.of_nat (length (pre ++ Byte.x08 :: varint 10 v))) (mkEndedEpochReq v).
Proof.
  intros Hr d.
  cbn [UnmarshalEnded_loop].
  assert (Hlt : (Z.of_nat (length pre) <? Z.of_nat (length d)) = true).
  { apply Z.ltb_lt. subst d. rewrite !length_app. cbn [length]. lia. }
  rewrite Hlt.
  assert (Htag : readVarint varint_fuel d (Z.of_nat (length d)) (Z.of_nat (length pre)) 0 0
                 = Val (8, Z.of_nat (length pre) + 1, None)).
  { subst d.
    change (pre ++ (Byte.x08 :: varint 10 v) ++ post)
      with (pre ++ varint 1 8 ++ (varint 10 v ++ post)).
    rewrite (readVarint_varint 1 varint_fuel pre (varint 10 v ++ post) 8 0 0).
    - reflexivity.
    - change (2 ^ (7 * Z.of_nat 1)) with 128. lia.
    - lia.
    - unfold varint_fuel. lia.
    - lia.
    - change (2 ^ 0) with 1. lia.
    - change (0 + 8 * 2 ^ 0) with 8. change (2 ^ 64) with 18446744073709551616. lia. }
  rewrite Htag. cbn [go_bind].
  change (int32 (Z.shiftr 8 3)) with 1. change (int64 (Z.land 8 7)) with 0.
  cbn [Z.eqb Z.leb Z.compare negb].
  assert (Hval : readVarint varint_fuel d (Z.of_nat (length d)) (Z.of_nat (length pre) + 1) 0 0
                 = Val (v, Z.of_nat (length (pre ++ Byte.x08 :: varint 10 v)), None)).
  { subst d.
    replace (pre ++ (Byte.x08 :: varint 10 v) ++ post)
      with ((pre ++ [Byte.x08]) ++ varint 10 v ++ post)
      by (rewrite <- app_assoc; reflexivity).
    replace (Z.of_nat (length pre) + 1) with (Z.of_nat (length (pre ++ [Byte.x08])))
      by (rewrite length_app; cbn; lia).
    rewrite (readVarint_varint 10).
    - rewrite Z.pow_0_r, Z.mul_1_r, Z.add_0_l.
      replace (Z.of_nat (length (pre ++ Byte.x08 :: varint 10 v)))
        with (Z.of_nat (length (pre ++ [Byte.x08])) + Z.of_nat (length (varint 10 v)))
        by (rewrite !length_app; cbn [length]; lia).
      reflexivity.
    - apply uint64_fits_10, Hr.
    - lia.
    - unfold varint_fuel. lia.
    - lia.
    - cbn. lia.
    - unfold uint64_range in Hr. rewrite Z.pow_0_r. lia. }
  rewrite Hval. cbn [go_bind]. reflexivity.
Qed.

Lemma UnmarshalEnded_loop_end (fuel : nat) (d : list Byte.byte)
    (m : QueryEndedEpochBtcHeightRequest) :
  UnmarshalEnded_loop (S fuel) d (Z.of_nat (length d)) (Z.of_nat (length d)) m = Val (m, None).
Proof.
  cbn [UnmarshalEnded_loop]. rewrite Z.ltb_irrefl.
  destruct (Z.of_nat (length d) >? Z.of_nat (length d)) eqn:E; [|reflexivity].
  rewrite Z.gtb_ltb, Z.ltb_irrefl in E. discriminate E.
Qed.

Lemma UnmarshalEnded_loop_chunks (vs : list Z) :
  forall (fuel : nat) (pre : list Byte.byte) (m : QueryEndedEpochBtcHeightRequest),
    Forall uint64_range vs ->
    (length (concat (map wire_of vs)) < fuel)%nat ->
    let d := pre ++ concat (map wire_of vs) in
    UnmarshalEnded_loop fuel d (Z.of_nat (length d)) (Z.of_nat (length pre)) m
    = Val (fold_left merge vs m, None).
Proof.
  induction vs as [|v vs IH]; intros fuel pre m Hvs Hfuel d.
  - subst d. cbn [map concat fold_left]. rewrite app_nil_r.
    destruct fuel as [|fuel]; [cbn in Hfuel; lia|]. apply UnmarshalEnded_loop_end.
  - apply Forall_cons in Hvs as [Hv Hvs]. cbn [map concat] in Hfuel.
    rewrite length_app in Hfuel.
    subst d. cbn [map concat fold_left].
    destruct (v =? 0) eqn:E.
    + assert (Hw : wire_of v = []) by (unfold wire_of; now rewrite E).
      assert (Hm : merge m v = m) by (unfold merge; now rewrite E).
      rewrite Hw in *. rewrite Hm. cbn [app]. apply IH; [exact Hvs | cbn in Hfuel; lia].
    + assert (Hw : wire_of v = Byte.x08 :: varint 10 v) by (unfold wire_of; now rewrite E).
      assert (Hm : merge m v = mkEndedEpochReq v) by (unfold merge; now rewrite E).
      rewrite Hw in *. rewrite Hm. cbn [length] in Hfuel.
      destruct fuel as [|fuel]; [lia|].
      pose proof (UnmarshalEnded_loop_field fuel pre (concat (map wire_of vs)) v m Hv) as Hstep.
      cbv zeta in Hstep. rewrite Hstep.
      replace (pre ++ (Byte.x08 :: varint 10 v) ++ concat (map wire_of vs))
        with ((pre ++ Byte.x08 :: varint 10 v) ++ concat (map wire_of vs))
        by (rewrite <- app_assoc; reflexivity).
      apply IH; [exact Hvs | lia].
Qed.

Lemma wire_of_length (v : Z) :
  uint64_range v ->
  Z.of_nat (length (wire_of v)) = SizeEnded (mkEndedEpochReq v).
Proof.
  intros Hr. unfold wire_of, SizeEnded. cbn [EpochNum].
  destruct (v =? 0); cbn [negb length]; [reflexivity|].
  rewrite Nat2Z.inj_succ, (varint_length 10) by (apply uint64_fits_10, Hr || lia). lia.
Qed.

(** X12.  [Marshal] never panics on a message whose field is a [uint64], and
    its output has exactly [Size()] bytes; the zero value is written as the
    empty buffer. *)
Theorem Marshal_has_Size (m : QueryEndedEpochBtcHeightRequest) :
  uint64_range (EpochNum m) ->
  exists bs,
    MarshalEnded m = Val bs /\
    Z.of_nat (length bs) = SizeEnded m /\
    (bs = [] <-> EpochNum m = 0).
Proof.
  intros Hr. exists (wire_of (EpochNum m)).
  split; [apply MarshalEnded_bytes, Hr|].
  split; [destruct m; apply wire_of_length, Hr|].
  unfold wire_of. destruct (EpochNum m =? 0) eqn:E.
  - apply Z.eqb_eq in E. tauto.
  - apply Z.eqb_neq in E. split; [discriminate | contradiction].
Qed.

Lemma Marshal_has_Size_witness :
  MarshalEnded (mkEndedEpochReq 300) = Val [Byte.x08; Byte.xac; Byte.x02] /\
  SizeEnded (mkEndedEpochReq 300) = 3.
Proof.
  destruct (Marshal_has_Size (mkEndedEpochReq 300)) as (bs & Hm & Hs & _).
  - unfold uint64_range. cbn. lia.
  - split; [vm_compute; reflexivity | vm_compute; reflexivity].
Defined.

(** X13.  Round trip: unmarshalling what [Marshal] wrote, into a message [m0],
    succeeds and yields the marshalled message, except that a zero field is
    not on the wire and leaves the field of [m0] as it was; into a fresh
    message the result is the marshalled message in every case. *)
Theorem Unmarshal_Marshal (m m0 : QueryEndedEpochBtcHeightRequest) :
  uint64_range (EpochNum m) ->
  exists bs,
    MarshalEnded m = Val bs /\
    UnmarshalEnded m0 bs = Val (merge m0 (EpochNum m), None) /\
    UnmarshalEnded (mkEndedEpochReq 0) bs = Val (m, None).
Proof.
  intros Hr. exists (wire_of (EpochNum m)).
  split; [apply MarshalEnded_bytes, Hr|].
  assert (Hgen : forall m1, UnmarshalEnded m1 (wire_of (EpochNum m))
                            = Val (merge m1 (EpochNum m), None)).
  { intros m1. unfold UnmarshalEnded.
    pose proof (UnmarshalEnded_loop_chunks [EpochNum m] (S (length (wire_of (EpochNum m)))) [] m1)
      as H.
    cbn [map concat fold_left app length] in H. rewrite app_nil_r in H.
    apply H; [constructor; [exact Hr | constructor] | lia]. }
  split; [apply Hgen|].
  rewrite Hgen. unfold merge. destruct m as [v]. cbn [EpochNum].
  destruct (v =? 0) eqn:E; [apply Z.eqb_eq in E; subst|]; reflexivity.
Qed.

Lemma Unmarshal_Marshal_witness :
  UnmarshalEnded (mkEndedEpochReq 7) [Byte.x08; Byte.xac; Byte.x02]
  = Val (mkEndedEpochReq 300, None).
Proof.
  destruct (Unmarshal_Marshal (mkEndedEpochReq 300) (mkEndedEpochReq 7)) as (bs & Hm & Hu & _).
  - unfold uint64_range. cbn. lia.
  - vm_compute in Hm. injection Hm as <-. exact Hu.
Defined.

(** X14.  Concatenated encodings merge: unmarshalling the outputs of [Marshal]
    for [a] and then [b], one after the other in one buffer, gives the field of
    [b] unless it is zero, else the field of [a] unless it is zero, else what
    the target held. *)
Theorem Unmarshal_concat (a b m0 : QueryEndedEpochBtcHeightRequest) :
  uint64_range (EpochNum a) -> uint64_range (EpochNum b) ->
  exists ba bb,
    MarshalEnded a = Val ba /\ MarshalEnded b = Val bb /\
    UnmarshalEnded m0 (ba ++ bb) = Val (merge (merge m0 (EpochNum a)) (EpochNum b), None).
Proof.
  intros Ha Hb. exists (wire_of (EpochNum a)), (wire_of (EpochNum b)).
  split; [apply MarshalEnded_bytes, Ha|]. split; [apply MarshalEnded_bytes, Hb|].
  unfold UnmarshalEnded.
  pose proof (UnmarshalEnded_loop_chunks [EpochNum a; EpochNum b]
                (S (length (wire_of (EpochNum a) ++ wire_of (EpochNum b)))) [] m0) as H.
  cbn [map concat fold_left app length] in H. rewrite app_nil_r in H.
  apply H; [constructor; [exact Ha | constructor; [exact Hb | constructor]] | lia].
Qed.

Lemma Unmarshal_concat_witness :
  UnmarshalEnded (mkEndedEpochReq 0) ([Byte.x08; Byte.x05] ++ [Byte.x08; Byte.xac; Byte.x02])
  = Val (mkEndedEpochReq 300, None).
Proof.
  destruct (Unmarshal_concat (mkEndedEpochReq 5) (mkEndedEpochReq 300) (mkEndedEpochReq 0))
    as (ba & bb & Ha & Hb & Hu).
  - unfold uint64_range. cbn. lia.
  - unfold uint64_range. cbn. lia.
  - vm_compute in Ha, Hb. injection Ha as <-. injection Hb as <-. exact Hu.
Defined.



(** *** Unmarshal on arbitrary input *)

Lemma int64_in_range (z : Z) : int_range (int64 z).
Proof.
  unfold int_range, int64.
  pose proof (Z.mod_pos_bound (z + 2 ^ 63) (2 ^ 64) ltac:(lia)). lia.
Qed.

Lemma int64_nonneg_id (z : Z) : 0 <= z < 2 ^ 64 -> 0 <= int64 z -> int64 z = z.
Proof.
  unfold int64. intros Hz Hnn.
  destruct (Z.lt_ge_cases z (2 ^ 63)) as [Hlt|Hge].
  - rewrite Z.mod_small by lia. lia.
  - exfalso.
    assert (Hm : (z + 2 ^ 63) mod 2 ^ 64 = z + 2 ^ 63 - 2 ^ 64).
    { symmetry. apply Z.mod_unique with 1; lia. }
    lia.
Qed.

Lemma int_range_shiftr (z : Z) : int_range z <-> (Z.shiftr z 63 = 0 \/ Z.shiftr z 63 = -1).
Proof.
  unfold int_range. rewrite Z.shiftr_div_pow2 by lia.
  pose proof (Z.div_mod z (2 ^ 63) ltac:(lia)) as Hdm.
  pose proof (Z.mod_pos_bound z (2 ^ 63) ltac:(lia)) as Hmb.
  split; intros H; lia.
Qed.

Lemma lor_int_range (a b : Z) : int_range a -> int_range b -> int_range (Z.lor a b).
Proof.
  rewrite !int_range_shiftr, Z.shiftr_lor.
  intros [Ha|Ha] [Hb|Hb]; rewrite Ha, Hb; cbn; auto.
Qed.

Lemma index_in_bounds (d : list Byte.byte) (i : Z) :
  0 <= i < Z.of_nat (length d) -> exists b, index d i = Val b.
Proof.
  intros Hi. unfold index.
  destruct (i <? 0) eqn:E; [apply Z.ltb_lt in E; lia|].
  destruct (d !! Z.to_nat i) as [b|] eqn:Hl; [eauto|].
  apply lookup_ge_None in Hl. lia.
Qed.

(** A varint loop started within its budget always ends with a value; when it
    ends without an error it has moved forward and stayed inside the buffer. *)
Lemma readVarint_total (fuel : nat) :
  forall (d : list Byte.byte) (l i shift acc : Z),
    0 <= i -> l <= Z.of_nat (length d) -> shift <= 70 -> 77 <= 7 * Z.of_nat fuel + shift ->
    exists acc' i' e,
      readVarint fuel d l i shift acc = Val (acc', i', e) /\ (e = None -> i < i' <= l).
Proof.
  induction fuel as [|fuel IH]; intros d l i shift acc Hi Hl Hs Hf; [lia|].
  cbn [readVarint].
  destruct (shift >=? 64) eqn:E1; [do 3 eexists; split; [reflexivity|discriminate]|].
  destruct (i >=? l) eqn:E2; [do 3 eexists; split; [reflexivity|discriminate]|].
  rewrite Z.geb_leb in E1, E2. apply Z.leb_gt in E1, E2.
  destruct (index_in_bounds d i ltac:(lia)) as [b Hb]. rewrite Hb. cbn [go_bind].
  destruct (byte_val b <? 128).
  - do 3 eexists. split; [reflexivity|]. intros _. lia.
  - destruct (IH d l (i + 1) (shift + 7)
                (Z.lor acc (U64.wrap (Z.shiftl (Z.land (byte_val b) 127) shift))))
      as (acc' & i' & e & Hrun & Hprog); try lia.
    rewrite Hrun. do 3 eexists. split; [reflexivity|]. intros He. specialize (Hprog He). lia.
Qed.

Lemma readVarintInt_total (fuel : nat) :
  forall (d : list Byte.byte) (l i shift acc : Z),
    0 <= i -> l <= Z.of_nat (length d) -> shift <= 70 -> 77 <= 7 * Z.of_nat fuel + shift ->
    int_range acc ->
    exists acc' i' e,
      readVarintInt fuel d l i shift acc = Val (acc', i', e) /\
      int_range acc' /\ (e = None -> i < i' <= l).
Proof.
  induction fuel as [|fuel IH]; intros d l i shift acc Hi Hl Hs Hf Hacc; [lia|].
  cbn [readVarintInt].
  destruct (shift >=? 64) eqn:E1; [do 3 eexists; split; [reflexivity|split; [assumption|discriminate]]|].
  destruct (i >=? l) eqn:E2; [do 3 eexists; split; [reflexivity|split; [assumption|discriminate]]|].
  rewrite Z.geb_leb in E1, E2. apply Z.leb_gt in E1, E2.
  destruct (index_in_bounds d i ltac:(lia)) as [b Hb]. rewrite Hb. cbn [go_bind].
  assert (Hacc' : int_range (Z.lor acc (int64 (Z.shiftl (Z.land (byte_val b) 127) shift))))
    by (apply lor_int_range; [assumption | apply int64_in_range]).
  destruct (byte_val b <? 128).
  - do 3 eexists. split; [reflexivity|]. split; [assumption|]. intros _. lia.
  - destruct (IH d l (i + 1) (shift + 7)
                (Z.lor acc (int64 (Z.shiftl (Z.land (byte_val b) 127) shift))))
      as (acc' & i' & e & Hrun & Hr & Hprog); try lia; try assumption.
    rewrite Hrun. do 3 eexists. split; [reflexivity|]. split; [assumption|].
    intros He. specialize (Hprog He). lia.
Qed.

Lemma skipVarint_total (fuel : nat) :
  forall (d : list Byte.byte) (l i shift : Z),
    0 <= i -> l <= Z.of_nat (length d) -> shift <= 70 -> 77 <= 7 * Z.of_nat fuel + shift ->
    exists i' e, skipVarint fuel d l i shift = Val (i', e) /\ (e = None -> i < i' <= l).
Proof.
  induction fuel as [|fuel IH]; intros d l i shift Hi Hl Hs Hf; [lia|].
  cbn [skipVarint].
  destruct (shift >=? 64) eqn:E1; [do 2 eexists; split; [reflexivity|discriminate]|].
  destruct (i >=? l) eqn:E2; [do 2 eexists; split; [reflexivity|discriminate]|].
  rewrite Z.geb_leb in E1, E2. apply Z.leb_gt in E1, E2.
  replace (i + 1 - 1) with i by lia.
  destruct (index_in_bounds d i ltac:(lia)) as [b Hb]. rewrite Hb. cbn [go_bind].
  destruct (byte_val b <? 128).
  - do 2 eexists. split; [reflexivity|]. intros _. lia.
  - destruct (IH d l (i + 1) (shift + 7)) as (i' & e & Hrun & Hprog); try lia.
    rewrite Hrun. do 2 eexists. split; [reflexivity|]. intros He. specialize (Hprog He). lia.
Qed.

Lemma skipQuery_loop_total (fuel : nat) :
  forall (d : list Byte.byte) (l i depth : Z),
    l = Z.of_nat (length d) -> l < 2 ^ 63 -> 0 <= i ->
    (1 <= fuel)%nat -> l - i < Z.of_nat fuel ->
    exists r, skipQuery_loop fuel d l i depth = Val r /\ (forall n, r = inl n -> i < n < 2 ^ 63).
Proof.
  induction fuel as [|fuel IH]; intros d l i depth Hl Hlen Hi Hf1 Hf; [lia|].
  cbn [skipQuery_loop].
  destruct (i <? l) eqn:E; [|eexists; split; [reflexivity|discriminate]].
  apply Z.ltb_lt in E.
  destruct (readVarint_total varint_fuel d l i 0 0) as (wire & i1 & e & Hrun & Hprog);
    try (unfold varint_fuel; lia).
  rewrite Hrun. cbn [go_bind].
  destruct e as [e|]; [eexists; split; [reflexivity|discriminate]|].
  specialize (Hprog eq_refl).
  assert (Hafter : forall i2 depth2,
            (0 <= i2 -> i < i2) -> i2 < 2 ^ 63 ->
            exists r,
              (if i2 <? 0 then Val (inr ErrInvalidLengthQuery)
               else if depth2 =? 0 then Val (inl i2)
                    else skipQuery_loop fuel d l i2 depth2) = Val r /\
              (forall n, r = inl n -> i < n < 2 ^ 63)).
  { intros i2 depth2 Hgt Hlt.
    destruct (i2 <? 0) eqn:E2; [eexists; split; [reflexivity|discriminate]|].
    apply Z.ltb_ge in E2. specialize (Hgt E2).
    destruct (depth2 =? 0).
    - eexists. split; [reflexivity|]. intros n [= <-]. lia.
    - destruct (IH d l i2 depth2) as (r & Hr & Hn); try lia.
      exists r. split; [exact Hr|]. intros n Hrn. specialize (Hn n Hrn). lia. }
  assert (Hjump : forall k, 0 <= k < 2 ^ 63 -> forall i2, i < i2 <= l ->
            (0 <= int64 (i2 + k) -> i < int64 (i2 + k)) /\ int64 (i2 + k) < 2 ^ 63).
  { intros k Hk i2 Hi2. split.
    - intros Hnn. rewrite int64_nonneg_id by lia. lia.
    - apply int64_in_range. }
  destruct (Z.land wire 7 =? 0).
  { destruct (skipVarint_total varint_fuel d l i1 0) as (i2 & e & Hrun2 & Hprog2);
      try (unfold varint_fuel; lia).
    rewrite Hrun2. cbn [go_bind].
    destruct e as [e|]; [eexists; split; [reflexivity|discriminate]|].
    specialize (Hprog2 eq_refl). apply Hafter; lia. }
  destruct (Z.land wire 7 =? 1).
  { apply Hafter; apply (Hjump 8); lia. }
  destruct (Z.land wire 7 =? 2).
  { destruct (readVarintInt_total varint_fuel d l i1 0 0) as (len & i2 & e & Hrun2 & Hr2 & Hprog2);
      try (unfold varint_fuel; lia); [unfold int_range; lia|].
    rewrite Hrun2. cbn [go_bind].
    destruct e as [e|]; [eexists; split; [reflexivity|discriminate]|].
    specialize (Hprog2 eq_refl).
    destruct (len <? 0) eqn:E3; [eexists; split; [reflexivity|discriminate]|].
    apply Z.ltb_ge in E3. unfold int_range in Hr2.
    apply Hafter; apply (Hjump len); lia. }
  destruct (Z.land wire 7 =? 3).
  { apply Hafter; lia. }
  destruct (Z.land wire 7 =? 4).
  { destruct (depth =? 0); [eexists; split; [reflexivity|discriminate]|].
    apply Hafter; lia. }
  destruct (Z.land wire 7 =? 5).
  { apply Hafter; apply (Hjump 4); lia. }
  eexists. split; [reflexivity|discriminate].
Qed.

Lemma skipUnknown_total (d : list Byte.byte) (l pre : Z) :
  l = Z.of_nat (length d) -> l < 2 ^ 63 -> 0 <= pre < l ->
  exists r, skipUnknown d l pre = Val r /\ (forall n, r = inl n -> pre < n <= l).
Proof.
  intros Hl Hlen Hpre. unfold skipUnknown, slice_from.
  destruct (pre <? 0) eqn:E1; [apply Z.ltb_lt in E1; lia|].
  destruct (Z.of_nat (length d) <? pre) eqn:E2; [apply Z.ltb_lt in E2; lia|].
  cbn [orb go_bind]. unfold skipQuery.
  assert (Hrest : Z.of_nat (length (drop (Z.to_nat pre) d)) < 2 ^ 63)
    by (rewrite length_drop; lia).
  destruct (skipQuery_loop_total (S (length (drop (Z.to_nat pre) d))) (drop (Z.to_nat pre) d)
              (Z.of_nat (length (drop (Z.to_nat pre) d))) 0 0) as (r & Hr & Hn); try lia.
  rewrite Hr. cbn [go_bind].
  destruct r as [skippy|e]; [|eexists; split; [reflexivity|discriminate]].
  specialize (Hn skippy eq_refl).
  destruct (skippy <? 0) eqn:E3; [apply Z.ltb_lt in E3; lia|]. cbn [orb].
  destruct (int64 (pre + skippy) <? 0) eqn:E4; [eexists; split; [reflexivity|discriminate]|].
  apply Z.ltb_ge in E4.
  rewrite int64_nonneg_id in * by lia.
  destruct (pre + skippy >? l) eqn:E5; [eexists; split; [reflexivity|discriminate]|].
  rewrite Z.gtb_ltb in E5. apply Z.ltb_ge in E5.
  eexists. split; [reflexivity|]. intros n [= <-]. lia.
Qed.

Lemma UnmarshalEnded_loop_total (fuel : nat) :
  forall (d : list Byte.byte) (l i : Z) (m : QueryEndedEpochBtcHeightRequest),
    l = Z.of_nat (length d) -> l < 2 ^ 63 -> 0 <= i ->
    (1 <= fuel)%nat -> l - i < Z.of_nat fuel ->
    exists m' e, UnmarshalEnded_loop fuel d l i m = Val (m', e).
Proof.
  induction fuel as [|fuel IH]; intros d l i m Hl Hlen Hi Hf1 Hf; [lia|].
  cbn [UnmarshalEnded_loop].
  destruct (i <? l) eqn:E; [|destruct (i >? l); eauto].
  apply Z.ltb_lt in E.
  destruct (readVarint_total varint_fuel d l i 0 0) as (wire & i1 & e & Hrun & Hprog);
    try (unfold varint_fuel; lia).
  rewrite Hrun. cbn [go_bind].
  destruct e as [e|]; [eauto|]. specialize (Hprog eq_refl).
  destruct (int64 (Z.land wire 7) =? 4); [eauto|].
  destruct (int32 (Z.shiftr wire 3) <=? 0); [eauto|].
  destruct (int32 (Z.shiftr wire 3) =? 1).
  - destruct (negb (int64 (Z.land wire 7) =? 0)); [eauto|].
    destruct (readVarint_total varint_fuel d l i1 0 0) as (v & i2 & e & Hrun2 & Hprog2);
      try (unfold varint_fuel; lia).
    rewrite Hrun2. cbn [go_bind].
    destruct e as [e|]; [eauto|]. specialize (Hprog2 eq_refl).
    apply IH; lia.
  - destruct (skipUnknown_total d l i Hl Hlen ltac:(lia)) as (r & Hr & Hn).
    rewrite Hr. cbn [go_bind].
    destruct r as [next|e]; [|eauto].
    specialize (Hn next eq_refl). apply IH; lia.
Qed.

(** X16.  [Unmarshal] never panics: on every buffer (of a length an [int] can
    hold) it ends with a message and an error or nil, without ever indexing
    outside the buffer, skipped unknown fields and groups included. *)
Theorem Unmarshal_never_panics (m : QueryEndedEpochBtcHeightRequest) (dAtA : list Byte.byte) :
  Z.of_nat (length dAtA) < 2 ^ 63 ->
  exists m' e, UnmarshalEnded m dAtA = Val (m', e).
Proof.
  intros Hlen. unfold UnmarshalEnded. apply UnmarshalEnded_loop_total; lia.
Qed.

Lemma Unmarshal_never_panics_witness :
  exists m' e,
    UnmarshalEnded (mkEndedEpochReq 0) [Byte.x13; Byte.xff; Byte.x0a; Byte.x05] = Val (m', e).
Proof.
  apply Unmarshal_never_panics. cbn. lia.
Defined.

(** *** Truncated input *)

Lemma varint_length_le (n : nat) (v : Z) : (length (varint n v) <= n)%nat.
Proof.
  revert v. induction n as [|n IH]; intros v; cbn [varint length]; [lia|].
  destruct (v >=? 128); cbn [length]; [specialize (IH (Z.shiftr v 7)); lia | lia].
Qed.

Lemma readVarint_truncated (n : nat) :
  forall (fuel : nat) (pre : list Byte.byte) (v shift acc : Z) (j : nat),
    (n <= fuel)%nat -> 0 <= shift ->
    (j < length (varint n v))%nat ->
    shift + 7 * Z.of_nat j < 64 ->
    exists acc',
      readVarint fuel (pre ++ take j (varint n v))
        (Z.of_nat (length (pre ++ take j (varint n v)))) (Z.of_nat (length pre)) shift acc
      = Val (acc', Z.of_nat (length (pre ++ take j (varint n v))), Some ErrUnexpectedEOF).
Proof.
  induction n as [|n IH]; intros fuel pre v shift acc j Hfuel Hshift Hj Hs.
  - cbn in Hj. lia.
  - destruct fuel as [|fuel]; [lia|].
    cbn [readVarint]. destruct (shift >=? 64) eqn:E1; [apply Z.geb_le in E1; lia|].
    destruct j as [|j].
    + cbn [take]. rewrite app_nil_r.
      destruct (Z.of_nat (length pre) >=? Z.of_nat (length pre)) eqn:E2;
        [eauto | rewrite Z.geb_leb in E2; apply Z.leb_gt in E2; lia].
    + cbn [varint] in *. destruct (v >=? 128) eqn:E; [|cbn in Hj; lia].
      cbn [length] in Hj. cbn [take].
      set (c := uint8 (Z.lor (Z.land v 127) 128)) in *.
      set (tl := take j (varint n (Z.shiftr v 7))) in *.
      destruct (Z.of_nat (length pre) >=? Z.of_nat (length (pre ++ c :: tl))) eqn:E2.
      { apply Z.geb_le in E2. rewrite length_app in E2. cbn in E2. lia. }
      rewrite index_middle. cbn [go_bind].
      subst c. rewrite continuation_byte.
      assert (Hm : 0 <= v mod 128 < 128) by (apply Z.mod_pos_bound; lia).
      destruct (v mod 128 + 128 <? 128) eqn:E3; [apply Z.ltb_lt in E3; lia|].
      replace (Z.of_nat (length pre) + 1)
        with (Z.of_nat (length (pre ++ [uint8 (Z.lor (Z.land v 127) 128)])))
        by (rewrite length_app; cbn; lia).
      replace (pre ++ uint8 (Z.lor (Z.land v 127) 128) :: tl)
        with ((pre ++ [uint8 (Z.lor (Z.land v 127) 128)]) ++ tl)
        by (rewrite <- app_assoc; reflexivity).
      subst tl. apply IH; lia.
Qed.

(** X17.  A truncated message is never accepted: every proper, non-empty
    prefix of what [Marshal] writes makes [Unmarshal] return
    [io.ErrUnexpectedEOF]. *)
Theorem Unmarshal_truncated (m m0 : QueryEndedEpochBtcHeightRequest) (j : nat) :
  uint64_range (EpochNum m) ->
  exists bs,
    MarshalEnded m = Val bs /\
    ((0 < j < length bs)%nat ->
     exists m', UnmarshalEnded m0 (take j bs) = Val (m', Some ErrUnexpectedEOF)).
Proof.
  intros Hr. exists (wire_of (EpochNum m)).
  split; [apply MarshalEnded_bytes, Hr|].
  destruct m as [v]. cbn [EpochNum] in *. unfold wire_of.
  destruct (v =? 0); [cbn; lia|].
  intros [Hj0 Hj]. destruct j as [|j]; [lia|]. cbn [length] in Hj. cbn [take].
  pose proof (varint_length_le 10 v) as Hle.
  unfold UnmarshalEnded. cbn [UnmarshalEnded_loop length].
  destruct (0 <? Z.of_nat (S (length (take j (varint 10 v))))) eqn:E;
    [|apply Z.ltb_ge in E; lia].
  assert (Htag : readVarint varint_fuel (Byte.x08 :: take j (varint 10 v))
                   (Z.of_nat (S (length (take j (varint 10 v))))) 0 0 0
                 = Val (8, 1, None)).
  { pose proof (readVarint_varint 1 varint_fuel [] (take j (varint 10 v)) 8 0 0) as H.
    cbn [app length varint] in H. apply H.
    - change (2 ^ (7 * Z.of_nat 1)) with 128. lia.
    - lia.
    - unfold varint_fuel. lia.
    - lia.
    - change (2 ^ 0) with 1. lia.
    - change (0 + 8 * 2 ^ 0) with 8. change (2 ^ 64) with 18446744073709551616. lia. }
  rewrite Htag. cbn [go_bind].
  change (int32 (Z.shiftr 8 3)) with 1. change (int64 (Z.land 8 7)) with 0.
  cbn [Z.eqb Z.leb Z.compare negb].
  destruct (readVarint_truncated 10 varint_fuel [Byte.x08] v 0 0 j) as [acc' Hrun];
    try (unfold varint_fuel; lia).
  cbn [app length] in Hrun. change (Z.of_nat 1) with 1 in Hrun.
  rewrite Hrun. cbn [go_bind]. eauto.
Qed.

Lemma Unmarshal_truncated_witness :
  exists m', UnmarshalEnded (mkEndedEpochReq 0) [Byte.x08; Byte.xac]
             = Val (m', Some ErrUnexpectedEOF).
Proof.
  destruct (Unmarshal_truncated (mkEndedEpochReq 300) (mkEndedEpochReq 0) 2) as (bs & Hm & Hu).
  - unfold uint64_range. cbn. lia.
  - vm_compute in Hm. injection Hm as <-. apply Hu. cbn. lia.
Defined.

(** *** The message with a string field *)

Lemma copy_at_middle (pre mid post src : list Byte.byte) :
  length mid = length src ->
  copy_at (pre ++ mid ++ post) (Z.of_nat (length pre)) src = Val (pre ++ src ++ post).
Proof.
  intros Hlen. unfold copy_at.
  destruct (Z.of_nat (length pre) <? 0) eqn:E1; [apply Z.ltb_lt in E1; lia|].
  destruct (Z.of_nat (length (pre ++ mid ++ post)) <? Z.of_nat (length pre)) eqn:E2.
  { apply Z.ltb_lt in E2. rewrite length_app in E2. lia. }
  cbn [orb]. rewrite Nat2Z.id.
  replace (Nat.min (length src) (length (pre ++ mid ++ post) - length pre)) with (length src)
    by (rewrite !length_app; lia).
  rewrite take_app_length, firstn_all.
  rewrite drop_app_add'; [|reflexivity].
  rewrite <- Hlen, drop_app_length. reflexivity.
Qed.

Lemma int64_small (z : Z) : 0 <= z < 2 ^ 63 -> int64 z = z.
Proof. intros Hz. unfold int64. rewrite Z.mod_small by lia. lia. Qed.

Lemma MarshalReported_bytes (m : QueryReportedCheckpointBtcHeightRequest) :
  Z.of_nat (length (CkptHash m)) < 2 ^ 63 ->
  MarshalReported m = Val (wire_of_hash (CkptHash m)).
Proof.
  intros Hr. destruct m as [h]. cbn [CkptHash] in *.
  unfold MarshalReported, SizeReported, MarshalToSizedBufferReported, wire_of_hash.
  cbn [CkptHash].
  destruct h as [|b h']; [reflexivity|].
  set (h := b :: h') in *. set (l := length h) in *.
  assert (Hl : 0 < Z.of_nat l) by (subst l h; cbn [length]; lia).
  destruct (Z.of_nat l >? 0) eqn:E; [|rewrite Z.gtb_ltb in E; apply Z.ltb_ge in E; lia].
  assert (Hrange : 0 <= Z.of_nat l < 2 ^ (7 * Z.of_nat 10)).
  { change (2 ^ (7 * Z.of_nat 10)) with (2 ^ 70). lia. }
  pose proof (varint_length 10 (Z.of_nat l) Hrange ltac:(lia)) as Hlen.
  set (k := length (varint 10 (Z.of_nat l))) in *.
  rewrite <- Hlen.
  replace (0 + (1 + Z.of_nat l + Z.of_nat k)) with (Z.of_nat (S k + l)) by lia.
  unfold make. destruct (Z.of_nat (S k + l) <? 0) eqn:E1; [apply Z.ltb_lt in E1; lia|].
  rewrite Nat2Z.id. cbn [go_bind].
  assert (Hbuf : length (replicate (S k + l) Byte.x00) = (S k + l)%nat) by apply length_replicate.
  rewrite (slice_to_len (replicate (S k + l) Byte.x00) (Z.of_nat (S k + l))) by (now rewrite Hbuf).
  cbn [go_bind]. rewrite Hbuf.
  assert (Hrep : replicate (S k + l) Byte.x00
                 = replicate (S k) Byte.x00 ++ replicate l Byte.x00 ++ [])
    by (rewrite app_nil_r, replicate_add; reflexivity).
  rewrite Hrep.
  replace (Z.of_nat (S k + l) - Z.of_nat l) with (Z.of_nat (length (replicate (S k) Byte.x00)))
    by (rewrite length_replicate; lia).
  rewrite copy_at_middle by (rewrite length_replicate; reflexivity).
  cbn [go_bind]. rewrite app_nil_r.
  unfold encodeVarintQuery. rewrite length_replicate, <- Hlen.
  replace (Z.of_nat (S k) - Z.of_nat k) with (Z.of_nat (length [Byte.x00])) by (cbn; lia).
  change (replicate (S k) Byte.x00 ++ h) with ([Byte.x00] ++ replicate k Byte.x00 ++ h).
  rewrite encodeVarint_loop_writes by (assumption || lia || (rewrite length_replicate; reflexivity)).
  cbn [go_bind fst snd length].
  change (Z.of_nat 1 - 1) with (Z.of_nat (length (@nil Byte.byte))).
  change ([Byte.x00] ++ varint 10 (Z.of_nat l) ++ h)
    with ([] ++ Byte.x00 :: varint 10 (Z.of_nat l) ++ h).
  rewrite store_middle. cbn [go_bind app fst snd length].
  rewrite Z.sub_0_r. apply slice_to_len. cbn [length]. lia.
Qed.

Lemma UnmarshalReported_loop_end (fuel : nat) (d : list Byte.byte)
    (m : QueryReportedCheckpointBtcHeightRequest) :
  UnmarshalReported_loop (S fuel) d (Z.of_nat (length d)) (Z.of_nat (length d)) m
  = Val (m, None).
Proof.
  cbn [UnmarshalReported_loop]. rewrite Z.ltb_irrefl.
  destruct (Z.of_nat (length d) >? Z.of_nat (length d)) eqn:E; [|reflexivity].
  rewrite Z.gtb_ltb, Z.ltb_irrefl in E. discriminate E.
Qed.

Lemma slice_suffix (pre h : list Byte.byte) :
  slice (pre ++ h) (Z.of_nat (length pre)) (Z.of_nat (length (pre ++ h))) = Val h.
Proof.
  unfold slice. rewrite length_app.
  destruct (Z.of_nat (length pre) <? 0) eqn:E1; [apply Z.ltb_lt in E1; lia|].
  destruct (Z.of_nat (length pre + length h) <? Z.of_nat (length pre)) eqn:E2;
    [apply Z.ltb_lt in E2; lia|].
  rewrite Z.ltb_irrefl. cbn [orb].
  rewrite Nat2Z.id, drop_app_length.
  replace (Z.to_nat (Z.of_nat (length pre + length h) - Z.of_nat (length pre)))
    with (length h) by lia.
  rewrite firstn_all. reflexivity.
Qed.

(** X18.  The message with the string field round-trips as well: [Marshal]
    writes [Size()] bytes without panicking, and [Unmarshal] of them gives the
    string back; an empty string is not on the wire and leaves the target as it
    was. *)
Theorem Unmarshal_Marshal_string (m m0 : QueryReportedCheckpointBtcHeightRequest) :
  Z.of_nat (length (CkptHash m)) + 11 < 2 ^ 63 ->
  exists bs,
    MarshalReported m = Val bs /\
    Z.of_nat (length bs) = SizeReported m /\
    UnmarshalReported m0 bs
      = Val (match CkptHash m with [] => m0 | _ => m end, None).
Proof.
  intros Hr. exists (wire_of_hash (CkptHash m)).
  split; [apply MarshalReported_bytes; lia|].
  destruct m as [h]. cbn [CkptHash] in *. unfold wire_of_hash, SizeReported. cbn [CkptHash].
  destruct h as [|b h']; [split; reflexivity|].
  set (h := b :: h') in *. set (l := length h) in *.
  assert (Hl : 0 < Z.of_nat l) by (subst l h; cbn [length]; lia).
  assert (Hrange : 0 <= Z.of_nat l < 2 ^ (7 * Z.of_nat 10)).
  { change (2 ^ (7 * Z.of_nat 10)) with (2 ^ 70). lia. }
  pose proof (varint_length 10 (Z.of_nat l) Hrange ltac:(lia)) as Hlen.
  pose proof (varint_length_le 10 (Z.of_nat l)) as Hle.
  set (vr := varint 10 (Z.of_nat l)) in *.
  split.
  - destruct (Z.of_nat l >? 0) eqn:E; [|rewrite Z.gtb_ltb in E; apply Z.ltb_ge in E; lia].
    cbn [length]. rewrite length_app, <- Hlen. fold l. lia.
  - unfold UnmarshalReported.
    set (d := Byte.x0a :: vr ++ h).
    assert (Hd : Z.of_nat (length d) = 1 + Z.of_nat (length vr) + Z.of_nat l).
    { subst d. cbn [length]. rewrite length_app. fold l. lia. }
    cbn [UnmarshalReported_loop].
    destruct (0 <? Z.of_nat (length d)) eqn:E; [|apply Z.ltb_ge in E; lia].
    assert (Htag : readVarint varint_fuel d (Z.of_nat (length d)) 0 0 0 = Val (10, 1, None)).
    { pose proof (readVarint_varint 1 varint_fuel [] (vr ++ h) 10 0 0) as H.
      cbn [app length varint] in H. apply H.
      - change (2 ^ (7 * Z.of_nat 1)) with 128. lia.
      - lia.
      - unfold varint_fuel. lia.
      - lia.
      - change (2 ^ 0) with 1. lia.
      - change (0 + 10 * 2 ^ 0) with 10. change (2 ^ 64) with 18446744073709551616. lia. }
    rewrite Htag. cbn [go_bind].
    change (int32 (Z.shiftr 10 3)) with 1. change (int64 (Z.land 10 7)) with 2.
    cbn [Z.eqb Z.leb Z.compare negb Pos.eqb Pos.compare Pos.compare_cont].
    assert (Hval : readVarint varint_fuel d (Z.of_nat (length d)) 1 0 0
                   = Val (Z.of_nat l, 1 + Z.of_nat (length vr), None)).
    { pose proof (readVarint_varint 10 varint_fuel [Byte.x0a] h (Z.of_nat l) 0 0) as H.
      cbn [app length] in H. change (Z.of_nat 1) with 1 in H.
      rewrite Z.pow_0_r, Z.mul_1_r, Z.add_0_l in H. apply H.
      - exact Hrange.
      - lia.
      - unfold varint_fuel. lia.
      - lia.
      - lia.
      - change (2 ^ 64) with (2 * 2 ^ 63). lia. }
    rewrite Hval. cbn [go_bind].
    rewrite (int64_small (Z.of_nat l)) by lia.
    destruct (Z.of_nat l <? 0) eqn:E1; [apply Z.ltb_lt in E1; lia|].
    rewrite (int64_small (1 + Z.of_nat (length vr) + Z.of_nat l)) by lia.
    destruct (1 + Z.of_nat (length vr) + Z.of_nat l <? 0) eqn:E2; [apply Z.ltb_lt in E2; lia|].
    rewrite <- Hd.
    destruct (Z.of_nat (length d) >? Z.of_nat (length d)) eqn:E3;
      [rewrite Z.gtb_ltb, Z.ltb_irrefl in E3; discriminate E3|].
    assert (Hslice : slice d (1 + Z.of_nat (length vr)) (Z.of_nat (length d)) = Val h).
    { subst d. change (Byte.x0a :: vr ++ h) with ((Byte.x0a :: vr) ++ h).
      replace (1 + Z.of_nat (length vr)) with (Z.of_nat (length (Byte.x0a :: vr)))
        by (cbn [length]; lia).
      apply slice_suffix. }
    rewrite Hslice. cbn [go_bind].
    destruct (length d) eqn:Hn; [lia|]. rewrite <- Hn.
    apply UnmarshalReported_loop_end.
Qed.

Lemma Unmarshal_Marshal_string_witness :
  UnmarshalReported (mkReportedReq []) [Byte.x0a; Byte.x02; Byte.x61; Byte.x62]
  = Val (mkReportedReq [Byte.x61; Byte.x62], None).
Proof.
  destruct (Unmarshal_Marshal_string (mkReportedReq [Byte.x61; Byte.x62]) (mkReportedReq []))
    as (bs & Hm & _ & Hu).
  - cbn. lia.
  - vm_compute in Hm. injection Hm as <-. exact Hu.
Defined.

End QueryFacts.
